(** * AgriSense backend: a shallow embedding of the request pipeline

    The development follows the layout of the TypeScript sources:
    - [JS]: the JavaScript values and the few operators the handlers use;
    - [Http]: Express requests and responses;
    - [Env]: what the process gets from outside (environment variables, the
      clock, [Math.random], and the libraries jsonwebtoken, bcryptjs, bson);
    - [Mongo]: the document store behind the Mongoose models;
    - the models of [models/], the middleware of [middleware/authMiddleware],
      the handlers of the four controllers and the routers of [routes/].

    A handler is a function from a request and a store to a response and a
    store; its body is written in the [Action] monad, whose early returns and
    exceptions are those of the [try]/[catch] blocks of the source.

    Idealisations, all on the side of the external collaborators:
    JavaScript numbers are rationals (no IEEE rounding); a document is stored
    with the values the handler passes (Mongoose's casting and strict mode are
    not modelled; schema validation is the predicate [schema_valid] of the
    environment); one request sees one instant [now] of the clock. *)

From Stdlib Require Import ZArith QArith Qround Ascii String List.
From stdpp Require Import base option strings list gmap fin_maps pretty.
Import ListNotations.
Open Scope string_scope.

(** ** JavaScript values *)

Module JS.

#[warnings="-register-all"]
Inductive value : Type :=
| VUndefined
| VNull
| VBool (b : bool)
| VNum (q : Q)
| VNaN
| VStr (s : string)
| VDate (ms : Z)
| VArr (l : list value)
| VObj (o : gmap string value).

(** An object literal. *)
Definition obj (l : list (string * value)) : value := VObj (list_to_map l).

Definition int (z : Z) : value := VNum (inject_Z z).

(** The integral part of a number (rounding toward zero). *)
Definition truncate (q : Q) : Z :=
  if (Qnum q <? 0)%Z then Qceiling q else Qfloor q.

(** ToBoolean. *)
Definition truthy (v : value) : bool :=
  match v with
  | VUndefined | VNull | VNaN => false
  | VBool b => b
  | VNum q => negb (Qeq_bool q 0)
  | VStr s => negb (String.eqb s "")
  | VDate _ | VArr _ | VObj _ => true
  end.

Definition is_undefined (v : value) : bool :=
  match v with VUndefined => true | _ => false end.

(** [a || b]. *)
Definition or_else (a b : value) : value := if truthy a then a else b.

(** Property read [v.k] for a key that is no built-in property name (the
    handlers read no [length] and no index): a [TypeError] ([None]) on
    [undefined] and [null], [undefined] when the key is absent. *)
Definition prop (k : string) (v : value) : option value :=
  match v with
  | VUndefined | VNull => None
  | VObj o => Some (default VUndefined (o !! k))
  | _ => Some VUndefined
  end.

(** The same read on a value known to be an object (a request body, a
    hydrated document). *)
Definition field (k : string) (o : gmap string value) : value :=
  default VUndefined (o !! k).

(** Strict equality [===] with a primitive on one side. *)
Definition strict_eq (a b : value) : bool :=
  match a, b with
  | VUndefined, VUndefined | VNull, VNull => true
  | VBool x, VBool y => Bool.eqb x y
  | VNum x, VNum y => Qeq_bool x y
  | VStr x, VStr y => String.eqb x y
  | _, _ => false
  end.

(** [String.prototype.startsWith]. *)
Definition startsWith (p s : string) : bool := String.prefix p s.

(** [String.prototype.split] on a one-character separator. *)
Fixpoint split (sep : ascii) (s : string) : list string :=
  match s with
  | EmptyString => [EmptyString]
  | String a rest =>
      if Ascii.eqb a sep then EmptyString :: split sep rest
      else match split sep rest with
           | [] => [String a EmptyString]
           | w :: ws => String a w :: ws
           end
  end.

(** [String.prototype.includes]. *)
Fixpoint str_includes (s sub : string) : bool :=
  String.prefix sub s ||
  match s with
  | EmptyString => false
  | String _ rest => str_includes rest sub
  end.

(** The characters of a string, as the string iterator yields them. *)
Fixpoint chars (s : string) : list value :=
  match s with
  | EmptyString => []
  | String a rest => VStr (String a EmptyString) :: chars rest
  end.

(** Array spread [[...v]]: arrays and strings are iterable, the other values
    reaching it in the handlers are not ([TypeError]). *)
Definition spread_iter (v : value) : option (list value) :=
  match v with
  | VArr l => Some l
  | VStr s => Some (chars s)
  | _ => None
  end.

(** The own enumerable properties, as [Object.entries] and object spread
    [{...v}] see them. *)
Definition indexed (l : list value) : gmap string value :=
  list_to_map (imap (fun i x => (pretty i, x)) l).

Definition entries (v : value) : gmap string value :=
  match v with
  | VObj o => o
  | VArr l => indexed l
  | VStr s => indexed (chars s)
  | _ => ∅
  end.

(** [x?.includes(s)] for a string [s]: [undefined] (falsy) when [x] is
    [undefined] or [null], membership on an array, substring on a string, a
    [TypeError] on anything else. *)
Definition opt_includes (x : value) (s : string) : option bool :=
  match x with
  | VUndefined | VNull => Some false
  | VArr l => Some (existsb (fun e => strict_eq e (VStr s)) l)
  | VStr t => Some (str_includes t s)
  | _ => None
  end.

End JS.
Export JS.

(** ** Express requests and responses *)

Module Http.

(** [req.user], as [AuthRequest] declares it. *)
Record AuthUser := { id : value; role : value }.

Record Request := {
  headers : gmap string string;
  params : gmap string string;
  query : gmap string string;
  body : value;
  user : option AuthUser
}.

(** What [res.status(code).json(payload)] sends. *)
Record Response := { status : nat; payload : value }.

Definition lookup_str (k : string) (m : gmap string string) : value :=
  match m !! k with Some s => VStr s | None => VUndefined end.

Definition header (k : string) (req : Request) : value := lookup_str k (headers req).
Definition param (k : string) (req : Request) : string := default "" (params req !! k).
Definition query_param (k : string) (req : Request) : value := lookup_str k (query req).

Definition set_header (k v : string) (req : Request) : Request :=
  {| headers := <[k := v]> (headers req); params := params req;
     query := query req; body := body req; user := user req |}.

Definition set_user (u : AuthUser) (req : Request) : Request :=
  {| headers := headers req; params := params req;
     query := query req; body := body req; user := Some u |}.

(** [res.json(v)] and [res.status(c).json(v)]. *)
Definition json (v : value) : Response := {| status := 200; payload := v |}.
Definition status_json (c : nat) (v : value) : Response := {| status := c; payload := v |}.
Definition message (c : nat) (m : string) : Response :=
  status_json c (obj [("message", VStr m)]).

End Http.
Export Http.

(** ** The environment of the process *)

Record Env := {
  (** [process.env] *)
  JWT_SECRET : option string;
  JWT_EXPIRES_IN : option string;
  (** jsonwebtoken: [verify token secret] is [None] when it throws *)
  jwt_verify : string -> string -> option value;
  jwt_sign : value -> string -> value -> option string;
  (** bcryptjs: the salt drawn for this request, the hash and the comparison
      ([None] when they throw on an argument that is no string) *)
  bcrypt_genSalt : nat -> string;
  bcrypt_hash : value -> string -> option string;
  bcrypt_compare : value -> value -> option bool;
  (** bson *)
  ObjectId_isValid : string -> bool;
  ObjectId_new : string;
  (** Mongoose schema validation of a document of the named model *)
  schema_valid : string -> gmap string value -> bool;
  (** the clock, in milliseconds *)
  now : Z;
  (** the k-th call of [Math.random] in this request *)
  Math_random : nat -> Q;
  (** [Array.prototype.sort] with the comparator [() => 0.5 - Math.random()]:
      the order is implementation-defined; given the index of the next draw it
      returns the reordered array and the index after the sort *)
  sort_random : list string -> nat -> list string * nat;
  (** [Date.parse], [None] for an invalid date *)
  Date_parse : string -> option Z;
  Number_toString : Q -> string;
  Date_toString : Z -> string;
  parseInt : string -> value
}.

(** ** The document store *)

Module Mongo.

Abbreviation doc := (gmap string value).

Record Store := {
  users : list doc;
  farms : list doc;
  products : list doc;
  analytics : list doc;
  yieldPredictions : list doc
}.

(** A query condition on one path. *)
Inductive Cond :=
| Eq (v : value)
| Ne (v : value)
| In_ (vs : list value)
| Gte (d : option Z)
| Lte (d : option Z).

(** A filter object is a conjunction of clauses. *)
Inductive Clause :=
| Where (path : list string) (c : Cond)
| Or (alternatives : list (list string * Cond)).

Fixpoint at_path (p : list string) (v : value) : value :=
  match p with
  | [] => v
  | k :: p' =>
      match v with
      | VObj o => match o !! k with Some w => at_path p' w | None => VUndefined end
      | _ => VUndefined
      end
  end.

(** Equality match: the field equals the operand, or is an array holding it;
    a [null] operand also matches a missing field.  Operands are primitives
    (operator objects are not modelled). *)
Definition eq_match (fld operand : value) : bool :=
  match fld with
  | VArr l => existsb (fun e => strict_eq e operand) l
  | VUndefined | VNull =>
      match operand with VNull | VUndefined => true | _ => false end
  | VDate x => match operand with VDate y => Z.eqb x y | _ => false end
  | _ => strict_eq fld operand
  end.

Definition cond_match (c : Cond) (fld : value) : bool :=
  match c with
  | Eq v => eq_match fld v
  | Ne v => negb (eq_match fld v)
  | In_ vs => existsb (eq_match fld) vs
  | Gte (Some t) => match fld with VDate x => Z.leb t x | _ => false end
  | Lte (Some t) => match fld with VDate x => Z.leb x t | _ => false end
  | Gte None | Lte None => false
  end.

Definition clause_match (d : doc) (cl : Clause) : bool :=
  match cl with
  | Where p c => cond_match c (at_path p (VObj d))
  | Or alts => existsb (fun pc => cond_match (snd pc) (at_path (fst pc) (VObj d))) alts
  end.

Definition matches (q : list Clause) (d : doc) : bool := forallb (clause_match d) q.

(** An invalid date as operand makes Mongoose's cast of the filter throw. *)
Definition cond_castable (c : Cond) : bool :=
  match c with Gte None | Lte None => false | _ => true end.

Definition castable (q : list Clause) : bool :=
  forallb (fun cl => match cl with
                     | Where _ c => cond_castable c
                     | Or alts => forallb (fun pc => cond_castable (snd pc)) alts
                     end) q.

End Mongo.
Export Mongo.

(** ** Handlers as store actions

    A handler body runs in [Action]: it reads and writes the store and ends
    normally, by an early [return res...json(...)], or by throwing into the
    handler's [catch]. *)

Inductive Completion (A : Type) :=
| Normal (a : A)
| Return (r : Response)
| Throw.
Arguments Normal {A} a.
Arguments Return {A} r.
Arguments Throw {A}.

Definition Action (A : Type) : Type := Store -> Completion A * Store.

Definition ret {A} (a : A) : Action A := fun st => (Normal a, st).

Definition bind {A B} (m : Action A) (k : A -> Action B) : Action B :=
  fun st =>
    match m st with
    | (Normal a, st') => k a st'
    | (Return r, st') => (Return r, st')
    | (Throw, st') => (Throw, st')
    end.

#[global] Instance Action_ret : MRet Action := @ret.
#[global] Instance Action_bind : MBind Action := fun A B k m => bind m k.

(** [return res.status(c).json(v);] *)
Definition reply {A} (r : Response) : Action A := fun st => (Return r, st).

(** [if (c) return res...;] *)
Definition return_if (c : bool) (r : Response) : Action unit :=
  if c then reply r else ret tt.

(** A JavaScript expression that may throw. *)
Definition eval {A} (o : option A) : Action A :=
  fun st => match o with Some a => (Normal a, st) | None => (Throw, st) end.

Definition Handler : Type := Request -> Store -> Response * Store.

(** [try { body } catch (error) { res.status(500).json(...) }] *)
Definition try_catch (m : Action Response) (on_error : Response) : Store -> Response * Store :=
  fun st =>
    match m st with
    | (Normal r, st') | (Return r, st') => (r, st')
    | (Throw, st') => (on_error, st')
    end.

(** ** Mongoose models *)

Record Model := {
  modelName : string;
  collection : Store -> list doc;
  set_collection : list doc -> Store -> Store;
  (** the [default:] entries of the schema *)
  defaults : doc -> doc;
  (** the paths with [unique: true] *)
  unique : list string
}.

Definition doc_id (d : doc) : value := field "_id" d.

Definition has_id (i : string) (d : doc) : bool := strict_eq (doc_id d) (VStr i).

(** Stable insertion sort for [.sort({ createdAt: -1 })]; a document without
    a date sorts as the oldest. *)
Definition createdAt_ms (d : doc) : option Z :=
  match field "createdAt" d with VDate t => Some t | _ => None end.

Definition older (a b : doc) : bool :=
  match createdAt_ms a, createdAt_ms b with
  | Some x, Some y => Z.ltb x y
  | None, Some _ => true
  | _, None => false
  end.

Fixpoint insert_newest_first (d : doc) (l : list doc) : list doc :=
  match l with
  | [] => [d]
  | x :: xs => if older d x then x :: insert_newest_first d xs else d :: x :: xs
  end.

Definition sort_createdAt_desc (l : list doc) : list doc :=
  foldr insert_newest_first [] l.

(** [remove_first f l] drops the first element satisfying [f]. *)
Fixpoint remove_first (f : doc -> bool) (l : list doc) : list doc :=
  match l with
  | [] => []
  | x :: xs => if f x then xs else x :: remove_first f xs
  end.

(** [replace_first f d l] puts [d] in place of the first element satisfying [f]. *)
Fixpoint replace_first (f : doc -> bool) (d : doc) (l : list doc) : list doc :=
  match l with
  | [] => []
  | x :: xs => if f x then d :: xs else x :: replace_first f d xs
  end.

Section ModelOperations.
Variable env : Env.
Variable M : Model.

(** [Model.find(filter)] *)
Definition Model_find (q : list Clause) : Action (list doc) :=
  fun st =>
    if castable q then (Normal (filter (fun d => matches q d = true) (collection M st)), st)
    else (Throw, st).

(** [Model.findOne(filter)] *)
Definition Model_findOne (q : list Clause) : Action (option doc) :=
  l ← Model_find q; ret (head l).

(** [Model.findById(id)] for an id taken from the route. *)
Definition Model_findById (i : string) : Action (option doc) :=
  fun st => (Normal (List.find (has_id i) (collection M st)), st).

Definition unique_ok (d : doc) (st : Store) : bool :=
  forallb (fun p => negb (existsb (fun d' => eq_match (field p d') (field p d))
                                  (collection M st))) (unique M).

(** [Model.create(input)]: fields given as [undefined] are left out, the
    schema defaults filled in, [_id] and the timestamps added; a document
    the schema or a unique index rejects makes it throw. *)
Definition Model_create (input : doc) : Action doc :=
  fun st =>
    let given := filter (fun kv => is_undefined kv.2 = false) input in
    let d := <["updatedAt" := VDate (now env)]>
             (<["createdAt" := VDate (now env)]>
             (<["_id" := VStr (ObjectId_new env)]> (defaults M given))) in
    if schema_valid env (modelName M) d && unique_ok d st
    then (Normal d, set_collection M (collection M st ++ [d]) st)
    else (Throw, st).

(** [Model.findByIdAndUpdate(id, { $set: fields }, { new: true })]: the
    named fields are overwritten, [updatedAt] is stamped. *)
Definition Model_findByIdAndUpdate_set (i : string) (fields : doc) : Action (option doc) :=
  fun st =>
    match List.find (has_id i) (collection M st) with
    | None => (Normal None, st)
    | Some d =>
        let d' := <["updatedAt" := VDate (now env)]> (fields ∪ d) in
        (Normal (Some d'), set_collection M (replace_first (has_id i) d' (collection M st)) st)
    end.

(** [Model.findByIdAndDelete(id)] and [document.deleteOne()] *)
Definition Model_deleteById (i : string) : Action unit :=
  fun st => (Normal tt, set_collection M (remove_first (has_id i) (collection M st)) st).

Definition same_id (d x : doc) : bool := strict_eq (doc_id x) (doc_id d).

Definition unique_among_others (d : doc) (st : Store) : bool :=
  forallb (fun p => negb (existsb (fun d' => negb (same_id d d') &&
                                             eq_match (field p d') (field p d))
                                  (collection M st))) (unique M).

(** [document.save()] of a document loaded from the collection: it takes the
    place of the stored document with its [_id]; [updatedAt] is stamped; a
    document the schema rejects, or one that collides with another document
    on a unique path, makes it throw. *)
Definition Model_save (d : doc) : Action doc :=
  fun st =>
    let d' := <["updatedAt" := VDate (now env)]> d in
    if schema_valid env (modelName M) d' && unique_among_others d' st
    then (Normal d',
          set_collection M (replace_first (same_id d) d' (collection M st)) st)
    else (Throw, st).
End ModelOperations.

(** ** models/ *)

Inductive UserRole := FARMER | VENDOR | NGO | ADMIN.

Definition UserRole_value (r : UserRole) : string :=
  match r with
  | FARMER => "farmer" | VENDOR => "vendor" | NGO => "ngo" | ADMIN => "admin"
  end.

Inductive ProductStatus := AVAILABLE | RESERVED | SOLD.

Definition ProductStatus_value (s : ProductStatus) : string :=
  match s with
  | AVAILABLE => "available" | RESERVED => "reserved" | SOLD => "sold"
  end.

Inductive ProductCategory := FRUITS | VEGETABLES | GRAINS | DAIRY | LIVESTOCK | OTHER.

Definition ProductCategory_value (c : ProductCategory) : string :=
  match c with
  | FRUITS => "fruits" | VEGETABLES => "vegetables" | GRAINS => "grains"
  | DAIRY => "dairy" | LIVESTOCK => "livestock" | OTHER => "other"
  end.

(** [Object.values(ProductCategory)] *)
Definition ProductCategory_values : list ProductCategory :=
  [FRUITS; VEGETABLES; GRAINS; DAIRY; LIVESTOCK; OTHER].

Definition set_default (k : string) (v : value) (d : doc) : doc :=
  match d !! k with Some _ => d | None => <[k := v]> d end.

Definition set_users (l : list doc) (st : Store) : Store :=
  {| users := l; farms := farms st; products := products st;
     analytics := analytics st; yieldPredictions := yieldPredictions st |}.
Definition set_farms (l : list doc) (st : Store) : Store :=
  {| users := users st; farms := l; products := products st;
     analytics := analytics st; yieldPredictions := yieldPredictions st |}.
Definition set_products (l : list doc) (st : Store) : Store :=
  {| users := users st; farms := farms st; products := l;
     analytics := analytics st; yieldPredictions := yieldPredictions st |}.
Definition set_analytics (l : list doc) (st : Store) : Store :=
  {| users := users st; farms := farms st; products := products st;
     analytics := l; yieldPredictions := yieldPredictions st |}.
Definition set_yieldPredictions (l : list doc) (st : Store) : Store :=
  {| users := users st; farms := farms st; products := products st;
     analytics := analytics st; yieldPredictions := l |}.

Definition User : Model :=
  {| modelName := "User"; collection := users; set_collection := set_users;
     defaults := set_default "role" (VStr (UserRole_value FARMER));
     unique := ["email"] |}.

Definition Farm : Model :=
  {| modelName := "Farm"; collection := farms; set_collection := set_farms;
     defaults := fun d => d; unique := [] |}.

Definition Product : Model :=
  {| modelName := "Product"; collection := products; set_collection := set_products;
     defaults := fun d =>
       set_default "status" (VStr (ProductStatus_value AVAILABLE))
         (set_default "currency" (VStr "USD") d);
     unique := [] |}.

(** [accessRights.public] defaults to [false]. *)
Definition Analytics_defaults (d : doc) : doc :=
  match d !! "accessRights" with
  | None => <["accessRights" := obj [("public", VBool false)]]> d
  | Some (VObj ar) =>
      match ar !! "public" with
      | None | Some VUndefined => <["accessRights" := VObj (<["public" := VBool false]> ar)]> d
      | Some _ => d
      end
  | Some _ => d
  end.

Definition Analytics : Model :=
  {| modelName := "Analytics"; collection := analytics; set_collection := set_analytics;
     defaults := Analytics_defaults; unique := [] |}.

Definition YieldPrediction : Model :=
  {| modelName := "YieldPrediction"; collection := yieldPredictions;
     set_collection := set_yieldPredictions; defaults := fun d => d; unique := [] |}.

(** ** middleware/authMiddleware *)

Inductive MiddlewareResult :=
| Respond (r : Response)
| Next (req : Request).

Definition Middleware : Type := Request -> MiddlewareResult.

(** [authorize] takes one role or an array of roles. *)
Inductive Roles :=
| OneRole (r : UserRole)
| RoleArray (l : list UserRole).

Section Middleware.
Variable env : Env.

(** [process.env.JWT_SECRET || 'fallback_secret'] *)
Definition secret : string :=
  match JWT_SECRET env with
  | Some s => if String.eqb s "" then "fallback_secret" else s
  | None => "fallback_secret"
  end.

(** The token [protect] reads off the Authorization header. *)
Definition bearer_token (req : Request) : value :=
  match header "authorization" req with
  | VStr a =>
      if truthy (VStr a) && startsWith "Bearer" a
      then match nth_error (split " " a) 1 with
           | Some t => VStr t
           | None => VUndefined
           end
      else VUndefined
  | _ => VUndefined
  end.

Definition protect : Middleware := fun req =>
  match bearer_token req with
  | VStr t =>
      if negb (truthy (VStr t))
      then Respond (message 401 "Not authorized, no token provided")
      else
        match jwt_verify env t secret with
        | Some decoded =>
            match prop "id" decoded, prop "role" decoded with
            | Some i, Some r => Next (set_user {| id := i; role := r |} req)
            | _, _ => Respond (message 401 "Not authorized, invalid token")
            end
        | None => Respond (message 401 "Not authorized, invalid token")
        end
  | _ => Respond (message 401 "Not authorized, no token provided")
  end.

Definition authorize (roles : Roles) : Middleware := fun req =>
  match user req with
  | None => Respond (message 401 "Not authorized, no user found")
  | Some u =>
      let allowedRoles := match roles with OneRole r => [r] | RoleArray l => l end in
      if negb (existsb (fun r => strict_eq (VStr (UserRole_value r)) (role u)) allowedRoles)
      then Respond (message 403 ("Access denied. Required role: " ++
                                 String.concat " or " (List.map UserRole_value allowedRoles)))
      else Next req
  end.

Definition farmerOnly : Middleware := authorize (OneRole FARMER).
Definition vendorOnly : Middleware := authorize (OneRole VENDOR).
Definition ngoOnly : Middleware := authorize (OneRole NGO).
Definition adminOnly : Middleware := authorize (OneRole ADMIN).
End Middleware.

(** [router.use(m1, m2, ...)] in front of a handler: the first middleware
    that responds ends the request. *)
Fixpoint use (ms : list Middleware) (h : Handler) : Handler :=
  fun req st =>
    match ms with
    | [] => h req st
    | m :: rest =>
        match m req with
        | Respond r => (r, st)
        | Next req' => use rest h req' st
        end
    end.

(** ** controllers/ *)

Section Controllers.
Variable env : Env.

(** [v.toString()]: a [TypeError] on [undefined] and [null]. *)
Fixpoint toString (v : value) : option string :=
  match v with
  | VUndefined | VNull => None
  | VBool b => Some (if b then "true" else "false")
  | VNum q => Some (Number_toString env q)
  | VNaN => Some "NaN"
  | VStr s => Some s
  | VDate t => Some (Date_toString env t)
  | VArr l => Some (String.concat "," (List.map (fun e => default "" (toString e)) l))
  | VObj _ => Some "[object Object]"
  end.

(** [new Date(v).getTime()], [None] for [NaN]. *)
Definition Date_getTime (v : value) : option Z :=
  match v with
  | VDate t => Some t
  | VNum q => Some (truncate q)
  | VNull => Some 0%Z
  | VBool b => Some (if b then 1 else 0)%Z
  | VUndefined | VNaN => None
  | VStr s => Date_parse env s
  | VArr _ | VObj _ => toString v ≫= Date_parse env
  end.

(** [Object.entries(v)] throws on [undefined] and [null]. *)
Definition Object_entries (v : value) : option doc :=
  match v with
  | VUndefined | VNull => None
  | _ => Some (entries v)
  end.

(** *** userController *)

Definition generateToken (id_ role_ : value) : option string :=
  i ← toString id_;
  let payload := obj [("id", VStr i); ("role", role_)] in
  let options :=
    obj [("expiresIn",
          match JWT_EXPIRES_IN env with
          | Some s => if truthy (VStr s) then parseInt env s else VStr "30d"
          | None => VStr "30d"
          end)] in
  jwt_sign env payload (secret env) options.

Definition register : Handler := fun req =>
  try_catch (
    name ← eval (prop "name" (body req));
    email ← eval (prop "email" (body req));
    password ← eval (prop "password" (body req));
    role_ ← eval (prop "role" (body req));
    location ← eval (prop "location" (body req));
    phoneNumber ← eval (prop "phoneNumber" (body req));
    userExists ← Model_findOne User [Where ["email"] (Eq email)];
    match userExists with
    | Some _ => reply (message 400 "User already exists")
    | None =>
        let salt := bcrypt_genSalt env 10 in
        hashedPassword ← eval (bcrypt_hash env password salt);
        user_ ← Model_create env User (list_to_map
          [("name", name); ("email", email); ("password", VStr hashedPassword);
           ("role", or_else role_ (VStr (UserRole_value FARMER)));
           ("location", location); ("phoneNumber", phoneNumber)]);
        if truthy (VObj user_) then
          token ← eval (generateToken (doc_id user_) (field "role" user_));
          ret (status_json 201 (obj
            [("_id", doc_id user_); ("name", field "name" user_);
             ("email", field "email" user_); ("role", field "role" user_);
             ("location", field "location" user_); ("token", VStr token)]))
        else ret (message 400 "Invalid user data")
    end)
    (message 500 "Server error during registration").

Definition login : Handler := fun req =>
  try_catch (
    email ← eval (prop "email" (body req));
    password ← eval (prop "password" (body req));
    found ← Model_findOne User [Where ["email"] (Eq email)];
    match found with
    | None => reply (message 401 "Invalid email or password")
    | Some user_ =>
        isMatch ← eval (bcrypt_compare env password (field "password" user_));
        return_if (negb isMatch) (message 401 "Invalid email or password");;
        token ← eval (generateToken (doc_id user_) (field "role" user_));
        ret (json (obj
          [("_id", doc_id user_); ("name", field "name" user_);
           ("email", field "email" user_); ("role", field "role" user_);
           ("location", field "location" user_); ("token", VStr token)]))
    end)
    (message 500 "Server error during login").

Definition getProfile : Handler := fun req =>
  try_catch (
    match user req with
    | None => reply (message 401 "Not authorized")
    | Some u =>
        found ← Model_findOne User [Where ["_id"] (Eq (id u))];
        match found with
        | None => reply (message 404 "User not found")
        | Some user_ => ret (json (VObj (delete "password" user_)))
        end
    end)
    (message 500 "Server error getting profile").

Definition updateProfile : Handler := fun req =>
  try_catch (
    match user req with
    | None => reply (message 401 "Not authorized")
    | Some u =>
        found ← Model_findOne User [Where ["_id"] (Eq (id u))];
        match found with
        | None => reply (message 404 "User not found")
        | Some user_ =>
            name ← eval (prop "name" (body req));
            email ← eval (prop "email" (body req));
            location ← eval (prop "location" (body req));
            phoneNumber ← eval (prop "phoneNumber" (body req));
            password ← eval (prop "password" (body req));
            let edited : doc :=
              <["phoneNumber" := or_else phoneNumber (field "phoneNumber" user_)]>
              (<["location" := or_else location (field "location" user_)]>
              (<["email" := or_else email (field "email" user_)]>
              (<["name" := or_else name (field "name" user_)]> user_))) in
            rehashed ←
              (if truthy password
               then
                 let salt := bcrypt_genSalt env 10 in
                 hashed ← eval (bcrypt_hash env password salt);
                 ret (<["password" := VStr hashed]> edited)
               else ret edited);
            updatedUser ← Model_save env User rehashed;
            token ← eval (generateToken (doc_id updatedUser) (field "role" updatedUser));
            ret (json (obj
              [("_id", doc_id updatedUser); ("name", field "name" updatedUser);
               ("email", field "email" updatedUser); ("role", field "role" updatedUser);
               ("location", field "location" updatedUser); ("token", VStr token)]))
        end
    end)
    (message 500 "Server error updating profile").

(** Exported by the controller, mounted on no router. *)
Definition getUsers : Handler := fun req =>
  try_catch (
    found ← Model_find User [];
    ret (json (VArr (List.map (fun u => VObj (delete "password" u)) found))))
    (message 500 "Server error getting users").

(** *** vendorController *)

(** [.populate(path, select)]: the referenced document, cut down to [_id]
    and the selected fields, or [null] when there is none. *)
Definition populate (M : Model) (path : string) (select : list string)
    (st : Store) (d : doc) : doc :=
  match d !! path with
  | None => d
  | Some ref =>
      let target :=
        match List.find (fun x => eq_match (doc_id x) ref) (collection M st) with
        | Some x => VObj (filter (fun kv => kv.1 ∈ "_id" :: select) x)
        | None => VNull
        end in
      <[path := target]> d
  end.

Definition populated (M : Model) (path : string) (select : list string)
    (d : doc) : Action doc :=
  fun st => (Normal (populate M path select st d), st).

Definition populated_all (M : Model) (path : string) (select : list string)
    (l : list doc) : Action (list doc) :=
  fun st => (Normal (List.map (populate M path select st) l), st).

(** [if (req.query.k) filters[path] = req.query.k;] *)
Definition query_filter (req : Request) (k : string) (path : list string) : list Clause :=
  if truthy (query_param k req) then [Where path (Eq (query_param k req))] else [].

Definition listProducts : Handler := fun req =>
  try_catch (
    let userId := header "user-id" req in
    return_if (negb (truthy userId)) (message 401 "Not authorized");;
    let filters :=
      (query_filter req "category" ["category"] ++
       query_filter req "status" ["status"] ++
       (if strict_eq (query_param "mine" req) (VStr "true")
        then [Where ["seller"] (Eq userId)] else []) ++
       query_filter req "country" ["location"; "country"] ++
       query_filter req "region" ["location"; "region"])%list in
    found ← Model_find Product filters;
    products_ ← populated_all User "seller" ["name"; "phoneNumber"]
                  (sort_createdAt_desc found);
    ret (json (VArr (List.map VObj products_))))
    (message 500 "Server error").

Definition getProductById : Handler := fun req =>
  try_catch (
    let productId := param "productId" req in
    return_if (negb (ObjectId_isValid env productId)) (message 400 "Invalid product ID");;
    found ← Model_findById Product productId;
    match found with
    | Some p =>
        p1 ← populated User "seller" ["name"; "phoneNumber"] p;
        product ← populated Farm "farm" ["name"; "location"] p1;
        ret (json (VObj product))
    | None => reply (message 404 "Product not found")
    end)
    (message 500 "Server error").

Definition createProduct : Handler := fun req =>
  try_catch (
    let userId := header "user-id" req in
    return_if (negb (truthy userId)) (message 401 "Not authorized");;
    name ← eval (prop "name" (body req));
    description ← eval (prop "description" (body req));
    category ← eval (prop "category" (body req));
    quantity ← eval (prop "quantity" (body req));
    unit_ ← eval (prop "unit" (body req));
    price ← eval (prop "price" (body req));
    currency ← eval (prop "currency" (body req));
    harvestDate ← eval (prop "harvestDate" (body req));
    expiryEstimate ← eval (prop "expiryEstimate" (body req));
    location ← eval (prop "location" (body req));
    farmId ← eval (prop "farmId" (body req));
    images ← eval (prop "images" (body req));
    qualityCertification ← eval (prop "qualityCertification" (body req));
    organicCertification ← eval (prop "organicCertification" (body req));
    storageRequirements ← eval (prop "storageRequirements" (body req));
    product ← Model_create env Product (list_to_map
      [("seller", userId); ("farm", or_else farmId VUndefined);
       ("name", name); ("description", description); ("category", category);
       ("quantity", quantity); ("unit", unit_); ("price", price);
       ("currency", currency); ("harvestDate", harvestDate);
       ("expiryEstimate", expiryEstimate);
       ("status", VStr (ProductStatus_value AVAILABLE));
       ("location", location); ("images", images);
       ("qualityCertification", qualityCertification);
       ("organicCertification", organicCertification);
       ("storageRequirements", storageRequirements)]);
    ret (status_json 201 (VObj product)))
    (message 500 "Server error").

(** [Object.fromEntries(Object.entries(req.body).filter(([key]) =>
    key !== 'seller' && key !== '_id'))] *)
Definition updatable_fields (b : value) : option doc :=
  filter (fun kv => kv.1 ≠ "seller" ∧ kv.1 ≠ "_id") <$> Object_entries b.

Definition updateProduct : Handler := fun req =>
  try_catch (
    let userId := header "user-id" req in
    let productId := param "productId" req in
    return_if (negb (truthy userId)) (message 401 "Not authorized");;
    return_if (negb (ObjectId_isValid env productId)) (message 400 "Invalid product ID");;
    found ← Model_findById Product productId;
    match found with
    | None => reply (message 404 "Product not found")
    | Some product =>
        seller ← eval (toString (field "seller" product));
        caller ← eval (toString userId);
        return_if (negb (String.eqb seller caller))
          (message 403 "Not authorized to update this product");;
        fields ← eval (updatable_fields (body req));
        updatedProduct ← Model_findByIdAndUpdate_set env Product productId fields;
        match updatedProduct with
        | None => reply (message 404 "Product not found after update")
        | Some p => ret (json (VObj p))
        end
    end)
    (message 500 "Server error").

Definition deleteProduct : Handler := fun req =>
  try_catch (
    let userId := header "user-id" req in
    let productId := param "productId" req in
    return_if (negb (truthy userId)) (message 401 "Not authorized");;
    return_if (negb (ObjectId_isValid env productId)) (message 400 "Invalid product ID");;
    found ← Model_findById Product productId;
    match found with
    | None => reply (message 404 "Product not found")
    | Some product =>
        seller ← eval (toString (field "seller" product));
        caller ← eval (toString userId);
        return_if (negb (String.eqb seller caller))
          (message 403 "Not authorized to delete this product");;
        Model_deleteById Product productId;;
        ret (json (obj [("message", VStr "Product removed")]))
    end)
    (message 500 "Server error").

Definition getRiskRecommendations (riskLevel : string) (category : value) : list string :=
  if String.eqb riskLevel "critical" then
    ["Sell immediately at discount"; "Process into longer-lasting form";
     "Donate to local food bank within 24 hours"]
  else if String.eqb riskLevel "high" then
    ["Adjust storage conditions to extend shelf life"; "Consider promotional pricing";
     "Move to high-visibility marketplace location"]
  else if String.eqb riskLevel "medium" then
    ["Monitor storage conditions daily"; "Check for signs of early deterioration";
     "Plan marketing strategy for next week"]
  else
    ["Standard storage procedures are sufficient"; "Regular quality checks recommended"].

(** The body of the [products.map] callback; a comparison with [NaN] is false. *)
Definition spoilageRisk (product : doc) : value :=
  let currentDate := now env in
  let expiryDate := Date_getTime (field "expiryEstimate" product) in
  let daysUntilExpiry := (fun e => ((e - currentDate) / (1000 * 60 * 60 * 24))%Z) <$> expiryDate in
  let below (n : Z) := match daysUntilExpiry with Some d => (d <? n)%Z | None => false end in
  let risk : Q * string :=
    if below 3%Z then ((9 # 10)%Q, "critical")
    else if below 7%Z then ((7 # 10)%Q, "high")
    else if below 14%Z then ((4 # 10)%Q, "medium")
    else ((1 # 10)%Q, "low") in
  obj [("productId", doc_id product);
       ("productName", field "name" product);
       ("expiryDate", field "expiryEstimate" product);
       ("daysUntilExpiry", match daysUntilExpiry with Some d => int d | None => VNaN end);
       ("riskScore", VNum risk.1);
       ("riskLevel", VStr risk.2);
       ("recommendations",
        VArr (List.map VStr (getRiskRecommendations risk.2 (field "category" product))))].

Definition getSpoilageRisks : Handler := fun req =>
  try_catch (
    let userId := header "user-id" req in
    return_if (negb (truthy userId)) (message 401 "Not authorized");;
    products_ ← Model_find Product
      [Where ["seller"] (Eq userId);
       Where ["status"] (Ne (VStr (ProductStatus_value SOLD)))];
    let spoilageRisks := List.map spoilageRisk products_ in
    ret (json (VArr spoilageRisks)))
    (message 500 "Server error").

(** [Math.random] draws are numbered within a request: a computation takes
    the index of the next draw and returns the index after its last one. *)
Definition getBestMarkets (category : string) (k : nat) : list string * nat :=
  let markets :=
    ["Central Farmers Market"; "East District Food Hub";
     "Western Agricultural Exchange"; "Northern Territory Trade Center";
     "Southern Cooperative Market"] in
  let numMarkets := (Qfloor (Math_random env k * 2) + 2)%Z in
  let shuffled := sort_random env markets (S k) in
  (take (Z.to_nat numMarkets) shuffled.1, shuffled.2).

(** The body of the [Object.values(ProductCategory).map] callback. *)
Definition demandForecast (category : ProductCategory) (k : nat) : value * nat :=
  let demandScore := Math_random env k in
  let advice : string * string :=
    if negb (Qle_bool demandScore (7 # 10)) then ("increasing", "consider 5-10% increase")
    else if negb (Qle_bool (3 # 10) demandScore) then ("decreasing", "consider 5-10% discount")
    else ("stable", "maintain") in
  let bestMarkets := getBestMarkets (ProductCategory_value category) (S k) in
  let k1 := bestMarkets.2 in
  let nextWeek := (Qfloor (Math_random env k1 * 50) + 50)%Z in
  let nextMonth := (Qfloor (Math_random env (S k1) * 200) + 100)%Z in
  (obj [("category", VStr (ProductCategory_value category));
        ("demandScore", VNum demandScore);
        ("demandTrend", VStr advice.1);
        ("priceRecommendation", VStr advice.2);
        ("bestMarkets", VArr (List.map VStr bestMarkets.1));
        ("forecast", obj [("nextWeek", int nextWeek); ("nextMonth", int nextMonth)])],
   S (S k1)).

Fixpoint map_drawing {A B} (f : A -> nat -> B * nat) (l : list A) (k : nat) : list B * nat :=
  match l with
  | [] => ([], k)
  | x :: xs =>
      let y := f x k in
      let ys := map_drawing f xs y.2 in
      (y.1 :: ys.1, ys.2)
  end.

Definition getDemandForecasts : Handler := fun req =>
  try_catch (
    let userId := header "user-id" req in
    return_if (negb (truthy userId)) (message 401 "Not authorized");;
    let mockForecasts := (map_drawing demandForecast ProductCategory_values 0).1 in
    ret (json (VArr mockForecasts)))
    (message 500 "Server error").

(** *** farmerController *)

(** [new Date(t)] keeps the integral part of a time value. *)
Definition Date_of (t : Q) : value := VDate (truncate t).

(** [new Date(v)]; an invalid date is kept as [NaN], its time value. *)
Definition Date_new (v : value) : value :=
  match Date_getTime v with Some t => VDate t | None => VNaN end.

(** [Farm.findOne({ owner: req.user.id })] *)
Definition farm_of (u : AuthUser) : Action (option doc) :=
  Model_findOne Farm [Where ["owner"] (Eq (id u))].

Definition getFarmProfile : Handler := fun req =>
  try_catch (
    match user req with
    | None => reply (message 401 "Not authorized")
    | Some u =>
        found ← farm_of u;
        match found with
        | Some farm => ret (json (VObj farm))
        | None => reply (message 404 "Farm not found")
        end
    end)
    (message 500 "Server error getting farm profile").

Definition updateFarmProfile : Handler := fun req =>
  try_catch (
    match user req with
    | None => reply (message 401 "Not authorized")
    | Some u =>
        name ← eval (prop "name" (body req));
        location ← eval (prop "location" (body req));
        size ← eval (prop "size" (body req));
        soilCharacteristics ← eval (prop "soilCharacteristics" (body req));
        waterSource ← eval (prop "waterSource" (body req));
        equipment ← eval (prop "equipment" (body req));
        found ← farm_of u;
        match found with
        | Some farm =>
            let edited : doc :=
              <["equipment" := or_else equipment (field "equipment" farm)]>
              (<["waterSource" := or_else waterSource (field "waterSource" farm)]>
              (<["soilCharacteristics" :=
                   or_else soilCharacteristics (field "soilCharacteristics" farm)]>
              (<["size" := or_else size (field "size" farm)]>
              (<["location" := or_else location (field "location" farm)]>
              (<["name" := or_else name (field "name" farm)]> farm))))) in
            updatedFarm ← Model_save env Farm edited;
            ret (json (VObj updatedFarm))
        | None =>
            farm ← Model_create env Farm (list_to_map
              [("owner", id u); ("name", name); ("location", location); ("size", size);
               ("crops", VArr []); ("soilCharacteristics", soilCharacteristics);
               ("waterSource", waterSource); ("equipment", equipment)]);
            ret (status_json 201 (VObj farm))
        end
    end)
    (message 500 "Server error updating farm profile").

(** [farm.crops], an array of embedded documents. *)
Definition crops_of (farm : doc) : option (list value) :=
  match field "crops" farm with VArr l => Some l | _ => None end.

(** [crop._id.toString() === cropId] *)
Definition is_crop (cropId : string) (crop : value) : option bool :=
  i ← prop "_id" crop;
  s ← toString i;
  Some (String.eqb s cropId).

(** [crops.findIndex(crop => ...)], [None] for [-1]. *)
Fixpoint findIndex (f : value -> option bool) (crops : list value) : option (option nat) :=
  match crops with
  | [] => Some None
  | c :: rest =>
      b ← f c;
      if b : bool then Some (Some 0%nat)
      else match findIndex f rest with
           | Some (Some n) => Some (Some (S n))
           | other => other
           end
  end.

(** [crops.filter(crop => ...)] with a callback that may throw. *)
Fixpoint filter_crops (f : value -> option bool) (crops : list value) : option (list value) :=
  match crops with
  | [] => Some []
  | c :: rest =>
      b ← f c;
      kept ← filter_crops f rest;
      Some (if b : bool then c :: kept else kept)
  end.

Definition addCrop : Handler := fun req =>
  try_catch (
    match user req with
    | None => reply (message 401 "Not authorized")
    | Some u =>
        name ← eval (prop "name" (body req));
        variety ← eval (prop "variety" (body req));
        plantingDate ← eval (prop "plantingDate" (body req));
        expectedHarvestDate ← eval (prop "expectedHarvestDate" (body req));
        area ← eval (prop "area" (body req));
        soilType ← eval (prop "soilType" (body req));
        irrigationType ← eval (prop "irrigationType" (body req));
        previousYields ← eval (prop "previousYields" (body req));
        found ← farm_of u;
        match found with
        | None => reply (message 404 "Farm not found. Please create a farm profile first.")
        | Some farm =>
            let cropData : doc := list_to_map
              [("name", name); ("variety", variety);
               ("plantingDate", Date_new plantingDate);
               ("expectedHarvestDate",
                if truthy expectedHarvestDate then Date_new expectedHarvestDate
                else VUndefined);
               ("area", area); ("soilType", soilType);
               ("irrigationType", irrigationType); ("previousYields", previousYields)] in
            let embedded : doc :=
              <["_id" := VStr (ObjectId_new env)]>
                (filter (fun kv => is_undefined kv.2 = false) cropData) in
            crops ← eval (crops_of farm);
            updatedFarm ← Model_save env Farm (<["crops" := VArr (crops ++ [VObj embedded])]> farm);
            updatedCrops ← eval (crops_of updatedFarm);
            let newCrop := default VUndefined (last updatedCrops) in
            ret (status_json 201 newCrop)
        end
    end)
    (message 500 "Server error adding crop").

(** The body of the [Object.keys(updateData).forEach] callback: a date field
    is set when the value is truthy, any other field unless the value is
    [undefined]. *)
Definition set_crop_field (key : string) (v : value) (crop : doc) : doc :=
  if decide (key = "plantingDate" \/ key = "expectedHarvestDate")
  then (if truthy v then <[key := Date_new v]> crop else crop)
  else (if is_undefined v then crop else <[key := v]> crop).

Definition updateCrop : Handler := fun req =>
  try_catch (
    match user req with
    | None => reply (message 401 "Not authorized")
    | Some u =>
        let cropId := param "cropId" req in
        let updateData := body req in
        found ← farm_of u;
        match found with
        | None => reply (message 404 "Farm not found")
        | Some farm =>
            crops ← eval (crops_of farm);
            cropIndex ← eval (findIndex (is_crop cropId) crops);
            match cropIndex with
            | None => reply (message 404 "Crop not found")
            | Some i =>
                keys ← eval (Object_entries updateData);
                crop ← eval (match crops !! i with Some (VObj c) => Some c | _ => None end);
                let edited := VObj (map_fold set_crop_field crop keys) in
                updatedFarm ← Model_save env Farm (<["crops" := VArr (<[i := edited]> crops)]> farm);
                updatedCrops ← eval (crops_of updatedFarm);
                ret (json (default VUndefined (updatedCrops !! i)))
            end
        end
    end)
    (message 500 "Server error updating crop").

Definition deleteCrop : Handler := fun req =>
  try_catch (
    match user req with
    | None => reply (message 401 "Not authorized")
    | Some u =>
        let cropId := param "cropId" req in
        found ← farm_of u;
        match found with
        | None => reply (message 404 "Farm not found")
        | Some farm =>
            crops ← eval (crops_of farm);
            kept ← eval (filter_crops (fun c => negb <$> is_crop cropId c) crops);
            Model_save env Farm (<["crops" := VArr kept]> farm);;
            ret (json (obj [("message", VStr "Crop removed successfully")]))
        end
    end)
    (message 500 "Server error deleting crop").

Definition getYieldPredictions : Handler := fun req =>
  try_catch (
    match user req with
    | None => reply (message 401 "Not authorized")
    | Some u =>
        found ← farm_of u;
        match found with
        | None => reply (message 404 "Farm not found")
        | Some farm =>
            predictions ← Model_find YieldPrediction [Where ["farm"] (Eq (doc_id farm))];
            ret (json (VArr (List.map VObj predictions)))
        end
    end)
    (message 500 "Server error getting yield predictions").

Definition requestNewPrediction : Handler := fun req =>
  try_catch (
    match user req with
    | None => reply (message 401 "Not authorized")
    | Some u =>
        cropName ← eval (prop "cropName" (body req));
        cropVariety ← eval (prop "cropVariety" (body req));
        cropArea ← eval (prop "cropArea" (body req));
        farm ← farm_of u;
        match farm with
        | None => reply (message 404 "Farm not found")
        | Some farm =>
            let random (k : nat) := Math_random env k in
            let expectedYield := (Qfloor (random 0%nat * 5000) + 3000)%Z in
            let mockPrediction : doc := list_to_map
              [("farm", doc_id farm);
               ("crop", obj [("name", cropName); ("variety", cropVariety);
                             ("area", cropArea)]);
               ("prediction", obj
                  [("expectedYield", int expectedYield);
                   ("yieldUnit", VStr "kg/ha");
                   ("lowerBound", int (Qfloor (inject_Z expectedYield * (9 # 10))));
                   ("upperBound", int (Qfloor (inject_Z expectedYield * (11 # 10))));
                   ("confidenceLevel", VNum (85 # 100))]);
               ("factors", obj
                  [("soilQuality", VNum (random 1%nat * 10));
                   ("weatherConditions",
                    match Qfloor (random 2%nat * 2) with
                    | 0%Z => VStr "moderate rainfall"
                    | 1%Z => VStr "good sunlight"
                    | _ => VUndefined
                    end);
                   ("pestRisks",
                    if negb (Qle_bool (random 3%nat) (5 # 10))
                    then VArr [VStr "aphids"; VStr "whiteflies"] else VArr [VStr "none"]);
                   ("rainfall", int (Qfloor (random 4%nat * 300) + 500));
                   ("temperature", obj
                      [("min", VNum (15 + random 5%nat * 5));
                       ("max", VNum (25 + random 6%nat * 5));
                       ("average", VNum (20 + random 7%nat * 5))])]);
               ("recommendations", obj
                  [("irrigationSchedule", VStr "Twice weekly, 20mm per session");
                   ("fertilizers", VArr [obj
                      [("type", VStr "Nitrogen-rich"); ("amount", int 50);
                       ("unit", VStr "kg/ha"); ("applicationTime", VStr "Every 2 weeks")]]);
                   ("pestManagement",
                    VArr [VStr "Monitor for pests regularly";
                          VStr "Use organic pesticides if needed"]);
                   ("harvestingDate",
                    Date_of (inject_Z (now env) + random 8%nat * 7776000000))]);
               ("createdAt", VDate (now env))] in
            prediction ← Model_create env YieldPrediction mockPrediction;
            ret (status_json 201 (VObj prediction))
        end
    end)
    (message 500 "Server error requesting new prediction").

(** *** ngoController *)

(** [analytics.accessRights.restrictedTo?.includes(userId.toString())] *)
Definition listed (analytics_ : doc) (userId : value) : option bool :=
  restrictedTo ← prop "restrictedTo" (field "accessRights" analytics_);
  caller ← toString userId;
  opt_includes restrictedTo caller.

(** [!analytics.accessRights.public &&
     !analytics.accessRights.restrictedTo?.includes(userId.toString())] *)
Definition no_access (analytics_ : doc) (userId : value) : option bool :=
  public ← prop "public" (field "accessRights" analytics_);
  if truthy public then Some false
  else negb <$> listed analytics_ userId.

Definition getAnalytics : Handler := fun req =>
  try_catch (
    let userId := header "user-id" req in
    return_if (negb (truthy userId)) (message 401 "Not authorized");;
    let cropType := query_param "cropType" req in
    let startDate := query_param "startDate" req in
    let endDate := query_param "endDate" req in
    let filters :=
      (query_filter req "type" ["type"] ++
       query_filter req "country" ["scope"; "country"] ++
       query_filter req "region" ["scope"; "region"] ++
       (if truthy cropType then [Where ["scope"; "cropTypes"] (In_ [cropType])] else []) ++
       (if truthy startDate
        then [Where ["timeframe"; "start"] (Gte (Date_getTime startDate))] else []) ++
       (if truthy endDate
        then [Where ["timeframe"; "end"] (Lte (Date_getTime endDate))] else []) ++
       [Or [(["accessRights"; "public"], Eq (VBool true));
            (["accessRights"; "restrictedTo"], Eq userId)]])%list in
    found ← Model_find Analytics filters;
    ret (json (VArr (List.map VObj (sort_createdAt_desc found)))))
    (message 500 "Server error").

Definition getAnalyticsById : Handler := fun req =>
  try_catch (
    let analyticsId := param "analyticsId" req in
    let userId := header "user-id" req in
    return_if (negb (truthy userId)) (message 401 "Not authorized");;
    return_if (negb (ObjectId_isValid env analyticsId)) (message 400 "Invalid analytics ID");;
    found ← Model_findById Analytics analyticsId;
    match found with
    | None => reply (message 404 "Analytics not found")
    | Some analytics_ =>
        denied ← eval (no_access analytics_ userId);
        return_if denied (message 403 "Not authorized to access these analytics");;
        ret (json (VObj analytics_))
    end)
    (message 500 "Server error").

Definition createAnalytics : Handler := fun req =>
  try_catch (
    let userId := header "user-id" req in
    return_if (negb (truthy userId)) (message 401 "Not authorized");;
    title ← eval (prop "title" (body req));
    description ← eval (prop "description" (body req));
    type_ ← eval (prop "type" (body req));
    timeframe ← eval (prop "timeframe" (body req));
    scope ← eval (prop "scope" (body req));
    metrics ← eval (prop "metrics" (body req));
    visualizations ← eval (prop "visualizations" (body req));
    insights ← eval (prop "insights" (body req));
    recommendations ← eval (prop "recommendations" (body req));
    sources ← eval (prop "sources" (body req));
    accessRights ← eval (prop "accessRights" (body req));
    public ← eval (prop "public" accessRights);
    restrictedTo ←
      (if truthy public then ret VUndefined
       else
         given ← eval (prop "restrictedTo" accessRights);
         l ← eval (spread_iter (or_else given (VArr [])));
         caller ← eval (toString userId);
         ret (VArr (l ++ [VStr caller])));
    let updatedAccessRights := VObj (<["restrictedTo" := restrictedTo]> (entries accessRights)) in
    created ← Model_create env Analytics (list_to_map
      [("title", title); ("description", description); ("type", type_);
       ("timeframe", timeframe); ("scope", scope); ("metrics", metrics);
       ("visualizations", visualizations); ("insights", insights);
       ("recommendations", recommendations); ("sources", sources);
       ("accessRights", updatedAccessRights)]);
    ret (status_json 201 (VObj created)))
    (message 500 "Server error").

(** [Object.keys(req.body).forEach(key => { if (key !== '_id')
    analytics[key] = req.body[key]; })] *)
Definition assign_body (b : doc) (analytics_ : doc) : doc :=
  map_fold (fun key v (a : doc) => if decide (key ≠ "_id") then <[key := v]> a else a)
           analytics_ b.

(** [analytics.accessRights.restrictedTo = l]: only an object takes the
    assignment. *)
Definition set_restrictedTo (l : list value) (analytics_ : doc) : option doc :=
  match field "accessRights" analytics_ with
  | VObj ar => Some (<["accessRights" := VObj (<["restrictedTo" := VArr l]> ar)]> analytics_)
  | _ => None
  end.

Definition updateAnalytics : Handler := fun req =>
  try_catch (
    let analyticsId := param "analyticsId" req in
    let userId := header "user-id" req in
    return_if (negb (truthy userId)) (message 401 "Not authorized");;
    return_if (negb (ObjectId_isValid env analyticsId)) (message 400 "Invalid analytics ID");;
    found ← Model_findById Analytics analyticsId;
    match found with
    | None => reply (message 404 "Analytics not found")
    | Some analytics_ =>
        member ← eval (listed analytics_ userId);
        return_if (negb member) (message 403 "Not authorized to update these analytics");;
        b ← eval (Object_entries (body req));
        let assigned := assign_body b analytics_ in
        locked_out ← eval (no_access assigned userId);
        kept ←
          (if (locked_out : bool)
           then
             given ← eval (prop "restrictedTo" (field "accessRights" assigned));
             l ← eval (spread_iter (or_else given (VArr [])));
             caller ← eval (toString userId);
             eval (set_restrictedTo (l ++ [VStr caller]) assigned)
           else ret assigned);
        updatedAnalytics ← Model_save env Analytics kept;
        ret (json (VObj updatedAnalytics))
    end)
    (message 500 "Server error").

Definition deleteAnalytics : Handler := fun req =>
  try_catch (
    let analyticsId := param "analyticsId" req in
    let userId := header "user-id" req in
    return_if (negb (truthy userId)) (message 401 "Not authorized");;
    return_if (negb (ObjectId_isValid env analyticsId)) (message 400 "Invalid analytics ID");;
    found ← Model_findById Analytics analyticsId;
    match found with
    | None => reply (message 404 "Analytics not found")
    | Some analytics_ =>
        member ← eval (listed analytics_ userId);
        return_if (negb member) (message 403 "Not authorized to delete these analytics");;
        Model_deleteById Analytics analyticsId;;
        ret (json (obj [("message", VStr "Analytics removed")]))
    end)
    (message 500 "Server error").

(** The two bodies [exportAnalyticsData] can send. *)
Definition csv_placeholder (analytics_ : doc) : value :=
  obj [("message", VStr "CSV export would be generated here");
       ("data", VObj analytics_)].

Definition json_export (analytics_ : doc) : value :=
  obj [("title", field "title" analytics_);
       ("description", field "description" analytics_);
       ("type", field "type" analytics_);
       ("timeframe", field "timeframe" analytics_);
       ("scope", field "scope" analytics_);
       ("metrics", field "metrics" analytics_);
       ("insights", or_else (field "insights" analytics_) (VArr []));
       ("recommendations", or_else (field "recommendations" analytics_) (VArr []));
       ("exportedAt", VDate (now env));
       ("sources", or_else (field "sources" analytics_) (VArr []))].

Definition exportAnalyticsData : Handler := fun req =>
  try_catch (
    let analyticsId := param "analyticsId" req in
    let userId := header "user-id" req in
    let format := or_else (query_param "format" req) (VStr "json") in
    return_if (negb (truthy userId)) (message 401 "Not authorized");;
    return_if (negb (ObjectId_isValid env analyticsId)) (message 400 "Invalid analytics ID");;
    found ← Model_findById Analytics analyticsId;
    match found with
    | None => reply (message 404 "Analytics not found")
    | Some analytics_ =>
        denied ← eval (no_access analytics_ userId);
        return_if denied (message 403 "Not authorized to access these analytics");;
        if strict_eq format (VStr "csv")
        then ret (json (csv_placeholder analytics_))
        else ret (json (json_export analytics_))
    end)
    (message 500 "Server error").
End Controllers.

(** ** routes/

    One constructor per route the four routers mount under [/api/users],
    [/api/farmers], [/api/vendors] and [/api/ngos]. *)

Inductive Endpoint :=
(* userRoutes *)
| POST_users_register
| POST_users_login
| GET_users_profile
| PUT_users_profile
(* farmerRoutes *)
| GET_farmers_farm
| PUT_farmers_farm
| POST_farmers_crops
| PUT_farmers_crop
| DELETE_farmers_crop
| GET_farmers_predictions
| POST_farmers_predictions
(* vendorRoutes *)
| GET_vendors_products
| GET_vendors_product
| POST_vendors_products
| PUT_vendors_product
| DELETE_vendors_product
| GET_vendors_spoilage_risks
| GET_vendors_demand_forecasts
(* ngoRoutes *)
| GET_ngos_analytics
| GET_ngos_analytics_by_id
| POST_ngos_analytics
| PUT_ngos_analytics
| DELETE_ngos_analytics
| GET_ngos_export.

(** The handler a route ends in. *)
Definition endpoint_handler (env : Env) (e : Endpoint) : Handler :=
  match e with
  | POST_users_register => register env
  | POST_users_login => login env
  | GET_users_profile => getProfile
  | PUT_users_profile => updateProfile env
  | GET_farmers_farm => getFarmProfile
  | PUT_farmers_farm => updateFarmProfile env
  | POST_farmers_crops => addCrop env
  | PUT_farmers_crop => updateCrop env
  | DELETE_farmers_crop => deleteCrop env
  | GET_farmers_predictions => getYieldPredictions
  | POST_farmers_predictions => requestNewPrediction env
  | GET_vendors_products => listProducts
  | GET_vendors_product => getProductById env
  | POST_vendors_products => createProduct env
  | PUT_vendors_product => updateProduct env
  | DELETE_vendors_product => deleteProduct env
  | GET_vendors_spoilage_risks => getSpoilageRisks env
  | GET_vendors_demand_forecasts => getDemandForecasts env
  | GET_ngos_analytics => getAnalytics env
  | GET_ngos_analytics_by_id => getAnalyticsById env
  | POST_ngos_analytics => createAnalytics env
  | PUT_ngos_analytics => updateAnalytics env
  | DELETE_ngos_analytics => deleteAnalytics env
  | GET_ngos_export => exportAnalyticsData env
  end.

(** The middleware in front of it: none on the two public user routes,
    [protect] on the profile routes, [router.use(protect, farmerOnly)] and
    its siblings on the role routers. *)
Definition endpoint_middleware (env : Env) (e : Endpoint) : list Middleware :=
  match e with
  | POST_users_register | POST_users_login => []
  | GET_users_profile | PUT_users_profile => [protect env]
  | GET_farmers_farm | PUT_farmers_farm | POST_farmers_crops | PUT_farmers_crop
  | DELETE_farmers_crop | GET_farmers_predictions | POST_farmers_predictions =>
      [protect env; farmerOnly]
  | GET_vendors_products | GET_vendors_product | POST_vendors_products
  | PUT_vendors_product | DELETE_vendors_product
  | GET_vendors_spoilage_risks | GET_vendors_demand_forecasts =>
      [protect env; vendorOnly]
  | GET_ngos_analytics | GET_ngos_analytics_by_id | POST_ngos_analytics
  | PUT_ngos_analytics | DELETE_ngos_analytics | GET_ngos_export =>
      [protect env; ngoOnly]
  end.

(** Serving a request with the handler [h] mounted at the endpoint. *)
Definition serve_with (env : Env) (e : Endpoint) (h : Handler) : Handler :=
  use (endpoint_middleware env e) h.

Definition serve (env : Env) (e : Endpoint) : Handler :=
  serve_with env e (endpoint_handler env e).

(** * Properties *)

(** ** Vocabulary of the statements *)


Definition endpoint_role (e : Endpoint) : option UserRole :=
  match e with
  | POST_users_register | POST_users_login | GET_users_profile | PUT_users_profile => None
  | GET_farmers_farm | PUT_farmers_farm | POST_farmers_crops | PUT_farmers_crop
  | DELETE_farmers_crop | GET_farmers_predictions | POST_farmers_predictions => Some FARMER
  | GET_vendors_products | GET_vendors_product | POST_vendors_products
  | PUT_vendors_product | DELETE_vendors_product
  | GET_vendors_spoilage_risks | GET_vendors_demand_forecasts => Some VENDOR
  | GET_ngos_analytics | GET_ngos_analytics_by_id | POST_ngos_analytics
  | PUT_ngos_analytics | DELETE_ngos_analytics | GET_ngos_export => Some NGO
  end.

(** The token an Authorization header carries: the second of its
    space-separated pieces, when there is one and it is not empty. *)
Definition carried_token (a : string) : option string :=
  match nth_error (split " " a) 1 with
  | Some t => if String.eqb t "" then None else Some t
  | None => None
  end.

(** JWT verification against the shared secret, giving the decoded
    [{id, role}] payload. *)
Definition verified (env : Env) (t : string) : option AuthUser :=
  decoded ← jwt_verify env t (secret env);
  i ← prop "id" decoded;
  r ← prop "role" decoded;
  Some {| id := i; role := r |}.

(** The request presents a bearer token that verifies to [u]. *)
Definition authenticated_as (env : Env) (req : Request) (u : AuthUser) : Prop :=
  exists a t, headers req !! "authorization" = Some a /\
              startsWith "Bearer" a = true /\
              carried_token a = Some t /\
              verified env t = Some u.


(** The request is answered by [r] in front of the handler: whatever handler
    is mounted at the endpoint, the response is [r] and the store is as it
    was. *)
Definition answered_before_handler (env : Env) (e : Endpoint) (req : Request)
    (r : Response) : Prop :=
  forall (h : Handler) (st : Store), serve_with env e h req st = (r, st).

(** A role is allowed by a gate. *)
Definition allowed_roles (roles : Roles) : list UserRole :=
  match roles with OneRole r => [r] | RoleArray l => l end.

Definition role_allowed (roles : Roles) (u : AuthUser) : Prop :=
  exists r, In r (allowed_roles roles) /\ role u = VStr (UserRole_value r).

(** The caller's identity, as the vendor and NGO handlers read it. *)
Definition caller_is (uid : string) (req : Request) : Prop :=
  headers req !! "user-id" = Some uid /\ uid <> "".

(** A record that is not public and does not list [uid]; [restrictedTo] is
    an optional array, as [IAnalytics] declares it. *)
Definition hidden_from (uid : string) (a : doc) : Prop :=
  exists ar, a !! "accessRights" = Some (VObj ar) /\
             ar !! "public" = Some (VBool false) /\
             (ar !! "restrictedTo" = None \/
              exists l, ar !! "restrictedTo" = Some (VArr l) /\ ~ In (VStr uid) l).

(** The record a route parameter names. *)
Definition names_record (env : Env) (k : string) (req : Request)
    (coll : list doc) (a : doc) : Prop :=
  ObjectId_isValid env (param k req) = true /\
  List.find (has_id (param k req)) coll = Some a.

(** A record the caller may read: public, or listing the caller. *)
Definition readable_by (uid : string) (a : doc) : Prop :=
  exists ar, a !! "accessRights" = Some (VObj ar) /\
             (ar !! "public" = Some (VBool true) \/
              exists l, ar !! "restrictedTo" = Some (VArr l) /\ In (VStr uid) l).



(** [preserves R m]: every run of [m] relates the store before to the store
    after by [R]. *)
Definition preserves {A} (R : Store -> Store -> Prop) (m : Action A) : Prop :=
  forall st c st', m st = (c, st') -> R st st'.







(** ** A small deployment, for the examples *)

Module Demo.

Definition farmer_id : string := "64a000000000000000000001".
Definition vendor_id : string := "64a000000000000000000002".
Definition ngo_id : string := "64a000000000000000000003".
Definition friend_id : string := "64a000000000000000000004".
Definition other_id : string := "64a000000000000000000005".

Definition payload_of (uid r : string) : value :=
  obj [("id", VStr uid); ("role", VStr r)].

Definition env : Env :=
  {| JWT_SECRET := Some "your_jwt_secret_key";
     JWT_EXPIRES_IN := None;
     jwt_verify := fun t s =>
       if negb (String.eqb s "your_jwt_secret_key") then None
       else if String.eqb t "farmer.jwt" then Some (payload_of farmer_id "farmer")
       else if String.eqb t "vendor.jwt" then Some (payload_of vendor_id "vendor")
       else if String.eqb t "ngo.jwt" then Some (payload_of ngo_id "ngo")
       else None;
     jwt_sign := fun _ _ _ => Some "signed.jwt";
     bcrypt_genSalt := fun _ => "salt";
     bcrypt_hash := fun p s => match p with VStr x => Some (s ++ x) | _ => None end;
     bcrypt_compare := fun p h =>
       match p, h with
       | VStr x, VStr y => Some (String.eqb ("salt" ++ x) y)
       | _, _ => None
       end;
     ObjectId_isValid := fun s => Nat.eqb (String.length s) 24;
     ObjectId_new := "65f000000000000000000099";
     schema_valid := fun _ _ => true;
     now := 1700000000000;
     Math_random := fun _ => 0%Q;
     sort_random := fun l k => (l, k);
     Date_parse := fun _ => None;
     Number_toString := fun _ => "0";
     Date_toString := fun _ => "date";
     parseInt := fun _ => VNaN |}.

Definition tomatoes_id : string := "65f000000000000000000001".
Definition report_id : string := "65f000000000000000000002".

Definition alice : doc :=
  list_to_map [("_id", VStr vendor_id); ("name", VStr "Alice");
               ("email", VStr "alice@example.com"); ("role", VStr "vendor")].

Definition tomatoes : doc :=
  list_to_map [("_id", VStr tomatoes_id); ("seller", VStr vendor_id);
               ("name", VStr "Tomatoes"); ("category", VStr "vegetables");
               ("status", VStr "available");
               ("expiryEstimate", VDate 1700500000000)].

Definition farm : doc :=
  list_to_map [("_id", VStr "65f000000000000000000003"); ("owner", VStr farmer_id);
               ("name", VStr "Hill farm")].

(** A report that is not public and lists [u-ngo] only. *)
Definition report : doc :=
  list_to_map [("_id", VStr report_id); ("title", VStr "Waste 2024");
               ("accessRights",
                obj [("public", VBool false); ("restrictedTo", VArr [VStr ngo_id])])].

Definition store : Store :=
  {| users := [alice]; farms := [farm]; products := [tomatoes];
     analytics := [report]; yieldPredictions := [] |}.

Definition request (token uid : string) (ps qs : list (string * string))
    (b : list (string * value)) : Request :=
  {| headers := list_to_map [("authorization", "Bearer " ++ token); ("user-id", uid)];
     params := list_to_map ps; query := list_to_map qs; body := obj b; user := None |}.


(** The vendor marks the tomatoes as sold. *)
Definition mark_sold : Request :=
  request "vendor.jwt" vendor_id [("productId", tomatoes_id)] []
          [("status", VStr "sold"); ("seller", VStr other_id)].

Definition delete_tomatoes : Request :=
  request "vendor.jwt" vendor_id [("productId", tomatoes_id)] [] [].



End Demo.

Module DemoRequests.
Import Demo.

Definition vendor_user : AuthUser := {| id := VStr vendor_id; role := VStr "vendor" |}.

(** A vendor calls a farmer route. *)
Definition vendor_on_farmer_route : Request :=
  request "vendor.jwt" vendor_id [] [] [("cropName", VStr "maize")].

(** Alice's email, once more. *)
Definition register_alice_again : Request :=
  {| headers := ∅; params := ∅; query := ∅;
     body := obj [("name", VStr "Alice B."); ("email", VStr "alice@example.com");
                  ("password", VStr "secret1")];
     user := None |}.

(** [u-other] and [u-ngo] ask for the report. *)
Definition other_reads_report : Request :=
  request "ngo.jwt" other_id [("analyticsId", report_id)] [] [].

Definition export_csv : Request :=
  request "ngo.jwt" ngo_id [("analyticsId", report_id)] [("format", "csv")] [].

Definition access_rights : doc :=
  list_to_map [("public", VBool false); ("restrictedTo", VArr [VStr ngo_id])].

(** [u-ngo] creates a report shared with [u-friend], then empties the access
    list of the stored report. *)
Definition create_shared : Request :=
  request "ngo.jwt" ngo_id [] []
          [("title", VStr "Yield 2024");
           ("accessRights",
            obj [("public", VBool false); ("restrictedTo", VArr [VStr friend_id])])].


End DemoRequests.


(** ** More vocabulary: the routers as tables *)

(** The HTTP method a route is mounted with ([router.get], [router.post],
    [router.put], [router.delete]). *)
Inductive Method := GET | POST | PUT | DELETE.

Definition endpoint_method (e : Endpoint) : Method :=
  match e with
  | POST_users_register | POST_users_login => POST
  | GET_users_profile => GET
  | PUT_users_profile => PUT
  | GET_farmers_farm => GET
  | PUT_farmers_farm => PUT
  | POST_farmers_crops => POST
  | PUT_farmers_crop => PUT
  | DELETE_farmers_crop => DELETE
  | GET_farmers_predictions => GET
  | POST_farmers_predictions => POST
  | GET_vendors_products | GET_vendors_product => GET
  | POST_vendors_products => POST
  | PUT_vendors_product => PUT
  | DELETE_vendors_product => DELETE
  | GET_vendors_spoilage_risks | GET_vendors_demand_forecasts => GET
  | GET_ngos_analytics | GET_ngos_analytics_by_id => GET
  | POST_ngos_analytics => POST
  | PUT_ngos_analytics => PUT
  | DELETE_ngos_analytics => DELETE
  | GET_ngos_export => GET
  end.

(** The collections a router's handlers never write: the user routes write
    [users] only, the farmer routes [farms] and [yieldPredictions], the
    vendor routes [products], the NGO routes [analytics]. *)
Definition foreign_collections_kept (e : Endpoint) (st st' : Store) : Prop :=
  match endpoint_role e with
  | None =>
      farms st' = farms st /\ products st' = products st /\
      analytics st' = analytics st /\ yieldPredictions st' = yieldPredictions st
  | Some FARMER =>
      users st' = users st /\ products st' = products st /\ analytics st' = analytics st
  | Some VENDOR =>
      users st' = users st /\ farms st' = farms st /\
      analytics st' = analytics st /\ yieldPredictions st' = yieldPredictions st
  | Some NGO =>
      users st' = users st /\ farms st' = farms st /\
      products st' = products st /\ yieldPredictions st' = yieldPredictions st
  | Some ADMIN => st' = st
  end.

(** The vendor and NGO handlers that ask for the [user-id] header
    ([getProductById] does not). *)
Definition asks_user_id (e : Endpoint) : Prop :=
  (endpoint_role e = Some VENDOR \/ endpoint_role e = Some NGO) /\
  e <> GET_vendors_product.

(** [commits_last m]: a run of [m] that changes the store ends normally,
    with a response of status 200 or 201. *)
Definition commits_last (m : Action Response) : Prop :=
  forall st c st', m st = (c, st') ->
    st' = st \/ exists r, c = Normal r /\ (status r = 200 \/ status r = 201).

(** What the three crop handlers do to the store when they succeed: the
    farm of the token's user is stored again with a new [crops] array. *)
Definition crops_replaced (env : Env) (u : AuthUser) (st st' : Store)
    (crops crops' : list value) : Prop :=
  exists farm,
    In farm (farms st) /\ matches [Where ["owner"] (Eq (id u))] farm = true /\
    crops_of farm = Some crops /\
    st' = set_farms (replace_first (same_id farm)
                       (<["updatedAt" := VDate (now env)]> (<["crops" := VArr crops']> farm))
                       (farms st)) st.

(** The markets [getBestMarkets] chooses from. *)
Definition market_names : list string :=
  ["Central Farmers Market"; "East District Food Hub";
   "Western Agricultural Exchange"; "Northern Territory Trade Center";
   "Southern Cooperative Market"].

(** What every demand forecast looks like: a category, between two and three
    of the five markets, and forecasts within their ranges. *)
Definition well_formed_forecast (f : value) : Prop :=
  exists category ms week month,
    at_path ["category"] f = VStr (ProductCategory_value category) /\
    at_path ["bestMarkets"] f = VArr (List.map VStr ms) /\
    (length ms = 2%nat \/ length ms = 3%nat) /\
    (forall m, In m ms -> In m market_names) /\
    at_path ["forecast"; "nextWeek"] f = int week /\
    at_path ["forecast"; "nextMonth"] f = int month /\
    (50 <= week <= 99)%Z /\ (100 <= month <= 299)%Z.

(** A product as the vendor routes show it: of its seller at most the
    [_id], the name and the phone number. *)
Definition shows_seller_contact_only (q : value) : Prop :=
  forall o, at_path ["seller"] q = VObj o ->
            forall k, is_Some (o !! k) -> In k ["_id"; "name"; "phoneNumber"].

(** ** More requests on the small deployment *)

Module DemoMore.
Import Demo.

Definition new_id : string := "65f000000000000000000099".

(** A vendor token without a [user-id] header worth the name. *)
Definition no_caller : Request :=
  request "vendor.jwt" "" [("productId", tomatoes_id)] [] [].

(** The vendor's token, another user's id in the header. *)
Definition other_deletes : Request :=
  request "vendor.jwt" other_id [("productId", tomatoes_id)] [] [].

Definition sells_in_other_name : Request :=
  request "vendor.jwt" other_id [] []
          [("name", VStr "Onions"); ("seller", VStr vendor_id)].

Definition reads_new_product : Request :=
  request "vendor.jwt" vendor_id [("productId", new_id)] [] [].

(** Registration and login of a second user. *)
Definition register_bob : Request :=
  {| headers := ∅; params := ∅; query := ∅;
     body := obj [("name", VStr "Bob"); ("email", VStr "bob@example.com");
                  ("password", VStr "secret2")];
     user := None |}.

Definition login_bob : Request :=
  {| headers := ∅; params := ∅; query := ∅;
     body := obj [("email", VStr "bob@example.com"); ("password", VStr "secret2")];
     user := None |}.



(** Alice with a password, and a farm with two crops. *)
Definition alice_with_password : doc := <["password" := VStr "saltsecret1"]> alice.

Definition maize : doc :=
  list_to_map [("_id", VStr "65f000000000000000000011"); ("name", VStr "Maize");
               ("area", int 2)].

Definition beans : doc :=
  list_to_map [("_id", VStr "65f000000000000000000012"); ("name", VStr "Beans");
               ("area", int 1)].

Definition farm_with_crops : doc := <["crops" := VArr [VObj maize; VObj beans]]> farm.

Definition store2 : Store :=
  {| users := [alice_with_password]; farms := [farm_with_crops]; products := [tomatoes];
     analytics := [report]; yieldPredictions := [] |}.



Definition farmer_request (ps : list (string * string)) (b : list (string * value)) : Request :=
  request "farmer.jwt" farmer_id ps [] b.

Definition adds_rice : Request := farmer_request [] [("name", VStr "Rice"); ("area", int 3)].


Definition grows_maize : Request :=
  farmer_request [("cropId", "65f000000000000000000011")] [("area", int 5)].

Definition renames_farm : Request := farmer_request [] [("name", VStr "Valley farm")].



(** A public report, and requests naming the record just created. *)
Definition create_public : Request :=
  request "ngo.jwt" ngo_id [] []
          [("title", VStr "Prices 2024");
           ("accessRights",
            obj [("public", VBool true); ("restrictedTo", VArr [VStr ngo_id])])].

Definition writes_new_report : Request :=
  request "ngo.jwt" ngo_id [("analyticsId", new_id)] [] [("title", VStr "Prices")].

Definition deletes_report : Request :=
  request "ngo.jwt" ngo_id [("analyticsId", report_id)] [] [].

Definition lists_reports : Request := request "ngo.jwt" ngo_id [] [] [].

End DemoMore.

(** * Proofs *)

(** ** The authentication gate *)

Lemma protect_unfold (env : Env) (req : Request) :
  protect env req =
  match headers req !! "authorization" with
  | None => Respond (message 401 "Not authorized, no token provided")
  | Some a =>
      if startsWith "Bearer" a then
        match carried_token a with
        | None => Respond (message 401 "Not authorized, no token provided")
        | Some t =>
            match verified env t with
            | Some u => Next (set_user u req)
            | None => Respond (message 401 "Not authorized, invalid token")
            end
        end
      else Respond (message 401 "Not authorized, no token provided")
  end.
Proof.
  unfold protect, bearer_token, header, lookup_str, carried_token, verified.
  destruct (headers req !! "authorization") as [a|]; [|reflexivity].
  destruct (startsWith "Bearer" a) eqn:Hb; simpl truthy.
  - rewrite andb_true_r.
    destruct (nth_error (JS.split " " a) 1) as [t|] eqn:Ht.
    + destruct (String.eqb t "") eqn:Et; simpl.
      * apply String.eqb_eq in Et. subst t. destruct (String.eqb a ""); reflexivity.
      * assert (Ha : String.eqb a "" = false).
        { destruct a; [discriminate Hb|reflexivity]. }
        rewrite Ha. simpl. rewrite Et. simpl.
        destruct (jwt_verify env t (secret env)) as [d|]; simpl; [|reflexivity].
        destruct (prop "id" d); simpl; [|reflexivity].
        destruct (prop "role" d); reflexivity.
    + destruct (String.eqb a ""); reflexivity.
  - rewrite andb_false_r. reflexivity.
Qed.

Lemma use_responds (m : Middleware) (ms : list Middleware) (h : Handler)
    (req : Request) (st : Store) (r : Response) :
  m req = Respond r -> use (m :: ms) h req st = (r, st).
Proof. intros H. simpl. rewrite H. reflexivity. Qed.

Lemma use_next (m : Middleware) (ms : list Middleware) (h : Handler)
    (req req' : Request) (st : Store) :
  m req = Next req' -> use (m :: ms) h req st = use ms h req' st.
Proof. intros H. simpl. rewrite H. reflexivity. Qed.


Lemma role_middleware (env : Env) (e : Endpoint) (r : UserRole) :
  endpoint_role e = Some r ->
  endpoint_middleware env e = [protect env; authorize (OneRole r)].
Proof. destruct e; intros [= <-]; reflexivity. Qed.


Lemma protect_attaches (env : Env) (req : Request) (u : AuthUser) :
  authenticated_as env req u -> protect env req = Next (set_user u req).
Proof.
  intros (a & t & H & Hb & Ht & Hv).
  rewrite protect_unfold, H, Hb, Ht, Hv. reflexivity.
Qed.

Lemma protect_rejects_or_attaches_cases (env : Env) (req : Request) :
  (exists r, protect env req = Respond r) \/
  (exists u, protect env req = Next (set_user u req)).
Proof.
  rewrite protect_unfold.
  destruct (headers req !! "authorization") as [a|]; [|eauto].
  destruct (startsWith "Bearer" a); [|eauto].
  destruct (carried_token a) as [t|]; [|eauto].
  destruct (verified env t) as [u|]; eauto.
Qed.


(** ** Running actions *)

Lemma run_bind {A B} (m : Action A) (k : A -> Action B) (st : Store) :
  (m ≫= k) st =
  match m st with
  | (Normal a, st') => k a st'
  | (Return r, st') => (Return r, st')
  | (Throw, st') => (Throw, st')
  end.
Proof. reflexivity. Qed.

Lemma run_eval_bind {A B} (o : option A) (a : A) (k : A -> Action B) (st : Store) :
  o = Some a -> (eval o ≫= k) st = k a st.
Proof. intros ->. reflexivity. Qed.

Lemma run_return_if_false {B} (c : bool) (r : Response) (k : unit -> Action B) (st : Store) :
  c = false -> (return_if c r ≫= k) st = k tt st.
Proof. intros ->. reflexivity. Qed.

Lemma prop_defined (k k' : string) (v w : value) :
  prop k v = Some w -> exists w', prop k' v = Some w'.
Proof. destruct v; simpl; intros H; try discriminate; eauto. Qed.

Lemma filter_head_some {A} (P : A -> Prop) `{forall x, Decision (P x)} (l : list A) (x : A) :
  In x l -> P x -> exists y, head (filter P l) = Some y.
Proof.
  induction l as [|z l IH]; simpl; [tauto|].
  intros Hin Hx. rewrite filter_cons. destruct (decide (P z)); simpl; [eauto|].
  destruct Hin as [->|Hin]; [contradiction|]. apply IH; assumption.
Qed.

(** ** Registration *)

(** C6. Registering with the email of an existing user is answered 400
    [User already exists] and leaves the store as it was. *)
Theorem register_duplicate_email (env : Env) (req : Request) (st : Store)
    (existing : doc) (email : string) :
  prop "email" (body req) = Some (VStr email) ->
  In existing (users st) ->
  existing !! "email" = Some (VStr email) ->
  register env req st = (message 400 "User already exists", st).
Proof.
  intros Hemail Hin Hex.
  destruct (prop_defined "email" "name" _ _ Hemail) as [name Hname].
  destruct (prop_defined "email" "password" _ _ Hemail) as [password Hpassword].
  destruct (prop_defined "email" "role" _ _ Hemail) as [role_ Hrole].
  destruct (prop_defined "email" "location" _ _ Hemail) as [location Hlocation].
  destruct (prop_defined "email" "phoneNumber" _ _ Hemail) as [phoneNumber Hphone].
  unfold register, try_catch.
  rewrite (run_eval_bind _ _ _ _ Hname), (run_eval_bind _ _ _ _ Hemail),
    (run_eval_bind _ _ _ _ Hpassword), (run_eval_bind _ _ _ _ Hrole),
    (run_eval_bind _ _ _ _ Hlocation), (run_eval_bind _ _ _ _ Hphone).
  rewrite run_bind. unfold Model_findOne. rewrite run_bind.
  unfold Model_find. simpl castable. cbn iota.
  destruct (filter_head_some
              (fun d => matches [Where ["email"] (Eq (VStr email))] d = true)
              (users st) existing Hin) as [y Hy].
  { simpl. rewrite Hex. simpl. rewrite String.eqb_refl. reflexivity. }
  simpl collection. rewrite Hy. reflexivity.
Qed.

(** ** The role gate *)

Lemma role_not_listed (l : list UserRole) (u : AuthUser) :
  (forall r, In r l -> role u <> VStr (UserRole_value r)) ->
  existsb (fun r => strict_eq (VStr (UserRole_value r)) (role u)) l = false.
Proof.
  induction l as [|r l IH]; intros H; cbn [existsb]; [reflexivity|].
  rewrite IH by (intros r' Hr'; apply H; right; exact Hr').
  rewrite orb_false_r.
  destruct (role u) as [| | | | |s| | |] eqn:Hu; try reflexivity.
  cbn [strict_eq].
  destruct (String.eqb (UserRole_value r) s) eqn:E; [|reflexivity].
  apply String.eqb_eq in E. exfalso. apply (H r); [left; reflexivity|]. congruence.
Qed.

Lemma authorize_forbids (roles : Roles) (req : Request) (u : AuthUser) :
  user req = Some u ->
  ~ role_allowed roles u ->
  authorize roles req =
  Respond (message 403 ("Access denied. Required role: " ++
                        String.concat " or " (List.map UserRole_value (allowed_roles roles)))).
Proof.
  intros Hu Hno. unfold authorize. rewrite Hu.
  fold (allowed_roles roles).
  rewrite role_not_listed; [reflexivity|].
  intros r Hr Heq. apply Hno. exists r. split; assumption.
Qed.

(** C5. A request whose token verifies but whose decoded role is not the
    role the route's router allows is answered 403 by the role gate, and no
    handler runs. *)
Theorem role_gate_forbids (env : Env) (e : Endpoint) (r : UserRole)
    (req : Request) (u : AuthUser) :
  endpoint_role e = Some r ->
  authenticated_as env req u ->
  ~ role_allowed (OneRole r) u ->
  authorize (OneRole r) (set_user u req) =
    Respond (message 403 ("Access denied. Required role: " ++ UserRole_value r)) /\
  answered_before_handler env e req
    (message 403 ("Access denied. Required role: " ++ UserRole_value r)).
Proof.
  intros He Hauth Hno.
  assert (Hgate : authorize (OneRole r) (set_user u req) =
    Respond (message 403 ("Access denied. Required role: " ++ UserRole_value r))).
  { rewrite (authorize_forbids (OneRole r) (set_user u req) u eq_refl Hno).
    reflexivity. }
  split; [exact Hgate|].
  intros h st. unfold serve_with.
  rewrite (role_middleware env e r He).
  erewrite use_next by (apply protect_attaches; exact Hauth).
  apply use_responds. exact Hgate.
Qed.

(** ** Access to analytics *)

Lemma caller_header (uid : string) (req : Request) :
  caller_is uid req ->
  header "user-id" req = VStr uid /\ truthy (header "user-id" req) = true.
Proof.
  intros [H Hne]. unfold header, lookup_str. rewrite H. split; [reflexivity|].
  simpl. destruct (String.eqb uid "") eqn:E; [|reflexivity].
  apply String.eqb_eq in E. contradiction.
Qed.

Lemma not_in_existsb (uid : string) (l : list value) :
  ~ In (VStr uid) l -> existsb (fun e => strict_eq e (VStr uid)) l = false.
Proof.
  induction l as [|e l IH]; intros H; cbn [existsb]; [reflexivity|].
  rewrite IH by (intros Hin; apply H; right; exact Hin).
  rewrite orb_false_r.
  destruct e as [| | | | |s| | |]; try reflexivity.
  cbn [strict_eq]. destruct (String.eqb s uid) eqn:E; [|reflexivity].
  apply String.eqb_eq in E. subst s. exfalso. apply H. left. reflexivity.
Qed.

Lemma hidden_no_access (env : Env) (uid : string) (a : doc) :
  hidden_from uid a -> no_access env a (VStr uid) = Some true.
Proof.
  intros (ar & Har & Hpub & Hres).
  unfold no_access, listed, field. rewrite Har. simpl. rewrite Hpub. simpl.
  destruct Hres as [Hn|(l & Hl & Hnot)].
  - rewrite Hn. reflexivity.
  - rewrite Hl. simpl. rewrite (not_in_existsb uid l Hnot). reflexivity.
Qed.

Lemma hidden_no_match (uid : string) (a : doc) :
  hidden_from uid a ->
  clause_match a (Or [(["accessRights"; "public"], Eq (VBool true));
                      (["accessRights"; "restrictedTo"], Eq (VStr uid))]) = false.
Proof.
  intros (ar & Har & Hpub & Hres). simpl. rewrite Har, Hpub. simpl.
  destruct Hres as [Hn|(l & Hl & Hnot)].
  - rewrite Hn. reflexivity.
  - rewrite Hl. simpl. rewrite (not_in_existsb uid l Hnot). reflexivity.
Qed.

Lemma In_insert_newest_first (d x : doc) (l : list doc) :
  In x (insert_newest_first d l) <-> x = d \/ In x l.
Proof.
  induction l as [|y l IH]; simpl; [intuition congruence|].
  destruct (older d y); simpl; [rewrite IH|]; intuition congruence.
Qed.

Lemma In_sort_createdAt_desc (x : doc) (l : list doc) :
  In x (sort_createdAt_desc l) <-> In x l.
Proof.
  unfold sort_createdAt_desc.
  induction l as [|y l IH]; simpl; [tauto|].
  rewrite In_insert_newest_first, IH. intuition congruence.
Qed.

Lemma In_filter_matches (q : list Clause) (x : doc) (l : list doc) :
  In x (filter (fun d => matches q d = true) l) -> In x l /\ matches q x = true.
Proof.
  intros H. apply list_elem_of_In in H. apply list_elem_of_filter in H.
  destruct H as [Hm Hin]. split; [apply list_elem_of_In; exact Hin|exact Hm].
Qed.

Lemma matches_app (q1 q2 : list Clause) (d : doc) :
  matches (q1 ++ q2) d = matches q1 d && matches q2 d.
Proof. unfold matches. apply forallb_app. Qed.

(** C3. A record that is not public and does not list the caller is not in
    the list [getAnalytics] returns, and [getAnalyticsById] and
    [exportAnalyticsData] answer 403 for it, leaving the store as it was. *)
Theorem hidden_analytics_invisible (env : Env) (req : Request) (st : Store)
    (uid : string) (a : doc) :
  caller_is uid req ->
  hidden_from uid a ->
  (forall l, payload (getAnalytics env req st).1 = VArr l -> ~ In (VObj a) l) /\
  (names_record env "analyticsId" req (analytics st) a ->
   getAnalyticsById env req st =
     (message 403 "Not authorized to access these analytics", st) /\
   exportAnalyticsData env req st =
     (message 403 "Not authorized to access these analytics", st)).
Proof.
  intros Hc Hh. destruct (caller_header uid req Hc) as [Hu Ht].
  split.
  - intros l. unfold getAnalytics, try_catch.
    rewrite run_return_if_false by (rewrite Ht; reflexivity).
    rewrite run_bind. unfold Model_find.
    match goal with |- context [castable ?q] => set (filters := q) end.
    destruct (castable filters); [|simpl; discriminate].
    simpl. intros [= <-] Hin.
    apply in_map_iff in Hin. destruct Hin as (x & [= ->] & Hin).
    apply In_sort_createdAt_desc, In_filter_matches in Hin. destruct Hin as [_ Hm].
    unfold filters in Hm. rewrite !app_assoc, matches_app in Hm.
    apply andb_true_iff in Hm. destruct Hm as [_ Hm].
    unfold matches in Hm. cbn [forallb] in Hm. rewrite Hu in Hm.
    rewrite (hidden_no_match uid a Hh) in Hm. discriminate.
  - intros [Hvalid Hfind].
    pose proof (hidden_no_access env uid a Hh) as Hno.
    split.
    + unfold getAnalyticsById, try_catch.
      rewrite run_return_if_false by (rewrite Ht; reflexivity).
      rewrite run_return_if_false by (rewrite Hvalid; reflexivity).
      rewrite run_bind. unfold Model_findById. change (collection Analytics st) with (analytics st). rewrite Hfind.
      rewrite Hu. rewrite (run_eval_bind _ _ _ _ Hno).
      reflexivity.
    + unfold exportAnalyticsData, try_catch.
      rewrite run_return_if_false by (rewrite Ht; reflexivity).
      rewrite run_return_if_false by (rewrite Hvalid; reflexivity).
      rewrite run_bind. unfold Model_findById. change (collection Analytics st) with (analytics st). rewrite Hfind.
      rewrite Hu. rewrite (run_eval_bind _ _ _ _ Hno).
      reflexivity.
Qed.

(** ** Stepping through a handler *)

Lemma run_eval_throw {A B} (k : A -> Action B) (st : Store) :
  (eval None ≫= k) st = (Throw, st).
Proof. reflexivity. Qed.

Lemma run_eval_some {A B} (a : A) (k : A -> Action B) (st : Store) :
  (eval (Some a) ≫= k) st = k a st.
Proof. reflexivity. Qed.

Lemma run_return_if {B} (c : bool) (r : Response) (k : unit -> Action B) (st : Store) :
  (return_if c r ≫= k) st = if c then (Return r, st) else k tt st.
Proof. destruct c; reflexivity. Qed.

Lemma run_findById {B} (M : Model) (i : string) (k : option doc -> Action B) (st : Store) :
  (Model_findById M i ≫= k) st = k (List.find (has_id i) (collection M st)) st.
Proof. reflexivity. Qed.

(** Case analysis on the next step of a handler run recorded in [H]. *)
Ltac step H :=
  first
    [ rewrite run_return_if in H;
      match type of H with
      | context [ if ?c then (Return _, _) else _ ] => destruct c eqn:?
      end
    | match type of H with
      | context [ (eval ?o ≫= _) _ ] =>
          destruct o eqn:?; [rewrite run_eval_some in H | rewrite run_eval_throw in H]
      end
    | rewrite run_findById in H;
      match type of H with
      | context [ List.find ?f ?l ] => destruct (List.find f l) eqn:?
      end ].

Ltac finish H := cbn in H; simplify_eq; try discriminate.

(** ** Updating a product *)



(** ** Exporting analytics *)

Lemma in_existsb (uid : string) (l : list value) :
  In (VStr uid) l -> existsb (fun e => strict_eq e (VStr uid)) l = true.
Proof.
  intros H. apply existsb_exists. exists (VStr uid). split; [exact H|].
  simpl. apply String.eqb_refl.
Qed.

Lemma readable_access (env : Env) (uid : string) (a : doc) :
  readable_by uid a -> no_access env a (VStr uid) = Some false.
Proof.
  intros (ar & Har & Hacc).
  unfold no_access, listed, field. rewrite Har. simpl.
  destruct Hacc as [Hp|(l & Hl & Hin)].
  - rewrite Hp. reflexivity.
  - destruct (truthy (default VUndefined (ar !! "public"))); [reflexivity|].
    rewrite Hl. simpl. rewrite (in_existsb uid l Hin). reflexivity.
Qed.


(** ** Writers of analytics keep their access *)





Lemma run_create {B} (env : Env) (M : Model) (input : doc) (k : doc -> Action B) (st : Store) :
  (Model_create env M input ≫= k) st =
  let d := <["updatedAt" := VDate (now env)]>
           (<["createdAt" := VDate (now env)]>
           (<["_id" := VStr (ObjectId_new env)]>
              (defaults M (filter (fun kv => is_undefined kv.2 = false) input)))) in
  if schema_valid env (modelName M) d && unique_ok M d st
  then k d (set_collection M (collection M st ++ [d]) st)
  else (Throw, st).
Proof.
  rewrite run_bind. unfold Model_create. cbv zeta.
  destruct (schema_valid env (modelName M) _ && unique_ok M _ st); reflexivity.
Qed.

Lemma run_ret {A B} (a : A) (k : A -> Action B) (st : Store) :
  (ret a ≫= k) st = k a st.
Proof. reflexivity. Qed.

Lemma run_assoc {A B C} (m : Action A) (k1 : A -> Action B) (k2 : B -> Action C)
    (st : Store) :
  ((m ≫= k1) ≫= k2) st = (m ≫= (fun a => k1 a ≫= k2)) st.
Proof. rewrite !run_bind. destruct (m st) as [[a|r|] st1]; reflexivity. Qed.

Lemma Analytics_defaults_accessRights (d ar : doc) :
  d !! "accessRights" = Some (VObj ar) ->
  exists ar', Analytics_defaults d !! "accessRights" = Some (VObj ar') /\
              ar' !! "restrictedTo" = ar !! "restrictedTo" /\
              (truthy (field "public" ar) = true -> ar' = ar).
Proof.
  intros H. unfold Analytics_defaults. rewrite H.
  destruct (ar !! "public") as [v|] eqn:Hp.
  - destruct v; try (exists ar; rewrite H; repeat split; reflexivity).
    exists (<["public" := VBool false]> ar). rewrite lookup_insert_eq.
    split; [reflexivity|]. split; [apply lookup_insert_ne; discriminate|].
    unfold field. rewrite Hp. discriminate.
  - exists (<["public" := VBool false]> ar). rewrite lookup_insert_eq.
    split; [reflexivity|]. split; [apply lookup_insert_ne; discriminate|].
    unfold field. rewrite Hp. discriminate.
Qed.


Lemma run_save {B} (env : Env) (M : Model) (d : doc) (k : doc -> Action B) (st : Store) :
  (Model_save env M d ≫= k) st =
  let d' := <["updatedAt" := VDate (now env)]> d in
  if schema_valid env (modelName M) d' && unique_among_others M d' st
  then k d' (set_collection M (replace_first (same_id d) d' (collection M st)) st)
  else (Throw, st).
Proof.
  rewrite run_bind. unfold Model_save. cbv zeta.
  destruct (schema_valid env (modelName M) _ && unique_among_others M _ st); reflexivity.
Qed.





(** ** What a handler may do to the store *)

Section Frame.
Variable R : Store -> Store -> Prop.
Hypothesis R_refl : forall st, R st st.
Hypothesis R_trans : forall a b c, R a b -> R b c -> R a c.

Lemma preserves_ret {A} (a : A) : preserves R (ret a).
Proof. intros st c st' [= _ <-]. apply R_refl. Qed.

Lemma preserves_reply {A} (r : Response) : preserves R (@reply A r).
Proof. intros st c st' [= _ <-]. apply R_refl. Qed.

Lemma preserves_eval {A} (o : option A) : preserves R (eval o).
Proof. intros st c st' H. unfold eval in H. destruct o; injection H as _ <-; apply R_refl. Qed.

Lemma preserves_return_if (c : bool) (r : Response) : preserves R (return_if c r).
Proof. destruct c; [apply preserves_reply|apply preserves_ret]. Qed.

Lemma preserves_bind {A B} (m : Action A) (k : A -> Action B) :
  preserves R m -> (forall a, preserves R (k a)) -> preserves R (m ≫= k).
Proof.
  intros Hm Hk st c st' H. rewrite run_bind in H.
  destruct (m st) as [[a|r|] st1] eqn:E.
  - apply (R_trans _ st1); [apply (Hm _ _ _ E)|apply (Hk a _ _ _ H)].
  - injection H as _ <-. apply (Hm _ _ _ E).
  - injection H as _ <-. apply (Hm _ _ _ E).
Qed.

Lemma preserves_find (M : Model) (q : list Clause) : preserves R (Model_find M q).
Proof.
  intros st c st' H. unfold Model_find in H.
  destruct (castable q); injection H as _ <-; apply R_refl.
Qed.

Lemma preserves_findOne (M : Model) (q : list Clause) : preserves R (Model_findOne M q).
Proof.
  apply preserves_bind; [apply preserves_find|intros; apply preserves_ret].
Qed.

Lemma preserves_findById (M : Model) (i : string) : preserves R (Model_findById M i).
Proof. intros st c st' [= _ <-]. apply R_refl. Qed.

Lemma preserves_populated (M : Model) (path : string) (sel : list string) (d : doc) :
  preserves R (populated M path sel d).
Proof. intros st c st' [= _ <-]. apply R_refl. Qed.

Lemma preserves_populated_all (M : Model) (path : string) (sel : list string) (l : list doc) :
  preserves R (populated_all M path sel l).
Proof. intros st c st' [= _ <-]. apply R_refl. Qed.

(** Writes: [R] has to allow the new collection. *)
Lemma preserves_create (env : Env) (M : Model) (input : doc) :
  (forall st d, R st (set_collection M (collection M st ++ [d]) st)) ->
  preserves R (Model_create env M input).
Proof.
  intros HR st c st' H. unfold Model_create in H. cbv zeta in H.
  match type of H with context [if ?c then _ else _] => destruct c end;
    injection H as _ <-; [apply HR|apply R_refl].
Qed.

Lemma preserves_save (env : Env) (M : Model) (d : doc) :
  (forall st f d', R st (set_collection M (replace_first f d' (collection M st)) st)) ->
  preserves R (Model_save env M d).
Proof.
  intros HR st c st' H. unfold Model_save in H. cbv zeta in H.
  match type of H with context [if ?c then _ else _] => destruct c end;
    injection H as _ <-; [apply HR|apply R_refl].
Qed.

Lemma preserves_deleteById (M : Model) (i : string) :
  (forall st f, R st (set_collection M (remove_first f (collection M st)) st)) ->
  preserves R (Model_deleteById M i).
Proof. intros HR st c st' [= _ <-]. apply HR. Qed.

Lemma preserves_try_catch (m : Action Response) (err : Response) (st : Store) :
  preserves R m -> R st (try_catch m err st).2.
Proof.
  intros Hm. unfold try_catch. destruct (m st) as [[r|r|] st1] eqn:E;
    simpl; apply (Hm _ _ _ E).
Qed.

End Frame.

(** The steps of a handler that cannot write. *)
Ltac frame_step :=
  first
    [ apply preserves_bind; try assumption; intros
    | apply preserves_ret | apply preserves_reply | apply preserves_eval
    | apply preserves_return_if | apply preserves_find | apply preserves_findOne
    | apply preserves_findById | apply preserves_populated
    | apply preserves_populated_all
    | match goal with
      | |- preserves _ (match ?x with _ => _ end) => destruct x
      end ];
  try assumption.

Ltac frame := repeat frame_step.

(** ** The status of a product *)







(** What the router's middleware leaves to do: it answers itself, or hands
    the request, with the decoded user attached, to the handler. *)
Lemma serve_with_cases (env : Env) (e : Endpoint) (req : Request) (st : Store) :
  (exists r, forall h, serve_with env e h req st = (r, st)) \/
  (exists req', body req' = body req /\ headers req' = headers req /\
                params req' = params req /\ query req' = query req /\
                forall h, serve_with env e h req st = h req' st).
Proof.
  unfold serve_with.
  assert (Hgate : forall rest,
    (rest = [] \/ exists ro, rest = [authorize (OneRole ro)]) ->
    (exists r0, forall h, use (protect env :: rest) h req st = (r0, st)) \/
    (exists req', body req' = body req /\ headers req' = headers req /\
                  params req' = params req /\ query req' = query req /\
                  forall h, use (protect env :: rest) h req st = h req' st)).
  { intros rest Hrest.
    destruct (protect_rejects_or_attaches_cases env req) as [[r0 Hr]|[u Hu]].
    - left. exists r0. intros h. apply use_responds. exact Hr.
    - destruct Hrest as [->|[ro ->]].
      + right. exists (set_user u req). repeat (split; [reflexivity|]).
        intros h. erewrite use_next by exact Hu. reflexivity.
      + destruct (authorize (OneRole ro) (set_user u req)) as [r0|req'] eqn:Ha.
        * left. exists r0. intros h. erewrite use_next by exact Hu.
          apply use_responds. exact Ha.
        * right. exists req'.
          assert (req' = set_user u req) as ->.
          { unfold authorize in Ha. simpl in Ha.
            destruct (negb _) in Ha; congruence. }
          repeat (split; [reflexivity|]).
          intros h. erewrite use_next by exact Hu. erewrite use_next by exact Ha.
          reflexivity. }
  destruct e; cbn [endpoint_middleware];
    first [ right; exists req; repeat (split; [reflexivity|]); reflexivity
          | apply Hgate; left; reflexivity
          | apply Hgate; right; eexists; reflexivity ].
Qed.



(** ** Whose request it is *)

Lemma authenticated_set_header (env : Env) (req : Request) (u : AuthUser) (k v : string) :
  k <> "authorization" ->
  authenticated_as env req u -> authenticated_as env (set_header k v req) u.
Proof.
  intros Hk (a & t & H & Hrest). exists a, t. split; [|exact Hrest].
  simpl. rewrite lookup_insert_ne by exact Hk. exact H.
Qed.

Lemma serve_passes (env : Env) (e : Endpoint) (r : UserRole) (req : Request)
    (u : AuthUser) (st : Store) :
  endpoint_role e = Some r ->
  authenticated_as env req u ->
  role u = VStr (UserRole_value r) ->
  serve env e req st = endpoint_handler env e (set_user u req) st.
Proof.
  intros He Hauth Hrole. unfold serve, serve_with.
  rewrite (role_middleware env e r He).
  erewrite use_next by (apply protect_attaches; exact Hauth).
  erewrite use_next; [reflexivity|].
  unfold authorize. cbn [user set_user]. rewrite Hrole. cbn [existsb strict_eq].
  rewrite String.eqb_refl. reflexivity.
Qed.

Lemma handler_ignores_user (env : Env) (e : Endpoint) (v : AuthUser) (req : Request) :
  endpoint_role e = Some VENDOR \/ endpoint_role e = Some NGO ->
  endpoint_handler env e (set_user v req) = endpoint_handler env e req.
Proof. intros [H|H]; destruct e; try discriminate H; reflexivity. Qed.

Lemma deleteProduct_by_header (env : Env) (req : Request) (st : Store)
    (p : doc) (seller uid : string) :
  caller_is uid req ->
  names_record env "productId" req (products st) p ->
  p !! "seller" = Some (VStr seller) ->
  deleteProduct env req st =
  if String.eqb seller uid
  then (json (obj [("message", VStr "Product removed")]),
        set_products (remove_first (has_id (param "productId" req)) (products st)) st)
  else (message 403 "Not authorized to delete this product", st).
Proof.
  intros Hc [Hvalid Hfind] Hseller. destruct (caller_header uid req Hc) as [Hu Ht].
  unfold deleteProduct, try_catch.
  rewrite run_return_if_false by (rewrite Ht; reflexivity).
  rewrite run_return_if_false by (rewrite Hvalid; reflexivity).
  rewrite run_findById. change (collection Product st) with (products st).
  rewrite Hfind, Hu. unfold field. rewrite Hseller. cbn [from_option Datatypes.id toString].
  rewrite !run_eval_some, run_return_if.
  destruct (String.eqb seller uid); reflexivity.
Qed.

(** C2. The vendor and NGO handlers take the caller from the [user-id]
    header, not from the verified token: their result does not depend on
    [req.user], and with one and the same valid vendor token
    [deleteProduct] removes the product when the header names its seller and
    answers 403 when the header names anyone else. *)
Theorem identity_from_header (env : Env) (req : Request) (st : Store)
    (u : AuthUser) (p : doc) (seller other : string) :
  authenticated_as env req u ->
  role u = VStr (UserRole_value VENDOR) ->
  names_record env "productId" req (products st) p ->
  p !! "seller" = Some (VStr seller) ->
  seller <> "" -> other <> "" -> other <> seller ->
  (forall e v rq,
     endpoint_role e = Some VENDOR \/ endpoint_role e = Some NGO ->
     endpoint_handler env e (set_user v rq) = endpoint_handler env e rq) /\
  serve env DELETE_vendors_product (set_header "user-id" seller req) st =
    (json (obj [("message", VStr "Product removed")]),
     set_products (remove_first (has_id (param "productId" req)) (products st)) st) /\
  serve env DELETE_vendors_product (set_header "user-id" other req) st =
    (message 403 "Not authorized to delete this product", st).
Proof.
  intros Hauth Hrole Hrec Hseller Hs Ho Hne.
  split; [intros e v rq He; apply handler_ignores_user; exact He|].
  assert (Hrun : forall uid, uid <> "" ->
    serve env DELETE_vendors_product (set_header "user-id" uid req) st =
    if String.eqb seller uid
    then (json (obj [("message", VStr "Product removed")]),
          set_products (remove_first (has_id (param "productId" req)) (products st)) st)
    else (message 403 "Not authorized to delete this product", st)).
  { intros uid Huid.
    rewrite (serve_passes env DELETE_vendors_product VENDOR _ u st eq_refl
               (authenticated_set_header env req u "user-id" uid ltac:(discriminate) Hauth)
               Hrole).
    rewrite handler_ignores_user by (left; reflexivity).
    cbn [endpoint_handler].
    apply (deleteProduct_by_header env (set_header "user-id" uid req) st p seller uid).
    - split; [|exact Huid]. simpl. apply lookup_insert_eq.
    - exact Hrec.
    - exact Hseller. }
  split.
  - rewrite (Hrun seller Hs), String.eqb_refl. reflexivity.
  - rewrite (Hrun other Ho).
    destruct (String.eqb seller other) eqn:E; [|reflexivity].
    apply String.eqb_eq in E. congruence.
Qed.

(** ** Placeholder reports *)





(** ** The statements at work on the small deployment *)

Lemma demo_vendor_authenticated :
  authenticated_as Demo.env Demo.delete_tomatoes DemoRequests.vendor_user.
Proof.
  exists "Bearer vendor.jwt", "vendor.jwt". repeat split; vm_compute; reflexivity.
Defined.



Lemma identity_from_header_witness :
  serve Demo.env DELETE_vendors_product
    (set_header "user-id" Demo.vendor_id Demo.delete_tomatoes) Demo.store =
    (json (obj [("message", VStr "Product removed")]),
     set_products (remove_first (has_id (param "productId" Demo.delete_tomatoes))
                     (products Demo.store)) Demo.store) /\
  serve Demo.env DELETE_vendors_product
    (set_header "user-id" Demo.other_id Demo.delete_tomatoes) Demo.store =
    (message 403 "Not authorized to delete this product", Demo.store).
Proof.
  apply (identity_from_header Demo.env Demo.delete_tomatoes Demo.store
           DemoRequests.vendor_user Demo.tomatoes Demo.vendor_id Demo.other_id).
  - exact demo_vendor_authenticated.
  - reflexivity.
  - split; vm_compute; reflexivity.
  - vm_compute; reflexivity.
  - discriminate.
  - discriminate.
  - discriminate.
Defined.

Lemma hidden_analytics_invisible_witness :
  getAnalyticsById Demo.env DemoRequests.other_reads_report Demo.store =
    (message 403 "Not authorized to access these analytics", Demo.store) /\
  exportAnalyticsData Demo.env DemoRequests.other_reads_report Demo.store =
    (message 403 "Not authorized to access these analytics", Demo.store).
Proof.
  apply (hidden_analytics_invisible Demo.env DemoRequests.other_reads_report Demo.store
           Demo.other_id Demo.report).
  - split; [vm_compute; reflexivity|discriminate].
  - exists DemoRequests.access_rights. split; [vm_compute; reflexivity|].
    split; [vm_compute; reflexivity|]. right. exists [VStr Demo.ngo_id].
    split; [vm_compute; reflexivity|]. intros [H|[]]. discriminate H.
  - split; vm_compute; reflexivity.
Defined.


Lemma role_gate_forbids_witness :
  answered_before_handler Demo.env POST_farmers_predictions
    DemoRequests.vendor_on_farmer_route
    (message 403 "Access denied. Required role: farmer").
Proof.
  apply (role_gate_forbids Demo.env POST_farmers_predictions FARMER
           DemoRequests.vendor_on_farmer_route DemoRequests.vendor_user).
  - reflexivity.
  - exists "Bearer vendor.jwt", "vendor.jwt". repeat split; vm_compute; reflexivity.
  - intros (r & [<-|[]] & H). discriminate H.
Defined.

Lemma register_duplicate_email_witness :
  register Demo.env DemoRequests.register_alice_again Demo.store =
  (message 400 "User already exists", Demo.store).
Proof.
  apply (register_duplicate_email Demo.env DemoRequests.register_alice_again Demo.store
           Demo.alice "alice@example.com").
  - vm_compute; reflexivity.
  - left; reflexivity.
  - vm_compute; reflexivity.
Defined.






(** * Further properties of the handlers *)

(** ** Requests without a caller *)

Lemma handler_without_user_id (env : Env) (e : Endpoint) (req : Request) (st : Store) :
  asks_user_id e ->
  truthy (header "user-id" req) = false ->
  endpoint_handler env e req st = (message 401 "Not authorized", st).
Proof.
  intros [Hrole Hne] Hh.
  destruct e; try (destruct Hrole as [H|H]; discriminate H); try contradiction;
    cbn [endpoint_handler];
    unfold listProducts, createProduct, updateProduct, deleteProduct, getSpoilageRisks,
      getDemandForecasts, getAnalytics, getAnalyticsById, createAnalytics,
      updateAnalytics, deleteAnalytics, exportAnalyticsData, try_catch;
    cbv zeta; rewrite run_return_if, Hh; reflexivity.
Qed.

(** X1. A valid vendor or NGO token is not enough: every vendor and NGO
    handler except [getProductById] answers 401 [Not authorized] when the
    [user-id] header is missing or empty, and leaves the store as it was. *)
Theorem token_without_user_id_unauthorized (env : Env) (e : Endpoint) (r : UserRole)
    (req : Request) (u : AuthUser) (st : Store) :
  asks_user_id e ->
  endpoint_role e = Some r ->
  authenticated_as env req u ->
  role u = VStr (UserRole_value r) ->
  headers req !! "user-id" = None \/ headers req !! "user-id" = Some "" ->
  serve env e req st = (message 401 "Not authorized", st).
Proof.
  intros Hasks He Hauth Hrole Hh.
  rewrite (serve_passes env e r req u st He Hauth Hrole).
  apply handler_without_user_id; [exact Hasks|].
  unfold header, lookup_str. cbn [headers set_user].
  destruct Hh as [-> | ->]; reflexivity.
Qed.

(** ** Routes that only read, and what each router writes *)

Lemma serve_relates (R : Store -> Store -> Prop) (env : Env) (e : Endpoint)
    (req : Request) (st : Store) :
  R st st ->
  (forall req', R st (endpoint_handler env e req' st).2) ->
  R st (serve env e req st).2.
Proof.
  intros Hrefl Hh. unfold serve.
  destruct (serve_with_cases env e req st) as [[r Hr]|(req' & _ & _ & _ & _ & Hr)];
    rewrite Hr; [exact Hrefl|apply Hh].
Qed.

Lemma eq_store_trans (a b c : Store) : a = b -> b = c -> a = c.
Proof. congruence. Qed.

Lemma reading_handler_keeps_store (env : Env) (e : Endpoint) (req : Request) (st : Store) :
  endpoint_method e = GET \/ e = POST_users_login ->
  st = (endpoint_handler env e req st).2.
Proof.
  intros Hm.
  destruct e; try (destruct Hm as [Hm|Hm]; discriminate Hm); cbn [endpoint_handler];
    unfold login, getProfile, getFarmProfile, getYieldPredictions, listProducts,
      getProductById, getSpoilageRisks, getDemandForecasts, getAnalytics,
      getAnalyticsById, exportAnalyticsData, farm_of;
    apply (preserves_try_catch eq); cbv zeta;
    pose proof (@eq_refl Store) as Hrefl;
    pose proof eq_store_trans as Htrans;
    frame.
Qed.

(** X2. The routes mounted with GET, and login, only read: whatever the
    request, serving it leaves the store as it was. *)
Theorem get_routes_keep_store (env : Env) (e : Endpoint) (req : Request) (st : Store) :
  endpoint_method e = GET \/ e = POST_users_login ->
  (serve env e req st).2 = st.
Proof.
  intros Hm. symmetry. apply (serve_relates eq); [reflexivity|].
  intros req'. apply reading_handler_keeps_store. exact Hm.
Qed.

Lemma foreign_kept_refl (e : Endpoint) (st : Store) : foreign_collections_kept e st st.
Proof.
  unfold foreign_collections_kept.
  destruct (endpoint_role e) as [[]|]; repeat split; reflexivity.
Qed.

Lemma foreign_kept_trans (e : Endpoint) (a b c : Store) :
  foreign_collections_kept e a b -> foreign_collections_kept e b c ->
  foreign_collections_kept e a c.
Proof.
  unfold foreign_collections_kept.
  destruct (endpoint_role e) as [[]|]; intuition congruence.
Qed.

Lemma handler_keeps_foreign (env : Env) (e : Endpoint) (req : Request) (st : Store) :
  foreign_collections_kept e st (endpoint_handler env e req st).2.
Proof.
  pose proof (foreign_kept_refl e) as Hrefl.
  pose proof (foreign_kept_trans e) as Htrans.
  destruct e; cbn [endpoint_handler];
    unfold register, login, getProfile, updateProfile, getFarmProfile,
      updateFarmProfile, addCrop, updateCrop, deleteCrop, getYieldPredictions,
      requestNewPrediction, listProducts, getProductById, createProduct, updateProduct,
      deleteProduct, getSpoilageRisks, getDemandForecasts, getAnalytics, getAnalyticsById,
      createAnalytics, updateAnalytics, deleteAnalytics, exportAnalyticsData, farm_of;
    apply preserves_try_catch; cbv zeta; frame.
  all: first
    [ apply preserves_create; [exact Hrefl|]; intros s d; repeat split; reflexivity
    | apply preserves_save; [exact Hrefl|]; intros s f d'; repeat split; reflexivity
    | apply preserves_deleteById; intros s f; repeat split; reflexivity
    | intros s c s' H; unfold Model_findByIdAndUpdate_set in H;
      destruct (List.find _ _) in H; injection H as _ <-;
      [repeat split; reflexivity|apply Hrefl] ].
Qed.

(** X3. Each router writes its own collections only: the user routes leave
    farms, products, analytics and predictions as they were, the farmer routes
    leave users, products and analytics, the vendor routes everything but
    products, the NGO routes everything but analytics. *)
Theorem routers_keep_foreign_collections (env : Env) (e : Endpoint) (req : Request)
    (st : Store) :
  foreign_collections_kept e st (serve env e req st).2.
Proof.
  apply (serve_relates (foreign_collections_kept e)); [apply foreign_kept_refl|].
  intros req'. apply handler_keeps_foreign.
Qed.

(** ** A failed request writes nothing (behind the role gates) *)

Lemma commits_bind {A} (m : Action A) (k : A -> Action Response) :
  preserves eq m -> (forall a, commits_last (k a)) -> commits_last (m ≫= k).
Proof.
  intros Hm Hk st c st' H. rewrite run_bind in H.
  destruct (m st) as [[a|r|] st1] eqn:E; pose proof (Hm _ _ _ E) as <-.
  - apply (Hk a _ _ _ H).
  - injection H as _ <-. left. reflexivity.
  - injection H as _ <-. left. reflexivity.
Qed.

Lemma commits_quiet (m : Action Response) : preserves eq m -> commits_last m.
Proof. intros Hm st c st' H. left. symmetry. apply (Hm _ _ _ H). Qed.

Lemma commits_create (env : Env) (M : Model) (input : doc) (f : doc -> value) :
  commits_last (Model_create env M input ≫= fun d => ret (status_json 201 (f d))).
Proof.
  intros st c st' H. rewrite run_create in H. cbv zeta in H.
  match type of H with context [if ?b then _ else _] => destruct b end.
  - unfold ret in H. apply pair_equal_spec in H. destruct H as [<- _].
    right. eexists. split; [reflexivity|right; reflexivity].
  - apply pair_equal_spec in H. destruct H as [_ <-]. left. reflexivity.
Qed.

Lemma commits_save (env : Env) (M : Model) (d : doc) (k : doc -> Action Response) :
  (forall d', preserves eq (k d')) ->
  (forall d' st c st', k (<["updatedAt" := VDate (now env)]> d') st = (c, st') ->
     d' = d -> exists r, c = Normal r /\ (status r = 200 \/ status r = 201)) ->
  commits_last (Model_save env M d ≫= k).
Proof.
  intros Hq Hk st c st' H. rewrite run_save in H. cbv zeta in H.
  match type of H with context [if ?b then _ else _] => destruct b end.
  - right. apply (Hk d _ _ _ H eq_refl).
  - apply pair_equal_spec in H. destruct H as [_ <-]. left. reflexivity.
Qed.

Lemma commits_delete (M : Model) (i : string) (r : Response) :
  status r = 200 -> commits_last (Model_deleteById M i ≫= fun _ => ret r).
Proof.
  intros Hr st c st' H. rewrite run_bind in H. cbn in H.
  apply pair_equal_spec in H. destruct H as [<- _].
  right. exists r. split; [reflexivity|left; exact Hr].
Qed.

Lemma commits_update_set (env : Env) (M : Model) (i : string) (fields : doc)
    (r : Response) :
  commits_last (Model_findByIdAndUpdate_set env M i fields ≫= fun updated =>
                match updated with
                | None => reply r
                | Some p => ret (json (VObj p))
                end).
Proof.
  intros st c st' H. rewrite run_bind in H. unfold Model_findByIdAndUpdate_set in H.
  destruct (List.find (has_id i) (collection M st)).
  - unfold ret in H. cbv beta iota zeta in H.
    apply pair_equal_spec in H. destruct H as [<- _].
    right. eexists. split; [reflexivity|left; reflexivity].
  - cbn in H. apply pair_equal_spec in H. destruct H as [_ <-]. left. reflexivity.
Qed.

Lemma crops_of_stamped (farm : doc) (l : list value) (v : value) :
  crops_of (<["updatedAt" := v]> (<["crops" := VArr l]> farm)) = Some l.
Proof.
  unfold crops_of, field. rewrite lookup_insert_ne by discriminate.
  rewrite lookup_insert_eq. reflexivity.
Qed.

Lemma commits_try_catch (m : Action Response) (err : Response) (st : Store) :
  commits_last m ->
  status (try_catch m err st).1 <> 200 ->
  status (try_catch m err st).1 <> 201 ->
  (try_catch m err st).2 = st.
Proof.
  intros Hm. unfold try_catch.
  destruct (m st) as [[r|r|] st1] eqn:E; cbn [fst snd]; intros H200 H201;
    destruct (Hm _ _ _ E) as [->|(r' & Hc & Hs)]; try reflexivity; try discriminate Hc.
  injection Hc as ->. destruct Hs; contradiction.
Qed.

(** The steps in front of the write change nothing; the write comes last. *)
Ltac quiet_leaf :=
  pose proof (@eq_refl Store); pose proof eq_store_trans; solve [frame].

Ltac commit_step :=
  first
    [ apply commits_bind; [quiet_leaf|intros]
    | apply commits_quiet; quiet_leaf
    | apply commits_create
    | apply commits_delete; reflexivity
    | apply commits_update_set
    | match goal with
      | |- commits_last (match ?x with _ => _ end) => destruct x
      end ].


Lemma gated_handler_commits_last (env : Env) (e : Endpoint) (req : Request) (st : Store) :
  endpoint_role e <> None ->
  status (endpoint_handler env e req st).1 <> 200 ->
  status (endpoint_handler env e req st).1 <> 201 ->
  (endpoint_handler env e req st).2 = st.
Proof.
  intros Hrole.
  destruct e; try (exfalso; apply Hrole; reflexivity); cbn [endpoint_handler];
    unfold getFarmProfile, updateFarmProfile, addCrop, updateCrop, deleteCrop,
      getYieldPredictions, requestNewPrediction, listProducts, getProductById,
      createProduct, updateProduct, deleteProduct, getSpoilageRisks, getDemandForecasts,
      getAnalytics, getAnalyticsById, createAnalytics, updateAnalytics, deleteAnalytics,
      exportAnalyticsData, farm_of;
    apply commits_try_catch; cbv zeta; repeat commit_step.
  all: apply commits_save; [intros; quiet_leaf|intros d' s c s' H ->].
  - unfold ret in H. apply pair_equal_spec in H. destruct H as [<- _].
    eexists. split; [reflexivity|left; reflexivity].
  - rewrite crops_of_stamped, run_eval_some in H.
    unfold ret in H. apply pair_equal_spec in H. destruct H as [<- _].
    eexists. split; [reflexivity|right; reflexivity].
  - rewrite crops_of_stamped, run_eval_some in H.
    unfold ret in H. apply pair_equal_spec in H. destruct H as [<- _].
    eexists. split; [reflexivity|left; reflexivity].
  - unfold ret in H. apply pair_equal_spec in H. destruct H as [<- _].
    eexists. split; [reflexivity|left; reflexivity].
  - unfold ret in H. apply pair_equal_spec in H. destruct H as [<- _].
    eexists. split; [reflexivity|left; reflexivity].
Qed.

(** X4. Behind the role gates a request that is not answered 200 or 201
    has written nothing: every farmer, vendor and NGO route leaves the store
    as it was unless it answers with success. *)
Theorem gated_routes_write_only_on_success (env : Env) (e : Endpoint) (req : Request)
    (st : Store) :
  endpoint_role e <> None ->
  status (serve env e req st).1 <> 200 ->
  status (serve env e req st).1 <> 201 ->
  (serve env e req st).2 = st.
Proof.
  intros Hrole. unfold serve.
  destruct (serve_with_cases env e req st) as [[r Hr]|(req' & _ & _ & _ & _ & Hr)];
    rewrite Hr; [reflexivity|].
  apply gated_handler_commits_last. exact Hrole.
Qed.

(** ** Registering and logging in *)

(** What [Model.create] stores: the given fields that are not [undefined],
    under the defaults, [_id] and the timestamps. *)
Lemma run_create_cases (env : Env) (M : Model) (input : doc) (st st' : Store)
    (c : Completion doc) :
  Model_create env M input st = (c, st') ->
  (c = Throw /\ st' = st) \/
  exists d, c = Normal d /\
            st' = set_collection M (collection M st ++ [d])%list st /\
            d = <["updatedAt" := VDate (now env)]>
                (<["createdAt" := VDate (now env)]>
                (<["_id" := VStr (ObjectId_new env)]>
                   (defaults M (filter (fun kv => is_undefined kv.2 = false) input)))).
Proof.
  unfold Model_create. cbv zeta.
  match goal with |- context [if ?b then _ else _] => destruct b end;
    intros H; apply pair_equal_spec in H; destruct H as [<- <-].
  - right. eexists. repeat split.
  - left. split; reflexivity.
Qed.

Lemma created_lookup (env : Env) (M : Model) (given : doc) (k : string) :
  k <> "updatedAt" -> k <> "createdAt" -> k <> "_id" ->
  (<["updatedAt" := VDate (now env)]>
     (<["createdAt" := VDate (now env)]>
     (<["_id" := VStr (ObjectId_new env)]> (defaults M given)))) !! k =
  defaults M given !! k.
Proof. intros. rewrite !lookup_insert_ne by congruence. reflexivity. Qed.

Lemma created_id (env : Env) (d : doc) :
  doc_id (<["updatedAt" := VDate (now env)]>
            (<["createdAt" := VDate (now env)]>
            (<["_id" := VStr (ObjectId_new env)]> d))) = VStr (ObjectId_new env).
Proof.
  unfold doc_id, field. rewrite !lookup_insert_ne by discriminate.
  rewrite lookup_insert_eq. reflexivity.
Qed.

Lemma set_default_lookup_ne (k k' : string) (v : value) (d : doc) :
  k' <> k -> set_default k v d !! k' = d !! k'.
Proof.
  intros Hk. unfold set_default. destruct (d !! k); [reflexivity|].
  rewrite lookup_insert_ne by congruence. reflexivity.
Qed.

Lemma set_default_lookup (k : string) (v : value) (d : doc) :
  set_default k v d !! k = Some (default v (d !! k)).
Proof.
  unfold set_default. destruct (d !! k) eqn:E; simpl; [exact E|apply lookup_insert_eq].
Qed.

Lemma given_lookup (input : doc) (k : string) :
  filter (fun kv : string * value => is_undefined kv.2 = false) input !! k =
  match input !! k with
  | Some v => if is_undefined v then None else Some v
  | None => None
  end.
Proof.
  destruct (input !! k) as [v|] eqn:E.
  - destruct (is_undefined v) eqn:Eu.
    + apply map_lookup_filter_None. right. intros w Hw. simpl. congruence.
    + apply map_lookup_filter_Some. split; [exact E|exact Eu].
  - apply map_lookup_filter_None. left. exact E.
Qed.

Lemma or_else_defined (a b : value) :
  is_undefined b = false -> is_undefined (or_else a b) = false.
Proof.
  intros Hb. unfold or_else. destruct (truthy a) eqn:E; [|exact Hb].
  destruct a; try reflexivity; discriminate E.
Qed.

Lemma findOne_cases (M : Model) (q : list Clause) (st st' : Store)
    (c : Completion (option doc)) :
  Model_findOne M q st = (c, st') ->
  st' = st /\ (c = Throw \/ exists o, c = Normal o).
Proof.
  unfold Model_findOne. rewrite run_bind. unfold Model_find.
  destruct (castable q); intros H; apply pair_equal_spec in H; destruct H as [<- <-].
  - split; [reflexivity|right; eexists; reflexivity].
  - split; [reflexivity|left; reflexivity].
Qed.

Lemma created_user_fields (env : Env) (name email : value) (h : string)
    (role_ location phoneNumber : value) :
  let d : doc :=
    <["updatedAt" := VDate (now env)]>
      (<["createdAt" := VDate (now env)]>
      (<["_id" := VStr (ObjectId_new env)]>
         (defaults User (filter (fun kv => is_undefined kv.2 = false) (list_to_map
            [("name", name); ("email", email); ("password", VStr h);
             ("role", or_else role_ (VStr (UserRole_value FARMER)));
             ("location", location); ("phoneNumber", phoneNumber)]))))) in
  d !! "password" = Some (VStr h) /\
  d !! "role" = Some (or_else role_ (VStr (UserRole_value FARMER))) /\
  d !! "email" = (if is_undefined email then None else Some email) /\
  doc_id d = VStr (ObjectId_new env).
Proof.
  intros d. subst d. repeat split.
  - rewrite created_lookup by discriminate. unfold User. cbn [defaults].
    rewrite set_default_lookup_ne by discriminate. rewrite given_lookup.
    rewrite !list_to_map_cons.
    rewrite !lookup_insert_ne by discriminate. rewrite lookup_insert_eq. reflexivity.
  - rewrite created_lookup by discriminate. unfold User. cbn [defaults].
    rewrite set_default_lookup, given_lookup. rewrite !list_to_map_cons.
    rewrite !lookup_insert_ne by discriminate. rewrite lookup_insert_eq.
    rewrite or_else_defined by reflexivity. reflexivity.
  - rewrite created_lookup by discriminate. unfold User. cbn [defaults].
    rewrite set_default_lookup_ne by discriminate. rewrite given_lookup.
    rewrite !list_to_map_cons.
    rewrite !lookup_insert_ne by discriminate. rewrite lookup_insert_eq. reflexivity.
  - apply created_id.
Qed.

(** The runs of [register]: nothing is written and the answer is no 201, or
    the user is stored with the hash of the password and then the token is
    signed (201) or signing throws (500). *)
Lemma register_cases (env : Env) (req : Request) (st st' : Store) (resp : Response) :
  register env req st = (resp, st') ->
  (st' = st /\ status resp <> 201) \/
  exists email password role_ h d,
    prop "email" (body req) = Some email /\
    prop "password" (body req) = Some password /\
    prop "role" (body req) = Some role_ /\
    Model_findOne User [Where ["email"] (Eq email)] st = (Normal None, st) /\
    bcrypt_hash env password (bcrypt_genSalt env 10) = Some h /\
    st' = set_users (users st ++ [d])%list st /\
    d !! "password" = Some (VStr h) /\
    d !! "role" = Some (or_else role_ (VStr (UserRole_value FARMER))) /\
    d !! "email" = (if is_undefined email then None else Some email) /\
    doc_id d = VStr (ObjectId_new env) /\
    match generateToken env (doc_id d) (field "role" d) with
    | Some token =>
        resp = status_json 201 (obj
          [("_id", doc_id d); ("name", field "name" d);
           ("email", field "email" d); ("role", field "role" d);
           ("location", field "location" d); ("token", VStr token)])
    | None => resp = message 500 "Server error during registration"
    end.
Proof.
  intros H. unfold register, try_catch in H.
  do 6 (step H; [|finish H; left; split; [reflexivity|discriminate]]).
  rewrite run_bind in H.
  destruct (Model_findOne User _ st) as [c1 st1] eqn:Hfind.
  destruct (findOne_cases _ _ _ _ _ Hfind) as [-> [->|[[u|] ->]]];
    [finish H|finish H; left; split; [reflexivity|discriminate]|].
  step H; [|finish H; left; split; [reflexivity|discriminate]].
  rewrite run_bind in H.
  match type of H with context [Model_create env User ?i st] =>
    destruct (Model_create env User i st) as [c st2] eqn:Hcreate end.
  apply run_create_cases in Hcreate.
  destruct Hcreate as [[-> ->]|(d & -> & -> & Hd)];
    [finish H; left; split; [reflexivity|discriminate]|].
  right.
  match goal with Hh : bcrypt_hash _ _ _ = Some ?x |- _ => rename x into h end.
  match goal with He : prop "email" _ = Some ?x |- _ => rename x into email end.
  match goal with He : prop "password" _ = Some ?x |- _ => rename x into password end.
  match goal with He : prop "role" _ = Some ?x |- _ => rename x into role_ end.
  exists email, password, role_, h, d.
  repeat (split; [first [assumption|reflexivity]|]).
  destruct (created_user_fields env v email h role_ v3 v4) as (Hpw & Hrole & Hemail & Hid).
  rewrite <- Hd in Hpw, Hrole, Hemail, Hid.
  clear Hd.
  cbn [truthy] in H. cbv beta iota in H.
  destruct (generateToken env (doc_id d) (field "role" d)) as [token|];
    [rewrite run_eval_some in H|rewrite run_eval_throw in H];
    unfold ret in H; cbv beta iota in H;
    apply pair_equal_spec in H; destruct H as [<- <-];
    repeat (split; [first [assumption|reflexivity]|]); reflexivity.
Qed.


Lemma field_of_given (d : doc) (k : string) (v : value) :
  d !! k = (if is_undefined v then None else Some v) -> field k d = v.
Proof.
  unfold field. intros ->. destruct v; reflexivity.
Qed.

Lemma findOne_none (M : Model) (q : list Clause) (st st' : Store) :
  Model_findOne M q st = (Normal None, st') ->
  forall u, In u (collection M st) -> matches q u = false.
Proof.
  unfold Model_findOne. rewrite run_bind. unfold Model_find.
  destruct (castable q); [|discriminate].
  unfold ret. intros H u Hu. apply pair_equal_spec in H. destruct H as [H _].
  assert (Hnil : filter (fun d => matches q d = true) (collection M st) = []).
  { destruct (filter _ _); [reflexivity|discriminate H]. }
  destruct (matches q u) eqn:E; [|reflexivity].
  assert (Hin : u ∈ filter (fun d => matches q d = true) (collection M st)).
  { apply list_elem_of_filter. split; [exact E|]. apply list_elem_of_In. exact Hu. }
  rewrite Hnil in Hin. inversion Hin.
Qed.


(** X6. A registration answered 201 has stored one new user, under an email
    no stored user had, with the bcrypt hash of the password in place of the
    password and with the role of the body or [farmer]; the response carries
    neither the password nor its hash. *)
Theorem register_stores_hash (env : Env) (req : Request) (st st' : Store)
    (resp : Response) :
  register env req st = (resp, st') ->
  status resp = 201 ->
  exists email password role_ h d o,
    prop "email" (body req) = Some email /\
    prop "password" (body req) = Some password /\
    prop "role" (body req) = Some role_ /\
    (forall u, In u (users st) -> matches [Where ["email"] (Eq email)] u = false) /\
    bcrypt_hash env password (bcrypt_genSalt env 10) = Some h /\
    users st' = (users st ++ [d])%list /\
    d !! "password" = Some (VStr h) /\
    d !! "role" = Some (or_else role_ (VStr (UserRole_value FARMER))) /\
    payload resp = VObj o /\
    o !! "_id" = Some (VStr (ObjectId_new env)) /\
    o !! "password" = None.
Proof.
  intros H H201.
  destruct (register_cases _ _ _ _ _ H)
    as [[_ Hno]|(email & password & role_ & h & d & He & Hp & Hr & Hfind & Hh & -> & Hpw
                 & Hrole & _ & Hid & Hresp)];
    [contradiction|].
  destruct (generateToken env (doc_id d) (field "role" d)) as [token|];
    [|subst resp; discriminate H201].
  exists email, password, role_, h, d.
  eexists. repeat (split; [first [eassumption|reflexivity]|]).
  split; [exact (findOne_none User _ _ _ Hfind)|].
  repeat (split; [first [eassumption|reflexivity]|]).
  subst resp. split; [reflexivity|]. rewrite Hid. split; reflexivity.
Qed.

Lemma findOne_appended_user (q : list Clause) (d : doc) (st : Store) :
  Model_findOne User q st = (Normal None, st) ->
  matches q d = true ->
  Model_findOne User q (set_users (users st ++ [d])%list st) =
  (Normal (Some d), set_users (users st ++ [d])%list st).
Proof.
  intros Hnone Hd. pose proof (findOne_none User q st st Hnone) as Hall.
  revert Hnone. unfold Model_findOne. rewrite !run_bind. unfold Model_find.
  destruct (castable q); [|discriminate]. intros _.
  unfold ret. f_equal. f_equal.
  change (collection User (set_users (users st ++ [d]) st)) with (users st ++ [d])%list.
  change (collection User st) with (users st) in Hall.
  rewrite filter_app.
  assert (Hnil : filter (fun d0 => matches q d0 = true) (users st) = []).
  { induction (users st) as [|x l IH]; [reflexivity|].
    rewrite filter_cons. destruct (decide (matches q x = true)) as [Hx|Hx].
    - rewrite Hall in Hx by (left; reflexivity). discriminate Hx.
    - apply IH. intros u Hu. apply Hall. right. exact Hu. }
  rewrite Hnil. simpl. rewrite filter_cons.
  destruct (decide (matches q d = true)); [reflexivity|contradiction].
Qed.

(** X7. Registration followed by login: after a registration answered 201
    under a string email, a later login with the same email and password
    finds the new user and gets past the password check, whenever bcrypt
    accepts a password against its own hash: it answers 200 with the fields
    of that user and a token, or 500 if signing the token throws. *)
Theorem register_then_login (env env' : Env) (req req' : Request) (st st' : Store)
    (resp : Response) (e : string) :
  (forall p h, bcrypt_hash env p (bcrypt_genSalt env 10) = Some h ->
               bcrypt_compare env' p (VStr h) = Some true) ->
  register env req st = (resp, st') ->
  status resp = 201 ->
  prop "email" (body req) = Some (VStr e) ->
  prop "email" (body req') = prop "email" (body req) ->
  prop "password" (body req') = prop "password" (body req) ->
  exists d,
    users st' = (users st ++ [d])%list /\
    prop "_id" (payload resp) = Some (doc_id d) /\
    login env' req' st' =
    match generateToken env' (doc_id d) (field "role" d) with
    | Some token =>
        (json (obj [("_id", doc_id d); ("name", field "name" d);
                    ("email", field "email" d); ("role", field "role" d);
                    ("location", field "location" d); ("token", VStr token)]), st')
    | None => (message 500 "Server error during login", st')
    end.
Proof.
  intros Hbcrypt H H201 He He' Hp'.
  destruct (register_cases _ _ _ _ _ H)
    as [[_ Hno]|(email & password & role_ & h & d & He2 & Hp & Hr & Hfind & Hh & -> & Hpw
                 & Hrole & Hemail & Hid & Hresp)];
    [contradiction|].
  rewrite He in He2. injection He2 as <-.
  exists d. split; [reflexivity|]. split.
  { destruct (generateToken env (doc_id d) (field "role" d)) as [token|];
      subst resp; [reflexivity|discriminate H201]. }
  clear Hresp H.
  unfold login, try_catch. rewrite He', Hp', He, Hp, !run_eval_some.
  rewrite run_bind, (findOne_appended_user _ d _ Hfind).
  2:{ unfold matches, clause_match, cond_match, at_path. cbn [forallb].
      rewrite Hemail. cbn [is_undefined eq_match strict_eq].
      rewrite String.eqb_refl. reflexivity. }
  assert (Hf : field "password" d = VStr h) by (unfold field; rewrite Hpw; reflexivity).
  rewrite Hf, (Hbcrypt _ _ Hh), run_eval_some, run_return_if. cbn [negb].
  destruct (generateToken env' (doc_id d) (field "role" d)) as [token|]; reflexivity.
Qed.



(** ** The profile routes *)

Lemma protect_cases (env : Env) (req : Request) :
  (exists m, protect env req = Respond (message 401 m)) \/
  (exists u, authenticated_as env req u /\ protect env req = Next (set_user u req)).
Proof.
  rewrite protect_unfold. unfold authenticated_as.
  destruct (headers req !! "authorization") as [a|]; [|eauto].
  destruct (startsWith "Bearer" a) eqn:Hb; [|eauto].
  destruct (carried_token a) as [t|] eqn:Ht; [|eauto].
  destruct (verified env t) as [u|] eqn:Hv; [|eauto].
  right. exists u. split; [|reflexivity]. exists a, t. auto.
Qed.

Lemma findOne_some (M : Model) (q : list Clause) (st st' : Store) (d : doc) :
  Model_findOne M q st = (Normal (Some d), st') ->
  In d (collection M st) /\ matches q d = true.
Proof.
  unfold Model_findOne. rewrite run_bind. unfold Model_find.
  destruct (castable q); [|discriminate]. unfold ret. intros Hf.
  apply pair_equal_spec in Hf. destruct Hf as [Hf _].
  assert (Hin : d ∈ filter (fun x => matches q x = true) (collection M st)).
  { destruct (filter _ _) as [|x l]; [discriminate Hf|].
    injection Hf as ->. left. }
  apply list_elem_of_filter in Hin. destruct Hin as [Hm Hin].
  apply list_elem_of_In in Hin. split; assumption.
Qed.

Lemma getProfile_cases (req : Request) (st st' : Store) (resp : Response) (u : AuthUser) :
  user req = Some u ->
  getProfile req st = (resp, st') ->
  status resp = 200 ->
  exists stored, In stored (users st) /\
                 matches [Where ["_id"] (Eq (id u))] stored = true /\
                 resp = json (VObj (delete "password" stored)).
Proof.
  intros Hu H H200. unfold getProfile, try_catch in H. rewrite Hu in H.
  rewrite run_bind in H.
  destruct (Model_findOne User _ st) as [c1 st1] eqn:Hfind.
  pose proof Hfind as Hfound.
  destruct (findOne_cases _ _ _ _ _ Hfind) as [-> [->|[[stored|] ->]]].
  - finish H.
  - apply findOne_some in Hfound. destruct Hfound as [Hin Hm].
    unfold ret in H. apply pair_equal_spec in H. destruct H as [<- _].
    exists stored. repeat split; assumption.
  - unfold reply in H. apply pair_equal_spec in H. destruct H as [<- _].
    discriminate H200.
Qed.

(** X9. The profile route answers 200 only to a bearer token that verifies,
    with the stored user whose [_id] matches the token's id, and without the
    [password] field. *)
Theorem profile_hides_password (env : Env) (req : Request) (st st' : Store)
    (resp : Response) :
  serve env GET_users_profile req st = (resp, st') ->
  status resp = 200 ->
  exists u stored,
    authenticated_as env req u /\
    In stored (users st) /\
    matches [Where ["_id"] (Eq (id u))] stored = true /\
    payload resp = VObj (delete "password" stored) /\
    prop "password" (payload resp) = Some VUndefined.
Proof.
  intros H H200. unfold serve, serve_with in H. cbn [endpoint_middleware endpoint_handler] in H.
  destruct (protect_cases env req) as [[m Hm]|(u & Hauth & Hnext)].
  - rewrite (use_responds _ _ _ _ _ _ Hm) in H.
    apply pair_equal_spec in H. destruct H as [<- _]. discriminate H200.
  - rewrite (use_next _ _ _ _ _ _ Hnext) in H. cbn [use] in H.
    destruct (getProfile_cases (set_user u req) _ _ _ u eq_refl H H200) as (stored & Hin & Hmatch & ->).
    exists u, stored. repeat (split; [assumption|]). split; [reflexivity|].
    cbn [payload json prop]. rewrite lookup_delete_eq. reflexivity.
Qed.



(** ** Behind a role gate *)

(** A request to a route of a role router is answered 401 or 403 by the
    middleware, or reaches the handler with the verified user attached. *)
Lemma serve_gated_cases (env : Env) (e : Endpoint) (r : UserRole) (req : Request)
    (st st' : Store) (resp : Response) :
  endpoint_role e = Some r ->
  serve env e req st = (resp, st') ->
  ((status resp = 401 \/ status resp = 403) /\ st' = st) \/
  exists u, authenticated_as env req u /\
            role u = VStr (UserRole_value r) /\
            endpoint_handler env e (set_user u req) st = (resp, st').
Proof.
  intros He H. unfold serve, serve_with in H. rewrite (role_middleware env e r He) in H.
  destruct (protect_cases env req) as [[m Hm]|(u & Hauth & Hnext)].
  { rewrite (use_responds _ _ _ _ _ _ Hm) in H.
    apply pair_equal_spec in H. destruct H as [<- <-]. left. split; [left|]; reflexivity. }
  rewrite (use_next _ _ _ _ _ _ Hnext) in H.
  cbn [use authorize user set_user existsb orb] in H.
  destruct (role u) as [| | | | |s| | |] eqn:Hrole; cbn [strict_eq negb] in H;
    try (apply pair_equal_spec in H; destruct H as [<- <-]; left;
         split; [right|]; reflexivity).
  destruct (String.eqb (UserRole_value r) s) eqn:Hs; cbn [negb orb] in H.
  - apply String.eqb_eq in Hs. subst s. right. exists u. repeat split; assumption.
  - apply pair_equal_spec in H. destruct H as [<- <-]. left. split; [right|]; reflexivity.
Qed.

(** ** Selling products *)

Lemma createProduct_cases (env : Env) (req : Request) (st st' : Store) (resp : Response) :
  createProduct env req st = (resp, st') ->
  status resp = 201 ->
  exists p, truthy (header "user-id" req) = true /\
            st' = set_products (products st ++ [p])%list st /\
            p !! "seller" = Some (header "user-id" req) /\
            p !! "_id" = Some (VStr (ObjectId_new env)) /\
            resp = status_json 201 (VObj p).
Proof.
  intros H H201. unfold createProduct, try_catch in H.
  step H; [finish H; discriminate H201|].
  do 15 (step H; [|finish H; discriminate H201]).
  rewrite run_create in H. cbv zeta in H.
  match type of H with context [if ?c then _ else _] => destruct c end;
    [|finish H; discriminate H201].
  unfold ret in H. cbv beta iota in H.
  apply pair_equal_spec in H. destruct H as [Hr Hs]. subst resp st'.
  eexists. split; [|split; [reflexivity|split; [|split; [|reflexivity]]]].
  - match goal with Hh : negb (truthy _) = false |- _ =>
      apply negb_false_iff in Hh; exact Hh end.
  - rewrite !lookup_insert_ne by discriminate.
    unfold Product. cbn [defaults]. rewrite !set_default_lookup_ne by discriminate.
    rewrite given_lookup, !list_to_map_cons, lookup_insert_eq.
    match goal with Hh : negb (truthy ?h) = false |- _ =>
      apply negb_false_iff in Hh; destruct h; try discriminate Hh; reflexivity end.
  - rewrite !lookup_insert_ne by discriminate. apply lookup_insert_eq.
Qed.

(** X11. A product is created in the name of whoever the [user-id] header
    names: behind a verified vendor token, a creation answered 201 appends
    one product whose seller is the header's value, under a fresh [_id]. *)
Theorem createProduct_seller_is_header (env : Env) (req : Request) (st st' : Store)
    (resp : Response) :
  serve env POST_vendors_products req st = (resp, st') ->
  status resp = 201 ->
  exists u uid p,
    authenticated_as env req u /\
    role u = VStr (UserRole_value VENDOR) /\
    headers req !! "user-id" = Some uid /\
    products st' = (products st ++ [p])%list /\
    p !! "seller" = Some (VStr uid) /\
    p !! "_id" = Some (VStr (ObjectId_new env)) /\
    payload resp = VObj p.
Proof.
  intros H H201.
  destruct (serve_gated_cases env POST_vendors_products VENDOR _ _ _ _ eq_refl H)
    as [[[H4|H4] _]|(u & Hauth & Hrole & Hh)];
    [rewrite H4 in H201; discriminate H201|rewrite H4 in H201; discriminate H201|].
  cbn [endpoint_handler] in Hh.
  destruct (createProduct_cases _ _ _ _ _ Hh H201) as (p & Ht & -> & Hseller & Hid & ->).
  unfold header, lookup_str in Ht, Hseller. cbn [headers set_user] in Ht, Hseller.
  destruct (headers req !! "user-id") as [uid|] eqn:Hu; [|discriminate Ht].
  exists u, uid, p. repeat (split; [first [assumption|reflexivity]|]). reflexivity.
Qed.


Lemma product_write_by_seller (env : Env) (e : Endpoint) (req : Request) (st st' : Store)
    (resp : Response) :
  e = PUT_vendors_product \/ e = DELETE_vendors_product ->
  endpoint_handler env e req st = (resp, st') ->
  st' = st \/
  exists uid p,
    headers req !! "user-id" = Some uid /\
    ObjectId_isValid env (param "productId" req) = true /\
    List.find (has_id (param "productId" req)) (products st) = Some p /\
    toString env (field "seller" p) = Some uid.
Proof.
  intros [->| ->] H; cbn [endpoint_handler] in H.
  - unfold updateProduct, try_catch in H.
    step H; [finish H; left; reflexivity|].
    step H; [finish H; left; reflexivity|].
    step H; [|finish H; left; reflexivity].
    step H; [|finish H; left; reflexivity].
    step H; [|finish H; left; reflexivity].
    step H; [finish H; left; reflexivity|].
    right. clear H.
    unfold header, lookup_str in *.
    destruct (headers req !! "user-id") as [uid|]; [|discriminate].
    match goal with Hc : toString env (VStr uid) = Some ?c |- _ =>
      cbn in Hc; injection Hc as <- end.
    match goal with Hq : negb (String.eqb ?s uid) = false |- _ =>
      apply negb_false_iff, String.eqb_eq in Hq; subst s end.
    match goal with Hv : negb (ObjectId_isValid env _) = false |- _ =>
      apply negb_false_iff in Hv end.
    eexists _, _. repeat split; eassumption.
  - unfold deleteProduct, try_catch in H.
    step H; [finish H; left; reflexivity|].
    step H; [finish H; left; reflexivity|].
    step H; [|finish H; left; reflexivity].
    step H; [|finish H; left; reflexivity].
    step H; [|finish H; left; reflexivity].
    step H; [finish H; left; reflexivity|].
    right. clear H.
    unfold header, lookup_str in *.
    destruct (headers req !! "user-id") as [uid|]; [|discriminate].
    match goal with Hc : toString env (VStr uid) = Some ?c |- _ =>
      cbn in Hc; injection Hc as <- end.
    match goal with Hq : negb (String.eqb ?s uid) = false |- _ =>
      apply negb_false_iff, String.eqb_eq in Hq; subst s end.
    match goal with Hv : negb (ObjectId_isValid env _) = false |- _ =>
      apply negb_false_iff in Hv end.
    eexists _, _. repeat split; eassumption.
Qed.

(** X12. The stored products change under an update or a delete only when
    the [user-id] header names the seller of the product the route names:
    in every other case these two routes leave the store as it was. *)
Theorem product_changes_need_seller_header (env : Env) (e : Endpoint) (req : Request)
    (st st' : Store) (resp : Response) :
  e = PUT_vendors_product \/ e = DELETE_vendors_product ->
  serve env e req st = (resp, st') ->
  st' <> st ->
  exists uid p,
    headers req !! "user-id" = Some uid /\
    ObjectId_isValid env (param "productId" req) = true /\
    List.find (has_id (param "productId" req)) (products st) = Some p /\
    toString env (field "seller" p) = Some uid.
Proof.
  intros He H Hst.
  assert (Hrole : endpoint_role e = Some VENDOR) by (destruct He as [->| ->]; reflexivity).
  destruct (serve_gated_cases env e VENDOR _ _ _ _ Hrole H)
    as [[_ Hsame]|(u & _ & _ & Hh)]; [contradiction|].
  destruct (product_write_by_seller env e _ _ _ _ He Hh) as [Hsame|Hw];
    [contradiction|exact Hw].
Qed.


Lemma populate_lookup_ne (M : Model) (path : string) (sel : list string) (st : Store)
    (d : doc) (k : string) :
  k <> path -> populate M path sel st d !! k = d !! k.
Proof.
  intros Hk. unfold populate. destruct (d !! path); [|reflexivity].
  rewrite lookup_insert_ne by congruence. reflexivity.
Qed.

Lemma find_appended (i : string) (l : list doc) (d : doc) :
  (forall x, In x l -> has_id i x = false) ->
  has_id i d = true ->
  List.find (has_id i) (l ++ [d])%list = Some d.
Proof.
  intros Hl Hd. induction l as [|x l IH]; simpl.
  - rewrite Hd. reflexivity.
  - rewrite (Hl x) by (left; reflexivity). apply IH. intros y Hy. apply Hl. right. exact Hy.
Qed.

Lemma has_id_lookup (i : string) (d : doc) :
  d !! "_id" = Some (VStr i) -> has_id i d = true.
Proof.
  intros H. unfold has_id, doc_id, field. rewrite H. simpl. apply String.eqb_refl.
Qed.

(** X13. A created product is found under its id: after a creation answered
    201, with an [_id] no stored product had, [getProductById] on that id
    answers 200 with the product as created, [seller] and [farm] replaced by
    what they refer to. *)
Theorem created_product_is_found (env env' : Env) (req req' : Request) (st st' : Store)
    (resp : Response) :
  createProduct env req st = (resp, st') ->
  status resp = 201 ->
  (forall x, In x (products st) -> has_id (ObjectId_new env) x = false) ->
  param "productId" req' = ObjectId_new env ->
  ObjectId_isValid env' (ObjectId_new env) = true ->
  exists p q,
    payload resp = VObj p /\
    getProductById env' req' st' = (json (VObj q), st') /\
    forall k, k <> "seller" -> k <> "farm" -> q !! k = p !! k.
Proof.
  intros H H201 Hfresh Hparam Hvalid.
  destruct (createProduct_cases _ _ _ _ _ H H201) as (p & _ & -> & _ & Hid & ->).
  exists p, (populate Farm "farm" ["name"; "location"]
               (set_products (products st ++ [p]) st)
               (populate User "seller" ["name"; "phoneNumber"]
                  (set_products (products st ++ [p]) st) p)).
  split; [reflexivity|]. split.
  - unfold getProductById, try_catch. rewrite Hparam.
    rewrite run_return_if_false by (rewrite Hvalid; reflexivity).
    rewrite run_findById.
    change (collection Product (set_products (products st ++ [p]) st))
      with (products st ++ [p])%list.
    rewrite (find_appended _ _ p Hfresh (has_id_lookup _ _ Hid)). reflexivity.
  - intros k Hs Hf. rewrite !populate_lookup_ne by assumption. reflexivity.
Qed.

(** ** Writing analytics *)

Lemma createAnalytics_cases (env : Env) (req : Request) (st st' : Store)
    (resp : Response) (uid : string) :
  caller_is uid req ->
  createAnalytics env req st = (resp, st') ->
  status resp = 201 ->
  exists a ar given_rights given_public,
    resp = status_json 201 (VObj a) /\
    st' = set_analytics (analytics st ++ [a])%list st /\
    a !! "_id" = Some (VStr (ObjectId_new env)) /\
    a !! "accessRights" = Some (VObj ar) /\
    prop "accessRights" (body req) = Some given_rights /\
    prop "public" given_rights = Some given_public /\
    if truthy given_public then ar !! "restrictedTo" = Some VUndefined
    else exists given l,
           prop "restrictedTo" given_rights = Some given /\
           spread_iter (or_else given (VArr [])) = Some l /\
           ar !! "restrictedTo" = Some (VArr (l ++ [VStr uid])).
Proof.
  intros Hc H H201. destruct (caller_header uid req Hc) as [Hu Ht].
  unfold createAnalytics, try_catch in H.
  rewrite run_return_if_false in H by (rewrite Ht; reflexivity).
  do 12 (step H; [|finish H]).
  rewrite Hu in H.
  match goal with Hp : prop "public" ?x = Some ?y |- _ =>
    rename Hp into Hpub; rename x into accessRights; rename y into public end.
  assert (Hstored : forall restrictedTo input,
    input !! "accessRights" =
      Some (VObj (<["restrictedTo" := restrictedTo]> (entries accessRights))) ->
    exists ar,
      (<["updatedAt" := VDate (now env)]>
       (<["createdAt" := VDate (now env)]>
       (<["_id" := VStr (ObjectId_new env)]>
          (Analytics_defaults (filter (fun kv => is_undefined kv.2 = false) input)))))
        !! "accessRights" = Some (VObj ar) /\
      ar !! "restrictedTo" = Some restrictedTo).
  { intros restrictedTo input Hin.
    destruct (Analytics_defaults_accessRights
                (filter (fun kv => is_undefined kv.2 = false) input)
                (<["restrictedTo" := restrictedTo]> (entries accessRights)))
      as (ar & Har & Hres & _).
    { apply map_lookup_filter_Some. split; [exact Hin|reflexivity]. }
    exists ar. split.
    { rewrite !lookup_insert_ne by discriminate. exact Har. }
    rewrite Hres. apply lookup_insert_eq. }
  assert (Hid : forall d : doc,
    (<["updatedAt" := VDate (now env)]>
       (<["createdAt" := VDate (now env)]>
       (<["_id" := VStr (ObjectId_new env)]> d))) !! "_id" = Some (VStr (ObjectId_new env))).
  { intros d. rewrite !lookup_insert_ne by discriminate. apply lookup_insert_eq. }
  destruct (truthy public) eqn:Htruthy.
  - rewrite run_ret, run_create in H. cbv zeta in H.
    match type of H with context [if ?c then _ else _] => destruct c end; [|finish H].
    unfold ret in H. cbv beta iota in H.
    apply pair_equal_spec in H. destruct H as [Hr Hs]. subst resp st'.
    edestruct (Hstored VUndefined) as (ar & Har & Hres);
      [|eexists _, ar, accessRights, public; split; [reflexivity|]; split; [reflexivity|];
        split; [apply Hid|]; split; [exact Har|]; split; [reflexivity|];
        split; [exact Hpub|]].
    + rewrite !list_to_map_cons.
      rewrite !lookup_insert_ne by discriminate. apply lookup_insert_eq.
    + rewrite Htruthy. exact Hres.
  - rewrite run_assoc in H. step H; [|finish H].
    rewrite run_assoc in H. step H; [|finish H].
    rewrite run_assoc in H. cbn [toString] in H.
    rewrite run_eval_some, run_ret, run_create in H. cbv zeta in H.
    match type of H with context [if ?c then _ else _] => destruct c end; [|finish H].
    unfold ret in H. cbv beta iota in H.
    apply pair_equal_spec in H. destruct H as [Hr Hs]. subst resp st'.
    match goal with Hs : spread_iter _ = Some ?l |- _ => rename l into given end.
    match goal with Hs : prop "restrictedTo" _ = Some ?g |- _ =>
      rename Hs into Hgiven; rename g into given_list end.
    edestruct (Hstored (VArr (given ++ [VStr uid]))) as (ar & Har & Hres);
      [|eexists _, ar, accessRights, public; split; [reflexivity|]; split; [reflexivity|];
        split; [apply Hid|]; split; [exact Har|]; split; [reflexivity|];
        split; [exact Hpub|]].
    + rewrite !list_to_map_cons.
      rewrite !lookup_insert_ne by discriminate. apply lookup_insert_eq.
    + rewrite Htruthy. exists given_list, given. repeat split; assumption.
Qed.

Lemma analytics_write_by_listed (env : Env) (e : Endpoint) (req : Request) (st st' : Store)
    (resp : Response) :
  e = PUT_ngos_analytics \/ e = DELETE_ngos_analytics ->
  endpoint_handler env e req st = (resp, st') ->
  st' = st \/
  exists a,
    ObjectId_isValid env (param "analyticsId" req) = true /\
    List.find (has_id (param "analyticsId" req)) (analytics st) = Some a /\
    listed env a (header "user-id" req) = Some true.
Proof.
  intros [->| ->] H; cbn [endpoint_handler] in H.
  - unfold updateAnalytics, try_catch in H.
    step H; [finish H; left; reflexivity|].
    step H; [finish H; left; reflexivity|].
    step H; [|finish H; left; reflexivity].
    step H; [|finish H; left; reflexivity].
    step H; [finish H; left; reflexivity|].
    right. clear H.
    match goal with Hq : negb ?b = false, Hl : listed _ _ _ = Some ?b |- _ =>
      apply negb_false_iff in Hq; subst b end.
    match goal with Hv : negb (ObjectId_isValid env _) = false |- _ =>
      apply negb_false_iff in Hv end.
    eexists. repeat split; eassumption.
  - unfold deleteAnalytics, try_catch in H.
    step H; [finish H; left; reflexivity|].
    step H; [finish H; left; reflexivity|].
    step H; [|finish H; left; reflexivity].
    step H; [|finish H; left; reflexivity].
    step H; [finish H; left; reflexivity|].
    right. clear H.
    match goal with Hq : negb ?b = false, Hl : listed _ _ _ = Some ?b |- _ =>
      apply negb_false_iff in Hq; subst b end.
    match goal with Hv : negb (ObjectId_isValid env _) = false |- _ =>
      apply negb_false_iff in Hv end.
    eexists. repeat split; eassumption.
Qed.

(** X14. The stored analytics change under an update or a delete only when
    the access list of the record names the [user-id] header: that the
    record is public does not open it for writing. *)
Theorem analytics_changes_need_listing (env : Env) (e : Endpoint) (req : Request)
    (st st' : Store) (resp : Response) :
  e = PUT_ngos_analytics \/ e = DELETE_ngos_analytics ->
  serve env e req st = (resp, st') ->
  st' <> st ->
  exists uid a restrictedTo,
    headers req !! "user-id" = Some uid /\
    List.find (has_id (param "analyticsId" req)) (analytics st) = Some a /\
    prop "restrictedTo" (field "accessRights" a) = Some restrictedTo /\
    opt_includes restrictedTo uid = Some true.
Proof.
  intros He H Hst.
  assert (Hrole : endpoint_role e = Some NGO) by (destruct He as [->| ->]; reflexivity).
  destruct (serve_gated_cases env e NGO _ _ _ _ Hrole H)
    as [[_ Hsame]|(u & _ & _ & Hh)]; [contradiction|].
  destruct (analytics_write_by_listed env e _ _ _ _ He Hh) as [Hsame|(a & _ & Hfind & Hl)];
    [contradiction|].
  cbn [params param set_user] in Hfind. change (param "analyticsId" (set_user u req))
    with (param "analyticsId" req) in Hfind.
  unfold listed, header, lookup_str in Hl. cbn [headers set_user] in Hl.
  destruct (prop "restrictedTo" (field "accessRights" a)) as [restrictedTo|] eqn:Hr;
    [|discriminate Hl].
  destruct (headers req !! "user-id") as [uid|]; [|discriminate Hl].
  exists uid, a, restrictedTo. repeat (split; [first [assumption|reflexivity]|]).
  exact Hl.
Qed.


Lemma remove_appended (i : string) (l : list doc) (d : doc) :
  (forall x, In x l -> has_id i x = false) ->
  has_id i d = true ->
  remove_first (has_id i) (l ++ [d])%list = l.
Proof.
  intros Hl Hd. induction l as [|x l IH]; simpl.
  - rewrite Hd. reflexivity.
  - rewrite (Hl x) by (left; reflexivity). f_equal.
    apply IH. intros y Hy. apply Hl. right. exact Hy.
Qed.

Lemma set_analytics_same (st : Store) : set_analytics (analytics st) st = st.
Proof. destruct st; reflexivity. Qed.

(** The two writers, up to the membership test, on a record found under the
    id of the route. *)
Lemma analytics_writer_gate (env : Env) (req : Request) (st : Store) (a : doc) (uid : string)
    (member : bool) :
  headers req !! "user-id" = Some uid -> uid <> "" ->
  ObjectId_isValid env (param "analyticsId" req) = true ->
  List.find (has_id (param "analyticsId" req)) (analytics st) = Some a ->
  listed env a (VStr uid) = Some member ->
  (member = false ->
   updateAnalytics env req st =
     (message 403 "Not authorized to update these analytics", st) /\
   deleteAnalytics env req st =
     (message 403 "Not authorized to delete these analytics", st)) /\
  (member = true ->
   deleteAnalytics env req st =
     (json (obj [("message", VStr "Analytics removed")]),
      set_analytics (remove_first (has_id (param "analyticsId" req)) (analytics st)) st)).
Proof.
  intros Hu Hne Hvalid Hfind Hl.
  assert (Hh : header "user-id" req = VStr uid) by (unfold header, lookup_str; rewrite Hu; reflexivity).
  assert (Ht : truthy (VStr uid) = true).
  { simpl. destruct (String.eqb uid "") eqn:E; [apply String.eqb_eq in E; contradiction|reflexivity]. }
  split; intros ->.
  - split.
    + unfold updateAnalytics, try_catch. rewrite Hh.
      rewrite run_return_if_false by (rewrite Ht; reflexivity).
      rewrite run_return_if_false by (rewrite Hvalid; reflexivity).
      rewrite run_findById. change (collection Analytics st) with (analytics st).
      rewrite Hfind, Hl, run_eval_some, run_return_if. reflexivity.
    + unfold deleteAnalytics, try_catch. rewrite Hh.
      rewrite run_return_if_false by (rewrite Ht; reflexivity).
      rewrite run_return_if_false by (rewrite Hvalid; reflexivity).
      rewrite run_findById. change (collection Analytics st) with (analytics st).
      rewrite Hfind, Hl, run_eval_some, run_return_if. reflexivity.
  - unfold deleteAnalytics, try_catch. rewrite Hh.
    rewrite run_return_if_false by (rewrite Ht; reflexivity).
    rewrite run_return_if_false by (rewrite Hvalid; reflexivity).
    rewrite run_findById. change (collection Analytics st) with (analytics st).
    rewrite Hfind, Hl, run_eval_some, run_return_if. reflexivity.
Qed.

(** X15. A record created as public is closed for writing from the start:
    its access list is left undefined whatever the body supplies, so every
    later update or delete naming it, the creator's included, is answered
    403 and changes nothing. *)
Theorem public_analytics_cannot_be_written (env env' : Env) (req req' : Request)
    (st st' : Store) (resp : Response) (creator uid : string) (rights public : value) :
  caller_is creator req ->
  createAnalytics env req st = (resp, st') ->
  status resp = 201 ->
  prop "accessRights" (body req) = Some rights ->
  prop "public" rights = Some public ->
  truthy public = true ->
  (forall x, In x (analytics st) -> has_id (ObjectId_new env) x = false) ->
  caller_is uid req' ->
  param "analyticsId" req' = ObjectId_new env ->
  ObjectId_isValid env' (ObjectId_new env) = true ->
  updateAnalytics env' req' st' =
    (message 403 "Not authorized to update these analytics", st') /\
  deleteAnalytics env' req' st' =
    (message 403 "Not authorized to delete these analytics", st').
Proof.
  intros Hc H H201 Hrights Hpublic Htruthy Hfresh [Hu Hne] Hparam Hvalid.
  destruct (createAnalytics_cases _ _ _ _ _ _ Hc H H201)
    as (a & ar & gr & gp & -> & -> & Hid & Har & Hgr & Hgp & Hres).
  rewrite Hrights in Hgr. injection Hgr as <-.
  rewrite Hpublic in Hgp. injection Hgp as <-.
  rewrite Htruthy in Hres.
  apply (analytics_writer_gate env' req' (set_analytics (analytics st ++ [a]) st)
           a uid false Hu Hne).
  - rewrite Hparam. exact Hvalid.
  - rewrite Hparam. cbn [analytics set_analytics].
    apply find_appended; [exact Hfresh|apply has_id_lookup; exact Hid].
  - unfold listed, field. rewrite Har. cbn [default from_option Datatypes.id prop].
    rewrite Hres. reflexivity.
  - reflexivity.
Qed.

(** X16. Creating and deleting undo each other: after a creation answered
    201 of a record that is not public, under an [_id] no stored record had,
    a delete by the same caller is answered 200 and the store is the one
    from before the creation. *)
Theorem created_analytics_can_be_deleted (env env' : Env) (req req' : Request)
    (st st' : Store) (resp : Response) (uid : string) (rights public : value) :
  caller_is uid req ->
  createAnalytics env req st = (resp, st') ->
  status resp = 201 ->
  prop "accessRights" (body req) = Some rights ->
  prop "public" rights = Some public ->
  truthy public = false ->
  (forall x, In x (analytics st) -> has_id (ObjectId_new env) x = false) ->
  caller_is uid req' ->
  param "analyticsId" req' = ObjectId_new env ->
  ObjectId_isValid env' (ObjectId_new env) = true ->
  deleteAnalytics env' req' st' =
    (json (obj [("message", VStr "Analytics removed")]), st).
Proof.
  intros Hc H H201 Hrights Hpublic Htruthy Hfresh [Hu Hne] Hparam Hvalid.
  destruct (createAnalytics_cases _ _ _ _ _ _ Hc H H201)
    as (a & ar & gr & gp & -> & -> & Hid & Har & Hgr & Hgp & Hres).
  rewrite Hrights in Hgr. injection Hgr as <-.
  rewrite Hpublic in Hgp. injection Hgp as <-.
  rewrite Htruthy in Hres. destruct Hres as (given & l & _ & _ & Hres).
  assert (Hfind : List.find (has_id (param "analyticsId" req'))
                    (analytics (set_analytics (analytics st ++ [a]) st)) = Some a).
  { rewrite Hparam. cbn [analytics set_analytics].
    apply find_appended; [exact Hfresh|apply has_id_lookup; exact Hid]. }
  destruct (analytics_writer_gate env' req' (set_analytics (analytics st ++ [a]) st)
              a uid true Hu Hne) as [_ Hdel].
  - rewrite Hparam. exact Hvalid.
  - exact Hfind.
  - unfold listed, field. rewrite Har. cbn [default from_option Datatypes.id prop].
    rewrite Hres. cbn [default from_option Datatypes.id mbind option_bind toString opt_includes].
    f_equal. apply existsb_exists. exists (VStr uid). split.
    + apply in_or_app. right. left. reflexivity.
    + simpl. apply String.eqb_refl.
  - rewrite (Hdel eq_refl). f_equal.
    rewrite Hparam. cbn [analytics set_analytics].
    rewrite remove_appended; [|exact Hfresh|apply has_id_lookup; exact Hid].
    destruct st; reflexivity.
Qed.

(** ** The farmer routes *)

Lemma protect_set_header (env : Env) (req : Request) (k v : string) :
  k <> "authorization" ->
  protect env (set_header k v req) =
  match protect env req with
  | Respond r => Respond r
  | Next req' => Next (set_header k v req')
  end.
Proof.
  intros Hk. rewrite !protect_unfold. cbn [headers set_header].
  rewrite lookup_insert_ne by exact Hk.
  destruct (headers req !! "authorization") as [a|]; [|reflexivity].
  destruct (startsWith "Bearer" a); [|reflexivity].
  destruct (carried_token a) as [t|]; [|reflexivity].
  destruct (verified env t); reflexivity.
Qed.

Lemma token_handler_ignores_headers (env : Env) (e : Endpoint) (req : Request) (k v : string) :
  endpoint_role e = Some FARMER \/ e = GET_users_profile \/ e = PUT_users_profile ->
  endpoint_handler env e (set_header k v req) = endpoint_handler env e req.
Proof.
  intros [H|[->| ->]]; [destruct e; try discriminate H|..]; reflexivity.
Qed.

(** X17. The farmer routes and the profile routes take the caller from the
    verified token alone: no header other than [Authorization], the
    [user-id] header included, has any effect on what they answer or write. *)
Theorem token_routes_ignore_other_headers (env : Env) (e : Endpoint) (req : Request)
    (k v : string) (st : Store) :
  endpoint_role e = Some FARMER \/ e = GET_users_profile \/ e = PUT_users_profile ->
  k <> "authorization" ->
  serve env e (set_header k v req) st = serve env e req st.
Proof.
  intros He Hk. unfold serve, serve_with.
  assert (Hmw : exists rest, endpoint_middleware env e = protect env :: rest /\
                  (rest = [] \/ rest = [authorize (OneRole FARMER)])).
  { destruct He as [H|[->| ->]];
      [destruct e; try discriminate H|..]; eexists; (split; [reflexivity|]); auto. }
  destruct Hmw as (rest & -> & Hrest).
  cbn [use]. rewrite (protect_set_header env req k v Hk).
  destruct (protect env req) as [r|req1]; [reflexivity|].
  destruct Hrest as [->| ->]; cbn [use].
  - rewrite (token_handler_ignores_headers env e req1 k v He). reflexivity.
  - unfold authorize. cbn [user set_header].
    destruct (user req1) as [u|]; [|reflexivity].
    destruct (negb _); [reflexivity|].
    rewrite (token_handler_ignores_headers env e req1 k v He). reflexivity.
Qed.


(** Two string literals differ. *)
Ltac neq := apply String.eqb_neq; reflexivity.

Lemma updateFarmProfile_cases (env : Env) (req : Request) (st st' : Store) (resp : Response)
    (u : AuthUser) :
  user req = Some u ->
  updateFarmProfile env req st = (resp, st') ->
  (status resp = 201 ->
   exists f, (forall x, In x (farms st) -> matches [Where ["owner"] (Eq (id u))] x = false) /\
             st' = set_farms (farms st ++ [f])%list st /\
             field "owner" f = id u /\
             f !! "crops" = Some (VArr []) /\
             resp = status_json 201 (VObj f)) /\
  (status resp = 200 ->
   exists old new,
     In old (farms st) /\ matches [Where ["owner"] (Eq (id u))] old = true /\
     st' = set_farms (replace_first (same_id old) new (farms st)) st /\
     (forall k, ~ In k ["name"; "location"; "size"; "soilCharacteristics"; "waterSource";
                        "equipment"; "updatedAt"] -> new !! k = old !! k) /\
     resp = json (VObj new)).
Proof.
  intros Hu H. unfold updateFarmProfile, try_catch, farm_of in H. rewrite Hu in H.
  do 6 (step H; [|finish H; split; discriminate]).
  rewrite run_bind in H.
  destruct (Model_findOne Farm _ st) as [c1 st1] eqn:Hfind.
  pose proof Hfind as Hfound.
  destruct (findOne_cases _ _ _ _ _ Hfind) as [-> [->|[[old|] ->]]]; [finish H| |].
  - apply findOne_some in Hfound. destruct Hfound as [Hin Hm].
    cbv zeta in H. rewrite run_save in H. cbv zeta in H.
    match type of H with context [if ?b then _ else _] => destruct b end;
      [|finish H; split; discriminate].
    unfold ret in H. apply pair_equal_spec in H. destruct H as [<- <-].
    split; [discriminate|]. intros _.
    match goal with |- context [replace_first (same_id ?d) _ _] => set (edited := d) end.
    assert (Hedited : forall k, ~ In k ["name"; "location"; "size"; "soilCharacteristics";
                                        "waterSource"; "equipment"; "updatedAt"] ->
                                edited !! k = old !! k).
    { intros k Hk. subst edited. cbn [In] in Hk.
      rewrite !lookup_insert_ne by (intros <-; tauto). reflexivity. }
    exists old, (<["updatedAt" := VDate (now env)]> edited).
    split; [exact Hin|]. split; [exact Hm|]. split; [|split; [|reflexivity]].
    + assert (Hid : same_id edited = same_id old).
      { unfold same_id, doc_id, field. rewrite Hedited; [reflexivity|].
        cbn [In]. intros [?|[?|[?|[?|[?|[?|[?|[]]]]]]]]; discriminate. }
      rewrite Hid. reflexivity.
    + intros k Hk. rewrite lookup_insert_ne by (intros <-; apply Hk; cbn [In]; tauto).
      apply Hedited. exact Hk.
  - pose proof (findOne_none Farm _ _ _ Hfound) as Hnone.
    rewrite run_bind in H.
    match type of H with context [Model_create env Farm ?i st] =>
      destruct (Model_create env Farm i st) as [c st2] eqn:Hcreate end.
    apply run_create_cases in Hcreate.
    destruct Hcreate as [[-> ->]|(f & -> & -> & Hf)]; [finish H; split; discriminate|].
    unfold ret in H. apply pair_equal_spec in H. destruct H as [<- <-].
    split; [|discriminate]. intros _. exists f.
    split; [exact Hnone|]. split; [reflexivity|].
    split; [|split; [|reflexivity]].
    + apply field_of_given. rewrite Hf, created_lookup by neq.
      unfold Farm. cbn [defaults]. rewrite given_lookup, !list_to_map_cons, lookup_insert_eq.
      reflexivity.
    + rewrite Hf, created_lookup by neq.
      unfold Farm. cbn [defaults]. rewrite given_lookup, !list_to_map_cons.
      rewrite !lookup_insert_ne by neq. rewrite lookup_insert_eq. reflexivity.
Qed.

(** X18. [PUT /farm] creates a farm exactly when the token's user owns none:
    the new farm is owned by the id of the verified token and has no crops
    (201); otherwise the stored farm of that user is rewritten (200), and
    then [owner], [crops] and [_id] are among the fields that stay. *)
Theorem farm_profile_is_upsert (env : Env) (req : Request) (st st' : Store)
    (resp : Response) :
  serve env PUT_farmers_farm req st = (resp, st') ->
  (status resp = 201 ->
   exists u f, authenticated_as env req u /\
               (forall x, In x (farms st) ->
                          matches [Where ["owner"] (Eq (id u))] x = false) /\
               farms st' = (farms st ++ [f])%list /\
               field "owner" f = id u /\
               f !! "crops" = Some (VArr []) /\
               payload resp = VObj f) /\
  (status resp = 200 ->
   exists u old new,
     authenticated_as env req u /\
     In old (farms st) /\ matches [Where ["owner"] (Eq (id u))] old = true /\
     farms st' = replace_first (same_id old) new (farms st) /\
     new !! "owner" = old !! "owner" /\
     new !! "crops" = old !! "crops" /\
     new !! "_id" = old !! "_id" /\
     payload resp = VObj new).
Proof.
  intros H.
  destruct (serve_gated_cases env PUT_farmers_farm FARMER _ _ _ _ eq_refl H)
    as [[[H4|H4] _]|(u & Hauth & Hrole & Hh)];
    [split; rewrite H4; discriminate|split; rewrite H4; discriminate|].
  cbn [endpoint_handler] in Hh.
  destruct (updateFarmProfile_cases env (set_user u req) _ _ _ u eq_refl Hh) as [H201 H200].
  split.
  - intros Hs. destruct (H201 Hs) as (f & Hnone & -> & Howner & Hcrops & ->).
    exists u, f. repeat (split; [first [assumption|reflexivity]|]). reflexivity.
  - intros Hs. destruct (H200 Hs) as (old & new & Hin & Hm & -> & Hkeep & ->).
    exists u, old, new. repeat (split; [first [assumption|reflexivity]|]).
    split; [|split; [|split; [|reflexivity]]]; apply Hkeep; cbn [In];
      intros [?|[?|[?|[?|[?|[?|[?|[]]]]]]]]; discriminate.
Qed.



Lemma findIndex_spec (f : value -> option bool) (crops : list value) (i : nat) :
  findIndex f crops = Some (Some i) ->
  (exists c, crops !! i = Some c /\ f c = Some true) /\
  (forall j c, (j < i)%nat -> crops !! j = Some c -> f c = Some false).
Proof.
  revert i. induction crops as [|x l IH]; intros i H; simpl in H; [discriminate H|].
  destruct (f x) as [[|]|] eqn:Hx; simpl in H; [| |discriminate H].
  - injection H as <-. split; [exists x; split; [reflexivity|exact Hx]|].
    intros j c Hj. inversion Hj.
  - destruct (findIndex f l) as [[n|]|]; try discriminate H. injection H as <-.
    destruct (IH n eq_refl) as [(c & Hc & Hfc) Hbefore]. split.
    + exists c. split; assumption.
    + intros [|j] c' Hj Hl; simpl in Hl.
      * injection Hl as <-. exact Hx.
      * apply (Hbefore j c'); [apply PeanoNat.lt_S_n; exact Hj|exact Hl].
Qed.

Lemma set_crop_fields_frame (env : Env) (crop keys : doc) (k : string) :
  keys !! k = None -> map_fold (set_crop_field env) crop keys !! k = crop !! k.
Proof.
  revert k.
  apply (map_fold_weak_ind
           (fun (r : doc) (m : doc) => forall k, m !! k = None -> r !! k = crop !! k)).
  - intros k _. reflexivity.
  - intros i x m r Hi IH k Hk. apply lookup_insert_None in Hk. destruct Hk as [Hk Hne].
    unfold set_crop_field.
    destruct (decide _); [destruct (truthy x)|destruct (is_undefined x)];
      rewrite ?lookup_insert_ne by exact Hne; apply IH; exact Hk.
Qed.

Lemma farm_edit_same_id (farm : doc) (v : value) :
  same_id (<["crops" := v]> farm) = same_id farm.
Proof.
  unfold same_id, doc_id, field. rewrite lookup_insert_ne by discriminate. reflexivity.
Qed.

Lemma farm_edit_frame (farm : doc) (v w : value) (k : string) :
  k <> "crops" -> k <> "updatedAt" ->
  (<["updatedAt" := w]> (<["crops" := v]> farm)) !! k = farm !! k.
Proof. intros H1 H2. rewrite !lookup_insert_ne by congruence. reflexivity. Qed.

Lemma addCrop_cases (env : Env) (req : Request) (st st' : Store) (resp : Response)
    (u : AuthUser) :
  user req = Some u ->
  addCrop env req st = (resp, st') ->
  status resp = 201 ->
  exists crops crop name,
    crops_replaced env u st st' crops (crops ++ [VObj crop]) /\
    crop !! "_id" = Some (VStr (ObjectId_new env)) /\
    prop "name" (body req) = Some name /\
    field "name" crop = name /\
    resp = status_json 201 (VObj crop).
Proof.
  intros Hu H H201. unfold addCrop, try_catch, farm_of in H. rewrite Hu in H.
  do 8 (step H; [|finish H; discriminate H201]).
  rewrite run_bind in H.
  destruct (Model_findOne Farm _ st) as [c1 st1] eqn:Hfind.
  pose proof Hfind as Hfound.
  destruct (findOne_cases _ _ _ _ _ Hfind) as [-> [->|[[farm|] ->]]];
    [finish H| |finish H; discriminate H201].
  apply findOne_some in Hfound. destruct Hfound as [Hin Hm].
  cbv zeta in H.
  step H; [|finish H; discriminate H201].
  rewrite run_save in H. cbv zeta in H.
  match type of H with context [if ?b then _ else _] => destruct b end;
    [|finish H; discriminate H201].
  rewrite crops_of_stamped, run_eval_some in H.
  unfold ret in H. apply pair_equal_spec in H. destruct H as [<- <-].
  rewrite last_snoc. cbn [default from_option Datatypes.id].
  match goal with Hc : crops_of farm = Some ?l |- _ => rename l into crops end.
  eexists crops, _, _. split; [|split; [|split; [reflexivity|split; [|reflexivity]]]].
  - exists farm. repeat (split; [assumption|]). rewrite farm_edit_same_id. reflexivity.
  - apply lookup_insert_eq.
  - apply field_of_given. rewrite lookup_insert_ne by neq.
    rewrite given_lookup, !list_to_map_cons, lookup_insert_eq. reflexivity.
Qed.


Lemma updateCrop_cases (env : Env) (req : Request) (st st' : Store) (resp : Response)
    (u : AuthUser) :
  user req = Some u ->
  updateCrop env req st = (resp, st') ->
  status resp = 200 ->
  exists crops i crop keys,
    findIndex (is_crop env (param "cropId" req)) crops = Some (Some i) /\
    crops !! i = Some (VObj crop) /\
    Object_entries (body req) = Some keys /\
    crops_replaced env u st st' crops
      (<[i := VObj (map_fold (set_crop_field env) crop keys)]> crops) /\
    resp = json (VObj (map_fold (set_crop_field env) crop keys)).
Proof.
  intros Hu H H200. unfold updateCrop, try_catch, farm_of in H. rewrite Hu in H.
  rewrite run_bind in H.
  destruct (Model_findOne Farm _ st) as [c1 st1] eqn:Hfind.
  pose proof Hfind as Hfound.
  destruct (findOne_cases _ _ _ _ _ Hfind) as [-> [->|[[farm|] ->]]];
    [finish H| |finish H; discriminate H200].
  apply findOne_some in Hfound. destruct Hfound as [Hin Hm].
  cbv zeta in H.
  step H; [|finish H; discriminate H200].
  step H; [|finish H; discriminate H200].
  match goal with Hf : findIndex _ _ = Some ?o |- _ =>
    destruct o as [i|]; [|finish H; discriminate H200] end.
  step H; [|finish H; discriminate H200].
  step H; [|finish H; discriminate H200].
  rewrite run_save in H. cbv zeta in H.
  match type of H with context [if ?b then _ else _] => destruct b end;
    [|finish H; discriminate H200].
  rewrite crops_of_stamped, run_eval_some in H.
  unfold ret in H. apply pair_equal_spec in H. destruct H as [<- <-].
  match goal with Hc : crops_of farm = Some ?l |- _ => rename l into crops end.
  match goal with Hc : match crops !! i with _ => _ end = Some ?c |- _ =>
    rename c into crop; rename Hc into Hcrop end.
  assert (Hi : crops !! i = Some (VObj crop)).
  { destruct (crops !! i) as [[]|]; try discriminate Hcrop. congruence. }
  exists crops, i, crop. eexists.
  split; [eassumption|]. split; [exact Hi|]. split; [reflexivity|]. split.
  - exists farm. repeat (split; [assumption|]). rewrite farm_edit_same_id. reflexivity.
  - rewrite list_lookup_insert_eq by (apply lookup_lt_is_Some; eauto). reflexivity.
Qed.


(** X19. [POST /crops] answered 201 has stored the farm of the token's user
    again with one crop appended to its [crops], all earlier crops in place:
    the new crop carries a fresh [_id] and the body's [name], and it is the
    body of the answer. *)
Theorem addCrop_appends_one_crop (env : Env) (req : Request) (st st' : Store)
    (resp : Response) :
  serve env POST_farmers_crops req st = (resp, st') ->
  status resp = 201 ->
  exists u crops crop,
    authenticated_as env req u /\
    crops_replaced env u st st' crops (crops ++ [VObj crop]) /\
    crop !! "_id" = Some (VStr (ObjectId_new env)) /\
    prop "name" (body req) = Some (field "name" crop) /\
    payload resp = VObj crop.
Proof.
  intros H H201.
  destruct (serve_gated_cases env POST_farmers_crops FARMER _ _ _ _ eq_refl H)
    as [[[H4|H4] _]|(u & Hauth & Hrole & Hh)];
    [rewrite H4 in H201; discriminate H201|rewrite H4 in H201; discriminate H201|].
  cbn [endpoint_handler] in Hh.
  destruct (addCrop_cases env (set_user u req) _ _ _ u eq_refl Hh H201)
    as (crops & crop & name & Hrep & Hid & Hname & Hfield & ->).
  exists u, crops, crop. repeat (split; [assumption|]).
  split; [|reflexivity]. rewrite Hfield. exact Hname.
Qed.


(** X21. [PUT /crops/:cropId] answered 200 has rewritten one crop, the first
    of the farm of the token's user that carries the id named: every other
    crop stays in its place, and the rewritten crop keeps each field the
    body has no key for. *)
Theorem updateCrop_rewrites_one_crop (env : Env) (req : Request) (st st' : Store)
    (resp : Response) :
  serve env PUT_farmers_crop req st = (resp, st') ->
  status resp = 200 ->
  exists u crops i crop edited,
    authenticated_as env req u /\
    crops !! i = Some (VObj crop) /\
    is_crop env (param "cropId" req) (VObj crop) = Some true /\
    (forall j c, (j < i)%nat -> crops !! j = Some c ->
                 is_crop env (param "cropId" req) c = Some false) /\
    crops_replaced env u st st' crops (<[i := VObj edited]> crops) /\
    (forall k, entries (body req) !! k = None -> edited !! k = crop !! k) /\
    payload resp = VObj edited.
Proof.
  intros H H200.
  destruct (serve_gated_cases env PUT_farmers_crop FARMER _ _ _ _ eq_refl H)
    as [[[H4|H4] _]|(u & Hauth & Hrole & Hh)];
    [rewrite H4 in H200; discriminate H200|rewrite H4 in H200; discriminate H200|].
  cbn [endpoint_handler] in Hh.
  destruct (updateCrop_cases env (set_user u req) _ _ _ u eq_refl Hh H200)
    as (crops & i & crop & keys & Hidx & Hi & Hkeys & Hrep & ->).
  change (param "cropId" (set_user u req)) with (param "cropId" req) in Hidx.
  change (body (set_user u req)) with (body req) in Hkeys.
  destruct (findIndex_spec _ _ _ Hidx) as [(c & Hc & Hfc) Hbefore].
  rewrite Hi in Hc. injection Hc as <-.
  exists u, crops, i, crop, (map_fold (set_crop_field env) crop keys).
  repeat (split; [assumption|]). split; [|reflexivity].
  intros k Hk. apply set_crop_fields_frame.
  unfold Object_entries in Hkeys. destruct (body req); try discriminate Hkeys;
    injection Hkeys as <-; exact Hk.
Qed.

(** ** The placeholders *)

Lemma floor_draw (r : Q) (n : Z) :
  (0 <= r)%Q -> (r < 1)%Q -> (0 < n)%Z -> (0 <= Qfloor (r * inject_Z n) < n)%Z.
Proof.
  intros H0 H1 Hn.
  assert (Hn' : (inject_Z 0 < inject_Z n)%Q) by (rewrite <- Zlt_Qlt; exact Hn).
  change (inject_Z 0) with 0%Q in Hn'.
  split.
  - rewrite <- (Qfloor_Z 0). apply Qfloor_resp_le.
    apply Qmult_le_0_compat; [exact H0|apply Qlt_le_weak; exact Hn'].
  - rewrite Zlt_Qlt. eapply Qle_lt_trans; [apply Qfloor_le|].
    apply (Qlt_le_trans _ (1 * inject_Z n)).
    + apply Qmult_lt_compat_r; assumption.
    + rewrite Qmult_1_l. apply Qle_refl.
Qed.






Lemma map_drawing_Forall {A B} (f : A -> nat -> B * nat) (P : B -> Prop) (l : list A) :
  (forall x k, P (f x k).1) ->
  forall k, List.Forall P (map_drawing f l k).1.
Proof.
  intros Hf. induction l as [|x l IH]; intros k; simpl.
  - constructor.
  - constructor; [apply Hf|apply IH].
Qed.

Lemma map_drawing_categories (env : Env) (l : list ProductCategory) (k : nat) :
  List.map (at_path ["category"]) (map_drawing (demandForecast env) l k).1 =
  List.map (fun c => VStr (ProductCategory_value c)) l.
Proof.
  revert k. induction l as [|c l IH]; intros k; simpl; [reflexivity|].
  f_equal. apply IH.
Qed.

Lemma getBestMarkets_count (env : Env) (category : string) (k : nat) :
  (forall j, (0 <= Math_random env j)%Q /\ (Math_random env j < 1)%Q) ->
  (forall l j, Permutation (sort_random env l j).1 l) ->
  let ms := (getBestMarkets env category k).1 in
  (length ms = 2%nat \/ length ms = 3%nat) /\ forall m, In m ms -> In m market_names.
Proof.
  intros Hrandom Hsort ms. subst ms. unfold getBestMarkets. cbv zeta. cbn [fst].
  destruct (Hrandom k) as [H0 H1].
  pose proof (floor_draw _ 2 H0 H1 eq_refl) as Hdraw.
  change (inject_Z 2) with 2%Q in Hdraw.
  set (n := Qfloor (Math_random env k * 2)) in *.
  match goal with |- context [sort_random env ?l ?j] =>
    pose proof (Hsort l j) as Hperm; set (shuffled := (sort_random env l j).1) in * end.
  assert (Hlen : length shuffled = 5%nat) by (rewrite (Permutation_length Hperm); reflexivity).
  split.
  - rewrite length_take, Hlen.
    assert (n = 0 \/ n = 1)%Z as [-> | ->] by lia; [left|right]; reflexivity.
  - intros m Hm. apply (Permutation_in _ Hperm).
    apply list_elem_of_In. apply list_elem_of_In in Hm.
    exact (subseteq_take _ _ _ Hm).
Qed.

Lemma demandForecast_well_formed (env : Env) (c : ProductCategory) (k : nat) :
  (forall j, (0 <= Math_random env j)%Q /\ (Math_random env j < 1)%Q) ->
  (forall l j, Permutation (sort_random env l j).1 l) ->
  well_formed_forecast (demandForecast env c k).1.
Proof.
  intros Hrandom Hsort.
  destruct (getBestMarkets_count env (ProductCategory_value c) (S k) Hrandom Hsort)
    as [Hcount Hin].
  unfold demandForecast. cbv zeta. cbn [fst].
  set (best := getBestMarkets env (ProductCategory_value c) (S k)) in *.
  destruct (Hrandom best.2) as [Hw0 Hw1].
  destruct (Hrandom (S best.2)) as [Hm0 Hm1].
  pose proof (floor_draw _ 50 Hw0 Hw1 eq_refl) as Hweek.
  pose proof (floor_draw _ 200 Hm0 Hm1 eq_refl) as Hmonth.
  change (inject_Z 50) with 50%Q in Hweek. change (inject_Z 200) with 200%Q in Hmonth.
  exists c, best.1. eexists _, _.
  repeat (split; [first [reflexivity|assumption]|]).
  split; lia.
Qed.

(** X23. The demand forecasts answered 200 are six, one per product category
    in the order of the enumeration, whoever asks and whatever is stored;
    with draws of [Math.random] in [0, 1) and a sort that permutes, each
    names two or three of the five markets and forecasts 50 to 99 for next
    week and 100 to 299 for next month. *)
Theorem demand_forecasts_are_well_formed (env : Env) (req : Request) (st st' : Store)
    (resp : Response) :
  (forall j, (0 <= Math_random env j)%Q /\ (Math_random env j < 1)%Q) ->
  (forall l j, Permutation (sort_random env l j).1 l) ->
  getDemandForecasts env req st = (resp, st') ->
  status resp = 200 ->
  exists fs,
    payload resp = VArr fs /\
    List.map (at_path ["category"]) fs =
      List.map (fun c => VStr (ProductCategory_value c)) ProductCategory_values /\
    List.Forall well_formed_forecast fs /\
    forall req' st2, truthy (header "user-id" req') = true ->
                     (getDemandForecasts env req' st2).1 = resp.
Proof.
  intros Hrandom Hsort H H200. unfold getDemandForecasts, try_catch in H.
  rewrite run_return_if in H.
  destruct (negb (truthy (header "user-id" req))).
  { apply pair_equal_spec in H. destruct H as [<- _]. discriminate H200. }
  cbv zeta in H. unfold ret in H. apply pair_equal_spec in H. destruct H as [<- _].
  eexists. split; [reflexivity|]. split; [apply map_drawing_categories|]. split.
  - apply map_drawing_Forall. intros c k. apply demandForecast_well_formed; assumption.
  - intros req' st2 Ht. unfold getDemandForecasts, try_catch.
    rewrite run_return_if, Ht. reflexivity.
Qed.

(** ** What the product routes show of a seller *)

Lemma populate_seller_contact_only (st : Store) (d : doc) :
  shows_seller_contact_only (VObj (populate User "seller" ["name"; "phoneNumber"] st d)).
Proof.
  intros o Ho k Hk. cbn [at_path] in Ho. unfold populate in Ho.
  destruct (d !! "seller") as [ref|] eqn:Hd.
  - rewrite lookup_insert_eq in Ho.
    destruct (List.find _ _) as [x|]; [|discriminate Ho].
    injection Ho as <-. destruct Hk as [v Hv].
    apply map_lookup_filter_Some in Hv. destruct Hv as [_ Hin].
    apply list_elem_of_In. exact Hin.
  - rewrite Hd in Ho. discriminate Ho.
Qed.

(** X24. The product listing and the product page show of a seller at most
    the [_id], the name and the phone number: no other field of the stored
    user, the password hash among them, leaves through these routes. *)
Theorem product_routes_show_seller_contact_only (env : Env) (req : Request)
    (st st' : Store) (resp : Response) :
  status resp = 200 ->
  (listProducts req st = (resp, st') ->
   exists qs, payload resp = VArr qs /\ List.Forall shows_seller_contact_only qs) /\
  (getProductById env req st = (resp, st') ->
   shows_seller_contact_only (payload resp)).
Proof.
  intros H200. split; intros H.
  - unfold listProducts, try_catch in H.
    step H; [finish H; discriminate H200|]. cbv zeta in H.
    rewrite run_bind in H. unfold Model_find in H.
    destruct (castable _); [|finish H; discriminate H200].
    rewrite run_bind in H. unfold populated_all, ret in H.
    apply pair_equal_spec in H. destruct H as [<- _].
    eexists. split; [reflexivity|].
    rewrite List.map_map. apply List.Forall_map.
    apply List.Forall_forall. intros d _. apply populate_seller_contact_only.
  - unfold getProductById, try_catch in H.
    step H; [finish H; discriminate H200|].
    step H; [|finish H; discriminate H200].
    rewrite !run_bind in H. unfold populated, ret in H.
    apply pair_equal_spec in H. destruct H as [<- _].
    intros o Ho k Hk. cbn [payload json at_path] in Ho.
    rewrite populate_lookup_ne in Ho by discriminate.
    eapply populate_seller_contact_only; [exact Ho|exact Hk].
Qed.

(** ** The role gate and the token *)

Lemma strict_eq_string (s : string) (v : value) :
  strict_eq (VStr s) v = true <-> v = VStr s.
Proof.
  destruct v; simpl; try (split; [discriminate|discriminate]).
  rewrite String.eqb_eq. split; congruence.
Qed.

(** X25. The role gate lets a request pass exactly when it carries a
    verified user whose role is one of the roles the gate was built with,
    and it passes the request on unchanged. *)
Theorem authorize_passes_exactly (roles : Roles) (req : Request) :
  (forall req', authorize roles req = Next req' -> req' = req) /\
  (authorize roles req = Next req <->
   exists u, user req = Some u /\ role_allowed roles u).
Proof.
  unfold authorize, role_allowed, allowed_roles.
  destruct (user req) as [u|].
  - cbv zeta.
    set (l := match roles with OneRole r => [r] | RoleArray l => l end).
    destruct (existsb (fun r => strict_eq (VStr (UserRole_value r)) (role u)) l) eqn:E;
      cbn [negb].
    + split; [intros req' [= <-]; reflexivity|]. split; [|reflexivity].
      intros _. exists u. split; [reflexivity|].
      apply existsb_exists in E. destruct E as (r & Hin & Hr).
      exists r. split; [exact Hin|]. apply strict_eq_string. exact Hr.
    + split; [discriminate|]. split; [discriminate|].
      intros (u' & [= <-] & r & Hin & Hr). exfalso.
      assert (Ht : existsb (fun r => strict_eq (VStr (UserRole_value r)) (role u)) l = true).
      { apply existsb_exists. exists r. split; [exact Hin|].
        apply strict_eq_string. exact Hr. }
      rewrite E in Ht. discriminate Ht.
  - split; [discriminate|]. split; [discriminate|].
    intros (u & Hu & _). discriminate Hu.
Qed.




(** ** Reading analytics *)

Lemma readable_matches (uid : string) (a : doc) :
  readable_by uid a ->
  matches [Or [(["accessRights"; "public"], Eq (VBool true));
               (["accessRights"; "restrictedTo"], Eq (VStr uid))]] a = true.
Proof.
  intros (ar & Har & Hacc). unfold matches. cbn [forallb clause_match existsb fst snd at_path].
  rewrite Har. destruct Hacc as [Hp|(l & Hl & Hin)].
  - rewrite Hp. reflexivity.
  - rewrite Hl. cbn [cond_match eq_match]. rewrite (in_existsb uid l Hin).
    rewrite !orb_true_r. reflexivity.
Qed.

(** X27. A record the caller may read is shown: [getAnalyticsById] answers
    200 with the stored record, and a listing without query parameters
    contains it. *)
Theorem readable_analytics_are_shown (env : Env) (req : Request) (st : Store)
    (uid : string) (a : doc) :
  caller_is uid req ->
  readable_by uid a ->
  (names_record env "analyticsId" req (analytics st) a ->
   getAnalyticsById env req st = (json (VObj a), st)) /\
  (In a (analytics st) -> query req = ∅ ->
   exists l, getAnalytics env req st = (json (VArr l), st) /\ In (VObj a) l).
Proof.
  intros Hc Hr. destruct (caller_header uid req Hc) as [Hu Ht]. split.
  - intros [Hvalid Hfind]. unfold getAnalyticsById, try_catch.
    rewrite run_return_if_false by (rewrite Ht; reflexivity).
    rewrite run_return_if_false by (rewrite Hvalid; reflexivity).
    rewrite run_findById. change (collection Analytics st) with (analytics st).
    rewrite Hfind, Hu. rewrite (run_eval_bind _ _ _ _ (readable_access env uid a Hr)).
    rewrite run_return_if_false by reflexivity. reflexivity.
  - intros Hin Hq. unfold getAnalytics, try_catch.
    rewrite run_return_if_false by (rewrite Ht; reflexivity).
    cbv zeta. unfold query_filter, query_param, lookup_str. rewrite Hq, !lookup_empty, Hu.
    cbn [truthy app]. rewrite run_bind. unfold Model_find. cbn [castable forallb cond_castable snd andb].
    unfold ret. cbv beta iota.
    eexists. split; [reflexivity|].
    apply in_map. apply In_sort_createdAt_desc.
    apply list_elem_of_In, list_elem_of_filter. split.
    + apply readable_matches. exact Hr.
    + apply list_elem_of_In. exact Hin.
Qed.





(** ** The further properties at work on the small deployment *)

Lemma demo_vendor_token (uid : string) (ps qs : list (string * string))
    (b : list (string * value)) :
  authenticated_as Demo.env (Demo.request "vendor.jwt" uid ps qs b) DemoRequests.vendor_user.
Proof.
  exists "Bearer vendor.jwt", "vendor.jwt". repeat split; vm_compute; reflexivity.
Defined.

Lemma token_without_user_id_unauthorized_witness :
  serve Demo.env DELETE_vendors_product DemoMore.no_caller Demo.store =
  (message 401 "Not authorized", Demo.store).
Proof.
  apply (token_without_user_id_unauthorized Demo.env DELETE_vendors_product VENDOR
           DemoMore.no_caller DemoRequests.vendor_user Demo.store).
  - split; [left; reflexivity|discriminate].
  - reflexivity.
  - apply demo_vendor_token.
  - reflexivity.
  - right. vm_compute. reflexivity.
Defined.

Lemma get_routes_keep_store_witness :
  (serve Demo.env GET_vendors_products Demo.delete_tomatoes Demo.store).2 = Demo.store.
Proof.
  apply (get_routes_keep_store Demo.env GET_vendors_products Demo.delete_tomatoes Demo.store).
  left. reflexivity.
Defined.

Lemma gated_routes_write_only_on_success_witness :
  status (serve Demo.env DELETE_vendors_product DemoMore.other_deletes Demo.store).1 = 403 /\
  (serve Demo.env DELETE_vendors_product DemoMore.other_deletes Demo.store).2 = Demo.store.
Proof.
  split; [vm_compute; reflexivity|].
  apply (gated_routes_write_only_on_success Demo.env DELETE_vendors_product
           DemoMore.other_deletes Demo.store).
  - discriminate.
  - vm_compute. discriminate.
  - vm_compute. discriminate.
Defined.


Lemma register_stores_hash_witness :
  exists d,
    users (register Demo.env DemoMore.register_bob Demo.store).2 = [Demo.alice; d] /\
    d !! "role" = Some (VStr "farmer") /\
    exists h, bcrypt_hash Demo.env (VStr "secret2") "salt" = Some h /\
              d !! "password" = Some (VStr h).
Proof.
  destruct (register_stores_hash Demo.env DemoMore.register_bob Demo.store
              (register Demo.env DemoMore.register_bob Demo.store).2
              (register Demo.env DemoMore.register_bob Demo.store).1)
    as (email & password & role_ & h & d & o & _ & Hp & Hr & _ & Hh & Hu & Hpw & Hrole & _).
  - apply surjective_pairing.
  - vm_compute. reflexivity.
  - assert (Hp' : prop "password" (body DemoMore.register_bob) = Some (VStr "secret2"))
      by (vm_compute; reflexivity).
    assert (Hr' : prop "role" (body DemoMore.register_bob) = Some VUndefined)
      by (vm_compute; reflexivity).
    rewrite Hp' in Hp. injection Hp as <-. rewrite Hr' in Hr. injection Hr as <-.
    exists d. split; [exact Hu|]. split; [exact Hrole|]. exists h. split; [exact Hh|exact Hpw].
Defined.

Lemma demo_bcrypt_accepts_own_hash (p : value) (h : string) :
  bcrypt_hash Demo.env p (bcrypt_genSalt Demo.env 10) = Some h ->
  bcrypt_compare Demo.env p (VStr h) = Some true.
Proof.
  destruct p; try discriminate. cbn. intros [= <-]. rewrite String.eqb_refl. reflexivity.
Defined.

Lemma register_then_login_witness :
  status (login Demo.env DemoMore.login_bob
            (register Demo.env DemoMore.register_bob Demo.store).2).1 = 200.
Proof.
  destruct (register_then_login Demo.env Demo.env DemoMore.register_bob DemoMore.login_bob
              Demo.store
              (register Demo.env DemoMore.register_bob Demo.store).2
              (register Demo.env DemoMore.register_bob Demo.store).1
              "bob@example.com")
    as (d & _ & Hid & Hlogin).
  - exact demo_bcrypt_accepts_own_hash.
  - apply surjective_pairing.
  - vm_compute. reflexivity.
  - vm_compute. reflexivity.
  - vm_compute. reflexivity.
  - vm_compute. reflexivity.
  - assert (Hnew : prop "_id" (payload (register Demo.env DemoMore.register_bob Demo.store).1)
                    = Some (VStr DemoMore.new_id)) by (vm_compute; reflexivity).
    rewrite Hnew in Hid. injection Hid as Hid. rewrite Hlogin, <- Hid. reflexivity.
Defined.



Lemma profile_hides_password_witness :
  exists stored,
    In stored (users DemoMore.store2) /\
    payload (serve Demo.env GET_users_profile Demo.delete_tomatoes DemoMore.store2).1 =
      VObj (delete "password" stored).
Proof.
  destruct (profile_hides_password Demo.env Demo.delete_tomatoes DemoMore.store2
              (serve Demo.env GET_users_profile Demo.delete_tomatoes DemoMore.store2).2
              (serve Demo.env GET_users_profile Demo.delete_tomatoes DemoMore.store2).1)
    as (u & stored & _ & Hin & _ & Hp & _).
  - apply surjective_pairing.
  - vm_compute. reflexivity.
  - exists stored. split; [exact Hin|exact Hp].
Defined.


Lemma createProduct_seller_is_header_witness :
  exists p,
    products (serve Demo.env POST_vendors_products DemoMore.sells_in_other_name
                Demo.store).2 = [Demo.tomatoes; p] /\
    p !! "seller" = Some (VStr Demo.other_id).
Proof.
  destruct (createProduct_seller_is_header Demo.env DemoMore.sells_in_other_name Demo.store
              (serve Demo.env POST_vendors_products DemoMore.sells_in_other_name Demo.store).2
              (serve Demo.env POST_vendors_products DemoMore.sells_in_other_name Demo.store).1)
    as (u & uid & p & _ & _ & Hu & Hp & Hs & _).
  - apply surjective_pairing.
  - vm_compute. reflexivity.
  - assert (Hu' : headers DemoMore.sells_in_other_name !! "user-id" = Some Demo.other_id)
      by (vm_compute; reflexivity).
    rewrite Hu' in Hu. injection Hu as <-.
    exists p. split; [exact Hp|exact Hs].
Defined.

Lemma product_changes_need_seller_header_witness :
  exists p,
    List.find (has_id (param "productId" Demo.mark_sold)) (products Demo.store) = Some p /\
    toString Demo.env (field "seller" p) = Some Demo.vendor_id.
Proof.
  destruct (product_changes_need_seller_header Demo.env PUT_vendors_product Demo.mark_sold
              Demo.store
              (serve Demo.env PUT_vendors_product Demo.mark_sold Demo.store).2
              (serve Demo.env PUT_vendors_product Demo.mark_sold Demo.store).1)
    as (uid & p & Hu & _ & Hfind & Hs).
  - left. reflexivity.
  - apply surjective_pairing.
  - intros H. apply (f_equal (fun s => List.map (field "status") (products s))) in H.
    vm_compute in H. discriminate H.
  - assert (Hu' : headers Demo.mark_sold !! "user-id" = Some Demo.vendor_id)
      by (vm_compute; reflexivity).
    rewrite Hu' in Hu. injection Hu as <-.
    exists p. split; [exact Hfind|exact Hs].
Defined.

Lemma demo_new_product_id (x : doc) :
  In x (products Demo.store) -> has_id (ObjectId_new Demo.env) x = false.
Proof. intros [<-|[]]. vm_compute. reflexivity. Defined.

Lemma created_product_is_found_witness :
  status (getProductById Demo.env DemoMore.reads_new_product
            (createProduct Demo.env DemoMore.sells_in_other_name Demo.store).2).1 = 200.
Proof.
  destruct (created_product_is_found Demo.env Demo.env DemoMore.sells_in_other_name
              DemoMore.reads_new_product Demo.store
              (createProduct Demo.env DemoMore.sells_in_other_name Demo.store).2
              (createProduct Demo.env DemoMore.sells_in_other_name Demo.store).1)
    as (p & q & _ & Hget & _).
  - apply surjective_pairing.
  - vm_compute. reflexivity.
  - exact demo_new_product_id.
  - vm_compute. reflexivity.
  - vm_compute. reflexivity.
  - rewrite Hget. reflexivity.
Defined.

Lemma analytics_changes_need_listing_witness :
  exists a restrictedTo,
    List.find (has_id (param "analyticsId" DemoMore.deletes_report))
      (analytics Demo.store) = Some a /\
    prop "restrictedTo" (field "accessRights" a) = Some restrictedTo /\
    opt_includes restrictedTo Demo.ngo_id = Some true.
Proof.
  destruct (analytics_changes_need_listing Demo.env DELETE_ngos_analytics
              DemoMore.deletes_report Demo.store
              (serve Demo.env DELETE_ngos_analytics DemoMore.deletes_report Demo.store).2
              (serve Demo.env DELETE_ngos_analytics DemoMore.deletes_report Demo.store).1)
    as (uid & a & r & Hu & Hfind & Hr & Hinc).
  - right. reflexivity.
  - apply surjective_pairing.
  - intros H. apply (f_equal (fun s => length (analytics s))) in H.
    vm_compute in H. discriminate H.
  - assert (Hu' : headers DemoMore.deletes_report !! "user-id" = Some Demo.ngo_id)
      by (vm_compute; reflexivity).
    rewrite Hu' in Hu. injection Hu as <-.
    exists a, r. repeat split; assumption.
Defined.

Lemma demo_new_analytics_id (x : doc) :
  In x (analytics Demo.store) -> has_id (ObjectId_new Demo.env) x = false.
Proof. intros [<-|[]]. vm_compute. reflexivity. Defined.

Lemma public_analytics_cannot_be_written_witness :
  updateAnalytics Demo.env DemoMore.writes_new_report
    (createAnalytics Demo.env DemoMore.create_public Demo.store).2 =
    (message 403 "Not authorized to update these analytics",
     (createAnalytics Demo.env DemoMore.create_public Demo.store).2) /\
  deleteAnalytics Demo.env DemoMore.writes_new_report
    (createAnalytics Demo.env DemoMore.create_public Demo.store).2 =
    (message 403 "Not authorized to delete these analytics",
     (createAnalytics Demo.env DemoMore.create_public Demo.store).2).
Proof.
  apply (public_analytics_cannot_be_written Demo.env Demo.env DemoMore.create_public
           DemoMore.writes_new_report Demo.store
           (createAnalytics Demo.env DemoMore.create_public Demo.store).2
           (createAnalytics Demo.env DemoMore.create_public Demo.store).1
           Demo.ngo_id Demo.ngo_id
           (obj [("public", VBool true); ("restrictedTo", VArr [VStr Demo.ngo_id])])
           (VBool true)).
  - split; [vm_compute; reflexivity|discriminate].
  - apply surjective_pairing.
  - vm_compute. reflexivity.
  - vm_compute. reflexivity.
  - vm_compute. reflexivity.
  - reflexivity.
  - exact demo_new_analytics_id.
  - split; [vm_compute; reflexivity|discriminate].
  - vm_compute. reflexivity.
  - vm_compute. reflexivity.
Defined.

Lemma created_analytics_can_be_deleted_witness :
  deleteAnalytics Demo.env DemoMore.writes_new_report
    (createAnalytics Demo.env DemoRequests.create_shared Demo.store).2 =
  (json (obj [("message", VStr "Analytics removed")]), Demo.store).
Proof.
  apply (created_analytics_can_be_deleted Demo.env Demo.env DemoRequests.create_shared
           DemoMore.writes_new_report Demo.store
           (createAnalytics Demo.env DemoRequests.create_shared Demo.store).2
           (createAnalytics Demo.env DemoRequests.create_shared Demo.store).1
           Demo.ngo_id
           (obj [("public", VBool false); ("restrictedTo", VArr [VStr Demo.friend_id])])
           (VBool false)).
  - split; [vm_compute; reflexivity|discriminate].
  - apply surjective_pairing.
  - vm_compute. reflexivity.
  - vm_compute. reflexivity.
  - vm_compute. reflexivity.
  - reflexivity.
  - exact demo_new_analytics_id.
  - split; [vm_compute; reflexivity|discriminate].
  - vm_compute. reflexivity.
  - vm_compute. reflexivity.
Defined.


Lemma token_routes_ignore_other_headers_witness :
  serve Demo.env GET_farmers_farm
    (set_header "user-id" Demo.other_id DemoMore.renames_farm) Demo.store =
  serve Demo.env GET_farmers_farm DemoMore.renames_farm Demo.store.
Proof.
  apply (token_routes_ignore_other_headers Demo.env GET_farmers_farm DemoMore.renames_farm
           "user-id" Demo.other_id Demo.store).
  - left. reflexivity.
  - discriminate.
Defined.

Lemma farm_profile_is_upsert_witness :
  exists old new,
    In old (farms Demo.store) /\
    farms (serve Demo.env PUT_farmers_farm DemoMore.renames_farm Demo.store).2 =
      replace_first (same_id old) new (farms Demo.store) /\
    new !! "owner" = old !! "owner".
Proof.
  destruct (farm_profile_is_upsert Demo.env DemoMore.renames_farm Demo.store
              (serve Demo.env PUT_farmers_farm DemoMore.renames_farm Demo.store).2
              (serve Demo.env PUT_farmers_farm DemoMore.renames_farm Demo.store).1)
    as [_ H200].
  - apply surjective_pairing.
  - destruct H200 as (u & old & new & _ & Hin & _ & Hst & Howner & _);
      [vm_compute; reflexivity|].
    exists old, new. repeat split; assumption.
Defined.

Lemma addCrop_appends_one_crop_witness :
  exists u crops crop,
    crops_replaced Demo.env u DemoMore.store2
      (serve Demo.env POST_farmers_crops DemoMore.adds_rice DemoMore.store2).2
      crops (crops ++ [VObj crop]) /\
    field "name" crop = VStr "Rice".
Proof.
  destruct (addCrop_appends_one_crop Demo.env DemoMore.adds_rice DemoMore.store2
              (serve Demo.env POST_farmers_crops DemoMore.adds_rice DemoMore.store2).2
              (serve Demo.env POST_farmers_crops DemoMore.adds_rice DemoMore.store2).1)
    as (u & crops & crop & _ & Hrep & _ & Hname & _).
  - apply surjective_pairing.
  - vm_compute. reflexivity.
  - assert (Hn : prop "name" (body DemoMore.adds_rice) = Some (VStr "Rice"))
      by (vm_compute; reflexivity).
    rewrite Hn in Hname. injection Hname as Hname.
    exists u, crops, crop. split; [exact Hrep|]. symmetry. exact Hname.
Defined.


Lemma updateCrop_rewrites_one_crop_witness :
  exists u crops i edited,
    crops_replaced Demo.env u DemoMore.store2
      (serve Demo.env PUT_farmers_crop DemoMore.grows_maize DemoMore.store2).2
      crops (<[i := VObj edited]> crops) /\
    payload (serve Demo.env PUT_farmers_crop DemoMore.grows_maize DemoMore.store2).1 =
      VObj edited.
Proof.
  destruct (updateCrop_rewrites_one_crop Demo.env DemoMore.grows_maize DemoMore.store2
              (serve Demo.env PUT_farmers_crop DemoMore.grows_maize DemoMore.store2).2
              (serve Demo.env PUT_farmers_crop DemoMore.grows_maize DemoMore.store2).1)
    as (u & crops & i & crop & edited & _ & _ & _ & _ & Hrep & _ & Hp).
  - apply surjective_pairing.
  - vm_compute. reflexivity.
  - exists u, crops, i, edited. split; [exact Hrep|exact Hp].
Defined.

Lemma demo_draws_in_range (k : nat) :
  (0 <= Math_random Demo.env k)%Q /\ (Math_random Demo.env k < 1)%Q.
Proof. split; [apply Qle_refl|reflexivity]. Defined.


Lemma demand_forecasts_are_well_formed_witness :
  exists fs,
    payload (getDemandForecasts Demo.env Demo.delete_tomatoes Demo.store).1 = VArr fs /\
    List.Forall well_formed_forecast fs.
Proof.
  destruct (demand_forecasts_are_well_formed Demo.env Demo.delete_tomatoes Demo.store
              (getDemandForecasts Demo.env Demo.delete_tomatoes Demo.store).2
              (getDemandForecasts Demo.env Demo.delete_tomatoes Demo.store).1)
    as (fs & Hp & _ & Hall & _).
  - exact demo_draws_in_range.
  - intros l j. reflexivity.
  - apply surjective_pairing.
  - vm_compute. reflexivity.
  - exists fs. split; [exact Hp|exact Hall].
Defined.

Lemma product_routes_show_seller_contact_only_witness :
  exists qs,
    payload (listProducts Demo.delete_tomatoes DemoMore.store2).1 = VArr qs /\
    List.Forall shows_seller_contact_only qs.
Proof.
  destruct (product_routes_show_seller_contact_only Demo.env Demo.delete_tomatoes
              DemoMore.store2
              (listProducts Demo.delete_tomatoes DemoMore.store2).2
              (listProducts Demo.delete_tomatoes DemoMore.store2).1) as [Hlist _].
  - vm_compute. reflexivity.
  - apply Hlist. apply surjective_pairing.
Defined.



Lemma readable_analytics_are_shown_witness :
  getAnalyticsById Demo.env DemoRequests.export_csv Demo.store =
    (json (VObj Demo.report), Demo.store) /\
  exists l, getAnalytics Demo.env DemoMore.lists_reports Demo.store = (json (VArr l), Demo.store) /\
            In (VObj Demo.report) l.
Proof.
  destruct (readable_analytics_are_shown Demo.env DemoRequests.export_csv Demo.store
              Demo.ngo_id Demo.report) as [Hget _].
  { split; [vm_compute; reflexivity|discriminate]. }
  { exists DemoRequests.access_rights. split; [vm_compute; reflexivity|].
    right. exists [VStr Demo.ngo_id]. split; [vm_compute; reflexivity|]. left. reflexivity. }
  split.
  - apply Hget. split; vm_compute; reflexivity.
  - destruct (readable_analytics_are_shown Demo.env DemoMore.lists_reports Demo.store
                Demo.ngo_id Demo.report) as [_ Hlist].
    { split; [vm_compute; reflexivity|discriminate]. }
    { exists DemoRequests.access_rights. split; [vm_compute; reflexivity|].
      right. exists [VStr Demo.ngo_id]. split; [vm_compute; reflexivity|]. left. reflexivity. }
    apply Hlist; [left; reflexivity|vm_compute; reflexivity].
Defined.




